(** * DMF school-administration backend: visit scheduling, reporting and
      bulk onboarding services

    A shallow embedding of [src/services/lifeSkillTrainer.service.js] and of
    the school service over an explicit model of the document
    store.  Every service is a computation in a state-and-exception monad
    over [World]: the four collections the services touch, the ObjectId
    allocator, and the ordered log of persistence requests the service
    issued.  An exception leaves the writes made before it in place, as a
    rejected promise does. *)

From stdpp Require Import base option list strings gmap pretty.
From Stdlib Require Import NArith Lia.

Open Scope string_scope.
Open Scope list_scope.
Open Scope nat_scope.

(** ** JavaScript values *)

Abbreviation ObjectId := nat (only parsing).
Abbreviation Timestamp := nat (only parsing).

(** Truthiness of a string-valued field: [undefined]/[null] (here [None])
    and the empty string are falsy. *)
Definition truthy (o : option string) : bool :=
  match o with
  | Some s => negb (String.eqb s "")
  | None => false
  end.

(** Truthiness of a number such as [xs.length]: zero is falsy. *)
Definition nonZero (n : nat) : bool := negb (Nat.eqb n 0).

(** [http-status] constants used by the services. *)
Module httpStatus.
Definition NOT_FOUND : nat := 404.
Definition CONFLICT : nat := 409.
End httpStatus.

(** What a service can throw: the domain error [ApiError(statusCode, message)],
    the runtime's [TypeError], and a rejection coming from the push
    notification adapter. *)
Inductive Exn :=
| ApiError (statusCode : nat) (message : string)
| TypeError (message : string)
| MessagingError.

(** ** Documents *)

(** Modelled from the spec: the LifeTrainerVisit schema
    (models/lifeTrainerVisit.model.js is not part of the sources).  Fields
    are those of the data model; [status] is string valued and the six
    attendance fields are optional strings. *)
Module VisitDoc.
Record t := mk {
  _id : ObjectId;
  trainer : ObjectId;
  schoolId : string;
  visitDate : string;
  time : string;
  standard : option string;
  status : string;
  inTime : option string;
  outTime : option string;
  inDate : option string;
  outDate : option string;
  file : option string;
  file1 : option string;
  createdAt : Timestamp
}.

Definition set_status (s : string) (v : t) : t :=
  mk (_id v) (trainer v) (schoolId v) (visitDate v) (time v) (standard v)
     s (inTime v) (outTime v) (inDate v) (outDate v) (file v) (file1 v)
     (createdAt v).
End VisitDoc.

(** Modelled from the spec: the User schema (models/user.model.js is not
    part of the sources). *)
Module UserDoc.
Record t := mk {
  _id : ObjectId;
  firstName : option string;
  lastName : option string;
  mobNumber : option string;
  username : option string;
  password : option string;
  role : string;
  deviceToken : option string;
  visits : list ObjectId
}.

Definition set_visits (vs : list ObjectId) (u : t) : t :=
  mk (_id u) (firstName u) (lastName u) (mobNumber u) (username u)
     (password u) (role u) (deviceToken u) vs.
End UserDoc.

(** The School schema, as declared in the school model. *)
Module SchoolDoc.
Record t := mk {
  _id : ObjectId;
  schoolId : string;
  name : option string;
  contact_number : option string;
  address : option string;
  udisecode : option string;
  district : option string;
  block : option string
}.
End SchoolDoc.

(** Modelled from the spec: the Student schema (models/student.model.js is
    not part of the sources); only the school scope is read here. *)
Module StudentDoc.
Record t := mk {
  _id : ObjectId;
  schoolId : string
}.
End StudentDoc.

(** ** The store *)

(** Persistence requests and adapter calls, in the order the service issued
    them. *)
Inductive Event :=
| VisitSaved (id : ObjectId)
| VisitRemoved (id : ObjectId)
| UserSaved (id : ObjectId)
| UserCreated (id : ObjectId)
| SchoolSaved (id : ObjectId)
| NotificationSent (deviceToken title body : string).

Record World := mkWorld {
  visits : list VisitDoc.t;
  users : list UserDoc.t;
  schools : list SchoolDoc.t;
  students : list StudentDoc.t;
  nextId : ObjectId;
  log : list Event
}.

(** ** The service monad *)

Inductive Result (A : Type) :=
| Ok (a : A)
| Throw (e : Exn).
Arguments Ok {A} a.
Arguments Throw {A} e.

Definition M (A : Type) : Type := World → Result A * World.

#[global] Instance M_ret : MRet M := λ A a w, (Ok a, w).
#[global] Instance M_bind : MBind M := λ A B f m w,
  match m w with
  | (Ok a, w') => f a w'
  | (Throw e, w') => (Throw e, w')
  end.

Definition throw {A} (e : Exn) : M A := λ w, (Throw e, w).
Definition gets {A} (f : World → A) : M A := λ w, (Ok (f w), w).
Definition modify (f : World → World) : M unit := λ w, (Ok tt, f w).

Definition emit (e : Event) (w : World) : World :=
  mkWorld (visits w) (users w) (schools w) (students w) (nextId w)
          (log w ++ [e]).

(** A fresh ObjectId, as the driver generates one for every new document. *)
Definition freshId : M ObjectId := λ w,
  (Ok (nextId w),
   mkWorld (visits w) (users w) (schools w) (students w) (S (nextId w)) (log w)).

(** ** Collection primitives *)

(** [updateOne({_id}, doc)]: the first document carrying the key is
    replaced; nothing happens when there is none. *)
Fixpoint replaceById {A} (key : A → ObjectId) (a : A) (l : list A) : list A :=
  match l with
  | [] => []
  | x :: l' =>
      if bool_decide (key x = key a) then a :: l' else x :: replaceById key a l'
  end.

(** [deleteOne({_id})]: the first document carrying the key is removed. *)
Fixpoint deleteById {A} (key : A → ObjectId) (id : ObjectId) (l : list A) : list A :=
  match l with
  | [] => []
  | x :: l' =>
      if bool_decide (key x = id) then l' else x :: deleteById key id l'
  end.

(** The filter [{ _id }] on either collection. *)
Definition visitById (id : ObjectId) (v : VisitDoc.t) : bool :=
  bool_decide (VisitDoc._id v = id).

Definition userById (id : ObjectId) (u : UserDoc.t) : bool :=
  bool_decide (UserDoc._id u = id).

Module LifeTrainerVisit.
(** [findOne(filter)]: the first match in collection order. *)
Definition findOne (filter : VisitDoc.t → bool) : M (option VisitDoc.t) :=
  gets (λ w, List.find filter (visits w)).

Definition find (filter : VisitDoc.t → bool) : M (list VisitDoc.t) :=
  gets (λ w, List.filter filter (visits w)).

Definition findById (id : ObjectId) : M (option VisitDoc.t) :=
  findOne (visitById id).

(** Modelled from the spec: schema default of [status]; a visit's
    lifecycle starts at [scheduled]. *)
Definition defaultStatus : string := "scheduled".

(** [new LifeTrainerVisit({ trainer, schoolId, visitDate, time })]: the
    document gets its [_id] at construction and is not yet stored. *)
Definition new (now : Timestamp) (trainer : ObjectId)
    (schoolId visitDate time : string) : M VisitDoc.t :=
  id ← freshId;
  mret (VisitDoc.mk id trainer schoolId visitDate time None defaultStatus
                    None None None None None None now).

(** [doc.save()] on a new document: insert. *)
Definition insert (v : VisitDoc.t) : M unit :=
  modify (λ w, emit (VisitSaved (VisitDoc._id v))
    (mkWorld (visits w ++ [v]) (users w) (schools w) (students w)
             (nextId w) (log w))).

(** [doc.save()] on a loaded document: update by [_id]. *)
Definition save (v : VisitDoc.t) : M unit :=
  modify (λ w, emit (VisitSaved (VisitDoc._id v))
    (mkWorld (replaceById VisitDoc._id v (visits w)) (users w) (schools w)
             (students w) (nextId w) (log w))).

(** [doc.remove()]. *)
Definition remove (v : VisitDoc.t) : M unit :=
  modify (λ w, emit (VisitRemoved (VisitDoc._id v))
    (mkWorld (deleteById VisitDoc._id (VisitDoc._id v) (visits w)) (users w)
             (schools w) (students w) (nextId w) (log w))).
End LifeTrainerVisit.

Module User.
Definition findOne (filter : UserDoc.t → bool) : M (option UserDoc.t) :=
  gets (λ w, List.find filter (users w)).

Definition findById (id : ObjectId) : M (option UserDoc.t) :=
  findOne (userById id).

(** [doc.save()] on a loaded document: update by [_id]. *)
Definition save (u : UserDoc.t) : M unit :=
  modify (λ w, emit (UserSaved (UserDoc._id u))
    (mkWorld (visits w) (replaceById UserDoc._id u (users w)) (schools w)
             (students w) (nextId w) (log w))).

(** [User.create({ firstName, lastName, mobNumber, username, password,
    role })]. *)
Definition create (firstName lastName mobNumber username password : option string)
    (role : string) : M UserDoc.t :=
  id ← freshId;
  let u := UserDoc.mk id firstName lastName mobNumber username password
                      role None [] in
  modify (λ w, emit (UserCreated id)
    (mkWorld (visits w) (users w ++ [u]) (schools w) (students w)
             (nextId w) (log w)));;
  mret u.
End User.

Module Student.
Definition countDocuments (filter : StudentDoc.t → bool) : M nat :=
  gets (λ w, length (List.filter filter (students w))).
End Student.

(** ** lifeSkillTrainer.service.js *)

Section LifeSkillTrainerService.

(** The push-notification adapter, [admin.messaging().send(message)]:
    [true] when the message is accepted, [false] when the call rejects. *)
Variable messaging_send : string → string → string → bool.

Definition sendNotification (deviceToken title body : string) : M unit :=
  if messaging_send deviceToken title body
  then modify (emit (NotificationSent deviceToken title body))
  else throw MessagingError.

(** The filter [{ trainer, schoolId, visitDate, time }]. *)
Definition slotFilter (trainerId : ObjectId) (schoolId visitDate time : string)
    (v : VisitDoc.t) : bool :=
  bool_decide (VisitDoc.trainer v = trainerId)
  && bool_decide (VisitDoc.schoolId v = schoolId)
  && bool_decide (VisitDoc.visitDate v = visitDate)
  && bool_decide (VisitDoc.time v = time).

Definition scheduleVisit (now : Timestamp) (trainerId : ObjectId)
    (schoolId visitDate time : string) : M VisitDoc.t :=
  (* Check for duplicate visit *)
  existingVisit ← LifeTrainerVisit.findOne
                    (slotFilter trainerId schoolId visitDate time);
  if existingVisit is Some _ then
    throw (ApiError httpStatus.CONFLICT "Visit scheduled already found")
  else
    (* Create new visit *)
    visit ← LifeTrainerVisit.new now trainerId schoolId visitDate time;
    LifeTrainerVisit.insert visit;;
    (* Update trainer's visits *)
    trainer ← User.findById trainerId;
    match trainer with
    | None => throw (ApiError httpStatus.NOT_FOUND "Trainer not found")
    | Some trainer =>
        let trainer :=
          UserDoc.set_visits (UserDoc.visits trainer ++ [VisitDoc._id visit])
                             trainer in
        let deviceToken := UserDoc.deviceToken trainer in
        (if truthy deviceToken then
           let body := "You have assined visit for" +:+ schoolId
                       +:+ " date " +:+ visitDate in
           let title := "Visits" in
           sendNotification (default "" deviceToken) title body
         else mret tt);;
        User.save trainer;;
        mret visit
    end.

(** *** getTrainerVisits: the aggregation pipeline *)

(** [$lookup { from: 'schools', localField: 'schoolId',
    foreignField: 'schoolId', as: 'school' }]: every visit is paired with
    the array of all school documents carrying its [schoolId]. *)
Definition lookupSchools (schools : list SchoolDoc.t) (docs : list VisitDoc.t)
    : list (VisitDoc.t * list SchoolDoc.t) :=
  (λ v, (v, List.filter
              (λ s, bool_decide (SchoolDoc.schoolId s = VisitDoc.schoolId v))
              schools)) <$> docs.

(** [$unwind '$school']: one output document per element of the array; a
    document whose array is empty produces none. *)
Definition unwindSchool (docs : list (VisitDoc.t * list SchoolDoc.t))
    : list (VisitDoc.t * SchoolDoc.t) :=
  d ← docs; (λ s, (d.1, s)) <$> d.2.

(** The projected document. *)
Record TrainerVisit := mkTrainerVisit {
  tv_id : ObjectId;
  tv_visitDate : string;
  tv_time : string;
  tv_standard : option string;
  tv_status : string;
  tv_createdAt : Timestamp;
  tv_school : SchoolDoc.t
}.

(** [$project { _id: 1, visitDate: 1, time: 1, standard: 1, status: 1,
    createdAt: 1, school: '$school' }]. *)
Definition project (d : VisitDoc.t * SchoolDoc.t) : TrainerVisit :=
  mkTrainerVisit (VisitDoc._id d.1) (VisitDoc.visitDate d.1) (VisitDoc.time d.1)
                 (VisitDoc.standard d.1) (VisitDoc.status d.1)
                 (VisitDoc.createdAt d.1) d.2.

(** [LifeTrainerVisit.aggregate(pipeline)]: the pipeline runs over the
    visits collection and may read the other collections. *)
Definition aggregate {B} (pipeline : World → list VisitDoc.t → B) : M B :=
  gets (λ w, pipeline w (visits w)).

Definition getTrainerVisits (trainerId : ObjectId) (status : option string)
    : M (list TrainerVisit) :=
  let matchStage :=
    if truthy status then
      (* If status is provided, filter by both trainerId and status *)
      λ v, bool_decide (VisitDoc.trainer v = trainerId)
           && bool_decide (Some (VisitDoc.status v) = status)
    else
      (* If status is not provided, filter only by trainerId *)
      λ v, bool_decide (VisitDoc.trainer v = trainerId) in
  visits ← aggregate (λ w docs,
    project <$> (unwindSchool (lookupSchools (schools w)
                                 (List.filter matchStage docs))));
  mret visits.

(** *** getVisitsBySchoolId *)

(** [.select('firstName lastName mobNumber')]. *)
Record Counselor := mkCounselor {
  c_id : ObjectId;
  c_firstName : option string;
  c_lastName : option string;
  c_mobNumber : option string
}.

Definition selectCounselor (u : UserDoc.t) : Counselor :=
  mkCounselor (UserDoc._id u) (UserDoc.firstName u) (UserDoc.lastName u)
              (UserDoc.mobNumber u).

Record PopulatedVisit := mkPopulatedVisit {
  pv_visit : VisitDoc.t;
  pv_counselor : option Counselor;
  pv_createdAt : Timestamp
}.

(** [for (const x of xs) { ... acc.push(await body(x)) }]. *)
Fixpoint forOf {A B} (body : A → M B) (xs : list A) (acc : list B) : M (list B) :=
  match xs with
  | [] => mret acc
  | x :: xs' => b ← body x; forOf body xs' (acc ++ [b])
  end.

(** The filter [{ _id: visit.trainer, role: 'skillTrainer' }]. *)
Definition skillTrainerOf (visit : VisitDoc.t) (u : UserDoc.t) : bool :=
  bool_decide (UserDoc._id u = VisitDoc.trainer visit)
  && bool_decide (UserDoc.role u = "skillTrainer").

Definition getVisitsBySchoolId (schoolId : string) : M (list PopulatedVisit) :=
  visits ← LifeTrainerVisit.find
             (λ v, bool_decide (VisitDoc.schoolId v = schoolId));
  if bool_decide (length visits = 0) then
    throw (ApiError httpStatus.NOT_FOUND "Visits not found")
  else
    populatedVisits ← forOf (λ visit,
        let createdAt := VisitDoc.createdAt visit in
        counselor ← User.findOne (skillTrainerOf visit);
        mret (mkPopulatedVisit visit (selectCounselor <$> counselor) createdAt))
      visits [];
    mret populatedVisits.

Definition getVisitById (id : ObjectId) : M (option VisitDoc.t) :=
  LifeTrainerVisit.findById id.

(** *** getSchoolIdsAndStudentCount *)

(** [[...new Set(xs)]]: insertion order, later duplicates dropped. *)
Definition newSet (xs : list string) : list string :=
  foldl (λ acc x, if bool_decide (x ∈ acc) then acc else acc ++ [x]) [] xs.

(** [$group { _id: '$status', count: { $sum: 1 } }] over the keys of the
    matched documents: one entry per distinct key. *)
Fixpoint sumInto (k : string) (acc : list (string * nat)) : list (string * nat) :=
  match acc with
  | [] => [(k, 1)]
  | (k', n) :: acc' =>
      if bool_decide (k' = k) then (k', S n) :: acc'
      else (k', n) :: sumInto k acc'
  end.

Definition groupCount (keys : list string) : list (string * nat) :=
  foldl (λ acc k, sumInto k acc) [] keys.

Record TrainerSummary := mkTrainerSummary {
  totalSchools : nat;
  totalStudents : nat;
  statusCounts : gmap string nat
}.

Definition getSchoolIdsAndStudentCount (trainerId : ObjectId) : M TrainerSummary :=
  (* Fetch visits assigned to the trainer *)
  visits ← LifeTrainerVisit.find
             (λ v, bool_decide (VisitDoc.trainer v = trainerId));
  (* Get unique school IDs *)
  let uniqueSchoolIds := newSet (VisitDoc.schoolId <$> visits) in
  let totalSchools := length uniqueSchoolIds in
  (* Count the total number of students in those schools *)
  totalStudents ← Student.countDocuments
                    (λ s, bool_decide (StudentDoc.schoolId s ∈ uniqueSchoolIds));
  (* Count visits by status *)
  statusCounts ← aggregate (λ _ docs,
    groupCount (VisitDoc.status <$>
                  (List.filter (λ v, bool_decide (VisitDoc.trainer v = trainerId))
                               docs)));
  (* Format status counts into an object *)
  let statusCountMap :=
    foldl (λ (acc : gmap string nat) curr, <[curr.1 := curr.2]> acc) ∅
          statusCounts in
  mret (mkTrainerSummary totalSchools totalStudents statusCountMap).

(** *** updateVisitById *)

(** A request body for a visit update: [None] is an absent key, [Some x]
    a key carrying [x] (for an optional field [Some None] carries
    [null]). *)
Record VisitUpdate := mkVisitUpdate {
  ub_trainer : option ObjectId;
  ub_schoolId : option string;
  ub_visitDate : option string;
  ub_time : option string;
  ub_standard : option (option string);
  ub_status : option string;
  ub_inTime : option (option string);
  ub_outTime : option (option string);
  ub_inDate : option (option string);
  ub_outDate : option (option string);
  ub_file : option (option string);
  ub_file1 : option (option string)
}.

(** [Object.assign(result, updateBody)]: every key present in the body
    overwrites the document's field. *)
Definition Object_assign (result : VisitDoc.t) (updateBody : VisitUpdate)
    : VisitDoc.t :=
  VisitDoc.mk (VisitDoc._id result)
    (default (VisitDoc.trainer result) (ub_trainer updateBody))
    (default (VisitDoc.schoolId result) (ub_schoolId updateBody))
    (default (VisitDoc.visitDate result) (ub_visitDate updateBody))
    (default (VisitDoc.time result) (ub_time updateBody))
    (default (VisitDoc.standard result) (ub_standard updateBody))
    (default (VisitDoc.status result) (ub_status updateBody))
    (default (VisitDoc.inTime result) (ub_inTime updateBody))
    (default (VisitDoc.outTime result) (ub_outTime updateBody))
    (default (VisitDoc.inDate result) (ub_inDate updateBody))
    (default (VisitDoc.outDate result) (ub_outDate updateBody))
    (default (VisitDoc.file result) (ub_file updateBody))
    (default (VisitDoc.file1 result) (ub_file1 updateBody))
    (VisitDoc.createdAt result).

(** [inTime && outTime && inDate && outDate && file && file1]. *)
Definition attendanceComplete (v : VisitDoc.t) : bool :=
  truthy (VisitDoc.inTime v) && truthy (VisitDoc.outTime v)
  && truthy (VisitDoc.inDate v) && truthy (VisitDoc.outDate v)
  && truthy (VisitDoc.file v) && truthy (VisitDoc.file1 v).

(** The filter [{ schoolId, trainer }]. *)
Definition visitOf (schoolId : string) (trainer : ObjectId) (v : VisitDoc.t)
    : bool :=
  bool_decide (VisitDoc.schoolId v = schoolId)
  && bool_decide (VisitDoc.trainer v = trainer).

Definition updateVisitById (schoolId : string) (trainer : ObjectId)
    (updateBody : VisitUpdate) : M VisitDoc.t :=
  (* Find the visit document by schoolId and trainer *)
  result ← LifeTrainerVisit.findOne (visitOf schoolId trainer);
  match result with
  | None => throw (ApiError httpStatus.NOT_FOUND "Visit not found")
  | Some result =>
      let result := Object_assign result updateBody in
      LifeTrainerVisit.save result;;
      (* Check if all conditions are met to set status to 'completed' *)
      if attendanceComplete result then
        let result := VisitDoc.set_status "completed" result in
        LifeTrainerVisit.save result;;
        mret result
      else mret result
  end.

(** *** deleteVisit *)

(** [MongooseArray.pull(x)]: every occurrence of [x] goes. *)
Definition pull (x : ObjectId) (xs : list ObjectId) : list ObjectId :=
  List.filter (λ y, negb (bool_decide (y = x))) xs.

Definition deleteVisit (visitId : ObjectId) : M VisitDoc.t :=
  (* Find the visit by ID *)
  visit ← LifeTrainerVisit.findById visitId;
  match visit with
  | None => throw (ApiError httpStatus.NOT_FOUND "Visit not found")
  | Some visit =>
      (* Remove the visit from the trainer's visits array *)
      trainer ← User.findById (VisitDoc.trainer visit);
      match trainer with
      | None => throw (ApiError httpStatus.NOT_FOUND "Trainer not found")
      | Some trainer =>
          let trainer :=
            UserDoc.set_visits (pull visitId (UserDoc.visits trainer)) trainer in
          User.save trainer;;
          (* Delete the visit *)
          LifeTrainerVisit.remove visit;;
          mret visit
      end
  end.

End LifeSkillTrainerService.

(** ** school.service.js: bulkUpload *)

(** One row of the uploaded batch (a parsed request body entry or a CSV
    row): the school's own columns and the contact columns that feed the
    companion account. *)
Module SchoolInput.
Record t := mk {
  name : option string;
  contact_number : option string;
  address : option string;
  udisecode : option string;
  district : option string;
  block : option string;
  firstname : option string;
  lastname : option string;
  mobNumber : option string
}.
End SchoolInput.

Module School.
Definition findOne (filter : SchoolDoc.t → bool) : M (option SchoolDoc.t) :=
  gets (λ w, List.find filter (schools w)).

(** [new School({ ...school, schoolId })]: the schema keeps its own paths
    of the row and drops the others. *)
Definition new (school : SchoolInput.t) (schoolId : string) : M SchoolDoc.t :=
  id ← freshId;
  mret (SchoolDoc.mk id schoolId (SchoolInput.name school)
          (SchoolInput.contact_number school) (SchoolInput.address school)
          (SchoolInput.udisecode school) (SchoolInput.district school)
          (SchoolInput.block school)).

(** [record.save()] on a new document: insert. *)
Definition insert (d : SchoolDoc.t) : M unit :=
  modify (λ w, emit (SchoolSaved (SchoolDoc._id d))
    (mkWorld (visits w) (users w) (schools w ++ [d]) (students w)
             (nextId w) (log w))).

(** [doc.save()] on a loaded document: update by [_id]. *)
Definition save (d : SchoolDoc.t) : M unit :=
  modify (λ w, emit (SchoolSaved (SchoolDoc._id d))
    (mkWorld (visits w) (users w) (replaceById SchoolDoc._id d (schools w))
             (students w) (nextId w) (log w))).
End School.

(** The request body [{ schools: [...] }]; [schools] may be missing. *)
Record SchoolArray := mkSchoolArray {
  sa_schools : option (list SchoolInput.t)
}.

Record Tally := mkTally {
  total : nat;
  data : list SchoolInput.t
}.

Inductive BulkResponse :=
| ErrorResponse (error : bool) (message : string)
| Summary (nonduplicates duplicates : Tally).

(** [`SCH${Math.floor(Math.random() * 900000) + 100000}`].  The argument is
    the draw [Math.floor(Math.random() * 900000)], reduced to the range that
    expression takes. *)
Definition generateSchoolId (draw : N) : string :=
  "SCH" +:+ pretty (draw mod 900000 + 100000)%N.

(** The callback of [schools.map(async (school) => ...)] suspends at each of
    its three [await]s.  A task is the point where one invocation is
    suspended, with the locals it still needs. *)
Inductive Task :=
| AwaitFindOne (school : SchoolInput.t)
| AwaitSave (school : SchoolInput.t) (schoolId : string) (record : SchoolDoc.t)
| AwaitCreate (school : SchoolInput.t) (schoolId : string)
| Settled.

(** The variables the callbacks share, and the number of [Math.random]
    draws made so far. *)
Record Upload := mkUpload {
  tasks : list Task;
  dups : list SchoolInput.t;
  records : list SchoolInput.t;
  draws : nat
}.

(** [let modifiedSchoolsArray = schoolArray;
     if (csvFilePath) modifiedSchoolsArray = { schools: csvFilePath };]
    [schoolArray] is [null] ([None]) when the caller passes the parsed CSV
    rows instead; an array, empty or not, is truthy. *)
Definition modifiedSchoolsArray (schoolArray : option SchoolArray)
    (csvFilePath : option (list SchoolInput.t)) : option SchoolArray :=
  if csvFilePath is Some rows then Some (mkSchoolArray (Some rows))
  else schoolArray.

Section BulkUpload.

(** [random k]: the [k]-th value of [Math.floor(Math.random() * 900000)]. *)
Variable random : nat → N.

(** Task [i] runs from the [await] it is suspended at to its next one:
    the awaited store operation is performed and the code up to the next
    [await] runs. *)
Definition resume (i : nat) (st : Upload) : M Upload :=
  match tasks st !! i with
  | Some (AwaitFindOne school) =>
      schoolFound ← School.findOne
        (λ d, bool_decide (SchoolDoc.udisecode d = SchoolInput.udisecode school));
      if schoolFound is Some _ then
        mret (mkUpload (<[i := Settled]> (tasks st)) (dups st ++ [school])
                       (records st) (draws st))
      else
        let schoolId := generateSchoolId (random (draws st)) in
        record ← School.new school schoolId;
        mret (mkUpload (<[i := AwaitSave school schoolId record]> (tasks st))
                       (dups st) (records st) (S (draws st)))
  | Some (AwaitSave school schoolId record) =>
      (* a saved document is truthy: [if (record)] always takes its branch *)
      School.insert record;;
      mret (mkUpload (<[i := AwaitCreate school schoolId]> (tasks st)) (dups st)
                     (records st ++ [school]) (draws st))
  | Some (AwaitCreate school schoolId) =>
      User.create (SchoolInput.firstname school) (SchoolInput.lastname school)
                  (SchoolInput.mobNumber school) (Some schoolId)
                  (Some "admin@123") "school";;
      mret (mkUpload (<[i := Settled]> (tasks st)) (dups st) (records st)
                     (draws st))
  | Some Settled | None => mret st
  end.

(** The event loop resumes the tasks in the order of [schedule]. *)
Fixpoint run (schedule : list nat) (st : Upload) : M Upload :=
  match schedule with
  | [] => mret st
  | i :: schedule' => st' ← resume i st; run schedule' st'
  end.

(** [Promise.all] waits for every task: whatever is still suspended when
    [schedule] is used up is run to its end, in index order. *)
Definition drain (n : nat) : list nat :=
  flat_map (λ i, [i; i; i]) (seq 0 n).

Definition bulkUpload (schedule : list nat) (schoolArray : option SchoolArray)
    (csvFilePath : option (list SchoolInput.t)) : M BulkResponse :=
  match modifiedSchoolsArray schoolArray csvFilePath with
  | None => throw (TypeError "Cannot read property 'schools' of null")
  | Some modifiedSchoolsArray =>
      match sa_schools modifiedSchoolsArray with
      | None | Some [] => mret (ErrorResponse true "missing array")
      | Some rows =>
          st ← run (schedule ++ drain (length rows))
                   (mkUpload (AwaitFindOne <$> rows) [] [] 0);
          let duplicates :=
            mkTally (if nonZero (length (dups st)) then length (dups st) else 0)
                    (if nonZero (length (dups st)) then dups st else []) in
          let nonduplicates :=
            mkTally (if nonZero (length (records st)) then length (records st)
                     else 0)
                    (if nonZero (length (records st)) then records st else []) in
          mret (Summary nonduplicates duplicates)
      end
  end.

End BulkUpload.

(** ** school.service.js: block queries *)

(** [School.find({}, { block: 1 }).distinct('block')]: the values of [block]
    over all schools, each listed once; a school without a block contributes
    none.  The order of the values is the store's business; the statements
    about the list do not depend on it. *)
Definition getBlockList : M (list string) :=
  block ← gets (λ w, newSet (omap SchoolDoc.block (schools w)));
  mret block.

(** The projection [{ name: 1, code: 1 }]: [_id] and [name] ([code] is not a
    path of the schema). *)
Record SchoolListItem := mkSchoolListItem {
  sl_id : ObjectId;
  sl_name : option string
}.

(** [School.find({ block }, { name: 1, code: 1 })]. *)
Definition getSchoolList (block : string) : M (list SchoolListItem) :=
  schools ← gets (λ w,
    (λ d, mkSchoolListItem (SchoolDoc._id d) (SchoolDoc.name d))
      <$> List.filter (λ d, bool_decide (SchoolDoc.block d = Some block))
                      (schools w));
  mret schools.

(** ** school.service.js: update by code *)

(** A request body for a school update, over the paths of the School
    schema: [None] is an absent key, [Some x] a key carrying [x]. *)
Record SchoolUpdate := mkSchoolUpdate {
  su_schoolId : option string;
  su_name : option (option string);
  su_contact_number : option (option string);
  su_address : option (option string);
  su_udisecode : option (option string);
  su_district : option (option string);
  su_block : option (option string)
}.

(** [Object.assign(result, updateBody)] on a school document. *)
Definition Object_assign_school (result : SchoolDoc.t) (updateBody : SchoolUpdate)
    : SchoolDoc.t :=
  SchoolDoc.mk (SchoolDoc._id result)
    (default (SchoolDoc.schoolId result) (su_schoolId updateBody))
    (default (SchoolDoc.name result) (su_name updateBody))
    (default (SchoolDoc.contact_number result) (su_contact_number updateBody))
    (default (SchoolDoc.address result) (su_address updateBody))
    (default (SchoolDoc.udisecode result) (su_udisecode updateBody))
    (default (SchoolDoc.district result) (su_district updateBody))
    (default (SchoolDoc.block result) (su_block updateBody)).

Section SchoolByCode.

(** The answer of [School.findOne({ code })] over the stored schools.
    [code] is not a path of the School schema, so which school the query
    returns, if any, is decided by Mongoose's handling of unknown filter
    keys, which is configured outside these sources: the answer is a
    parameter. *)
Variable findOneByCode : string → list SchoolDoc.t → option SchoolDoc.t.

Definition getSchoolByScode (code : string) : M (option SchoolDoc.t) :=
  gets (λ w, findOneByCode code (schools w)).

Definition updateSchoolByScode (scode : string) (updateBody : SchoolUpdate)
    : M SchoolDoc.t :=
  result ← getSchoolByScode scode;
  match result with
  | None => throw (ApiError httpStatus.NOT_FOUND "SChool not found")
  | Some result =>
      let result := Object_assign_school result updateBody in
      School.save result;;
      mret result
  end.

End SchoolByCode.

(** ** Store invariant *)

(** Identifiers are unique within a collection and were all handed out by
    the allocator. *)
Record wf (w : World) : Prop := mkWf {
  wf_visits : NoDup (VisitDoc._id <$> visits w);
  wf_users : NoDup (UserDoc._id <$> users w);
  wf_visits_lt : Forall (λ v, VisitDoc._id v < nextId w) (visits w);
  wf_users_lt : Forall (λ u, UserDoc._id u < nextId w) (users w)
}.

(** ** Vocabulary of the statements *)

(** The document [new LifeTrainerVisit({ trainer, schoolId, visitDate, time })]
    builds in world [w]. *)
Definition newVisit (now : Timestamp) (trainerId : ObjectId)
    (schoolId visitDate time : string) (w : World) : VisitDoc.t :=
  VisitDoc.mk (nextId w) trainerId schoolId visitDate time None
              LifeTrainerVisit.defaultStatus None None None None None None now.

(** The completion property as the specification words it: after an update
    of an existing visit, the stored visit is [completed] exactly when all
    six attendance fields are set after the merge, and an update leaving one
    of them unset keeps the status the visit had before. *)
Definition completion_iff_attended (schoolId : string) (trainer : ObjectId)
    (updateBody : VisitUpdate) (w : World) : Prop :=
  ∀ v r w' v',
    List.find (visitOf schoolId trainer) (visits w) = Some v →
    updateVisitById schoolId trainer updateBody w = (r, w') →
    List.find (visitById (VisitDoc._id v)) (visits w') = Some v' →
    (VisitDoc.status v' = "completed"
       ↔ attendanceComplete (Object_assign v updateBody) = true)
    ∧ (attendanceComplete (Object_assign v updateBody) = false →
       VisitDoc.status v' = VisitDoc.status v).

(** What the loop of getVisitsBySchoolId pushes for one visit in world [w]. *)
Definition populate (w : World) (visit : VisitDoc.t) : PopulatedVisit :=
  mkPopulatedVisit visit
    (selectCounselor <$> List.find (skillTrainerOf visit) (users w))
    (VisitDoc.createdAt visit).

(** The [$match] stage of getTrainerVisits as a predicate on visits. *)
Definition matchesTrainer (trainerId : ObjectId) (status : option string)
    (v : VisitDoc.t) : Prop :=
  VisitDoc.trainer v = trainerId
  ∧ (truthy status = true → Some (VisitDoc.status v) = status).

(** The reporting property as the specification words it: every visit of
    the trainer (of the given status, when one is given) appears in the
    result. *)
Definition returns_all_visits (trainerId : ObjectId) (status : option string)
    (w : World) : Prop :=
  ∀ r w' v,
    getTrainerVisits trainerId status w = (r, w') →
    v ∈ visits w → matchesTrainer trainerId status v →
    ∃ tvs tv, r = Ok tvs ∧ tv ∈ tvs ∧ tv_id tv = VisitDoc._id v.

(** *** Vocabulary for bulkUpload *)

(** The school list an upload reads, [modifiedSchoolsArray.schools]: there
    is none when the batch object has no [schools], and none when there is
    no batch object. *)
Definition schoolList (schoolArray : option SchoolArray)
    (csvFilePath : option (list SchoolInput.t)) : option (list SchoolInput.t) :=
  modifiedSchoolsArray schoolArray csvFilePath ≫= sa_schools.

(** The rejection property as the specification words it: an input whose
    school list is missing or empty is answered with an error-flagged
    response, returned normally. *)
Definition no_entries_is_response (random : nat → N) (schedule : list nat)
    (schoolArray : option SchoolArray)
    (csvFilePath : option (list SchoolInput.t)) (w : World) : Prop :=
  schoolList schoolArray csvFilePath = None
  ∨ schoolList schoolArray csvFilePath = Some [] →
  ∃ message w',
    bulkUpload random schedule schoolArray csvFilePath w
    = (Ok (ErrorResponse true message), w').

(** The rows of the tasks suspended at [School.findOne]. *)
Definition awaitingFindOne (t : Task) : option SchoolInput.t :=
  match t with AwaitFindOne school => Some school | _ => None end.

(** The rows, generated ids and documents of the tasks suspended at
    [record.save()]. *)
Definition awaitingSave (t : Task) : option (SchoolInput.t * string * SchoolDoc.t) :=
  match t with
  | AwaitSave school schoolId record => Some (school, schoolId, record)
  | _ => None
  end.

(** The rows and generated ids of the tasks suspended at [User.create]. *)
Definition awaitingCreate (t : Task) : option (SchoolInput.t * string) :=
  match t with AwaitCreate school schoolId => Some (school, schoolId) | _ => None end.

(** A document with its [_id] blanked, to compare contents. *)
Definition anonSchool (d : SchoolDoc.t) : SchoolDoc.t :=
  SchoolDoc.mk 0 (SchoolDoc.schoolId d) (SchoolDoc.name d)
    (SchoolDoc.contact_number d) (SchoolDoc.address d) (SchoolDoc.udisecode d)
    (SchoolDoc.district d) (SchoolDoc.block d).

Definition anonUser (u : UserDoc.t) : UserDoc.t :=
  UserDoc.mk 0 (UserDoc.firstName u) (UserDoc.lastName u) (UserDoc.mobNumber u)
    (UserDoc.username u) (UserDoc.password u) (UserDoc.role u)
    (UserDoc.deviceToken u) (UserDoc.visits u).

(** The school a row becomes under a generated id, and its companion
    account: role [school], the fixed default password, the generated id as
    username. *)
Definition schoolOf (p : SchoolInput.t * string) : SchoolDoc.t :=
  SchoolDoc.mk 0 p.2 (SchoolInput.name p.1) (SchoolInput.contact_number p.1)
    (SchoolInput.address p.1) (SchoolInput.udisecode p.1)
    (SchoolInput.district p.1) (SchoolInput.block p.1).

Definition companionOf (p : SchoolInput.t * string) : UserDoc.t :=
  UserDoc.mk 0 (SchoolInput.firstname p.1) (SchoolInput.lastname p.1)
    (SchoolInput.mobNumber p.1) (Some p.2) (Some "admin@123") "school" None [].

(** A row whose [udisecode] is already in storage. *)
Definition preexisting (w : World) (school : SchoolInput.t) : Prop :=
  SchoolInput.udisecode school ∈ SchoolDoc.udisecode <$> schools w.

#[global] Instance preexisting_dec w school : Decision (preexisting w school).
Proof. unfold preexisting. apply _. Defined.

(** Where an upload stands with respect to the store [w0] it started from:
    [saved] and [created] are the (row, generated id) pairs whose school,
    respectively companion account, has been stored so far (in that order),
    [addedS] and [addedU] the documents stored for them. *)
Record uploading (w0 : World) (rows : list SchoolInput.t)
    (saved created : list (SchoolInput.t * string))
    (addedS : list SchoolDoc.t) (addedU : list UserDoc.t)
    (st : Upload) (w : World) : Prop := mkUploading {
  up_schools : schools w = schools w0 ++ addedS;
  up_users : users w = users w0 ++ addedU;
  up_visits : visits w = visits w0;
  up_students : students w = students w0;
  up_addedS : anonSchool <$> addedS = schoolOf <$> saved;
  up_addedU : anonUser <$> addedU = companionOf <$> created;
  up_records : records st = saved.*1;
  up_created : created ++ omap awaitingCreate (tasks st) ≡ₚ saved;
  up_record :
    Forall (λ x, anonSchool x.2 = schoolOf x.1) (omap awaitingSave (tasks st));
  up_dups :
    dups st ++ filter (preexisting w0) (omap awaitingFindOne (tasks st))
    ≡ₚ filter (preexisting w0) rows;
  up_new :
    saved.*1 ++ (omap awaitingSave (tasks st)).*1.*1
      ++ filter (λ s, ¬ preexisting w0 s) (omap awaitingFindOne (tasks st))
    ≡ₚ filter (λ s, ¬ preexisting w0 s) rows
}.

(** The number of [await]s a task still has to pass, at most. *)
Definition stepsLeft (t : Task) : nat :=
  match t with
  | AwaitFindOne _ => 3
  | AwaitSave _ _ _ => 2
  | AwaitCreate _ _ => 1
  | Settled => 0
  end.

Definition stepsLeftAt (i : nat) (st : Upload) : nat :=
  from_option stepsLeft 0 (tasks st !! i).

(** ** Sample data *)

Definition alwaysDelivered : string → string → string → bool := λ _ _ _, true.

(** Trainer [T1], with a registered device. *)
Definition trainerT1 : UserDoc.t :=
  UserDoc.mk 1 (Some "Asha") (Some "Patil") (Some "9000000001") (Some "asha")
             (Some "secret1") "trainer" (Some "device-1") [].

(** A store holding trainer [T1] and nothing else. *)
Definition worldT1 : World := mkWorld [] [trainerT1] [] [] 2 [].

(** A store with no document at all. *)
Definition emptyWorld : World := mkWorld [] [] [] [] 0 [].

(** A visit of [T1] to [S1], freshly scheduled. *)
Definition visitS1 : VisitDoc.t :=
  VisitDoc.mk 2 1 "S1" "2024-01-10" "09:00" None "scheduled"
              None None None None None None 100.

(** A second visit of [T1] to [S1], one day later. *)
Definition visitS1' : VisitDoc.t :=
  VisitDoc.mk 3 1 "S1" "2024-01-11" "09:00" None "scheduled"
              None None None None None None 101.

(** The store after [T1] was scheduled for [visitS1]. *)
Definition worldS1 : World :=
  mkWorld [visitS1] [UserDoc.set_visits [2] trainerT1] [] [] 3
          [VisitSaved 2; NotificationSent "device-1" "Visits"
                           "You have assined visit forS1 date 2024-01-10";
           UserSaved 1].

(** A request body carrying no key. *)
Definition emptyBody : VisitUpdate :=
  mkVisitUpdate None None None None None None None None None None None None.

(** A request body carrying only [status]. *)
Definition statusBody (s : string) : VisitUpdate :=
  mkVisitUpdate None None None None None (Some s) None None None None None None.

(** The distinct schools among a trainer's visits. *)
Definition distinctSchools (trainerId : ObjectId) (w : World) : gset string :=
  list_to_set (VisitDoc.schoolId <$>
                 List.filter (λ v, bool_decide (VisitDoc.trainer v = trainerId))
                             (visits w)).

(** The number of students of one school. *)
Definition studentsOf (w : World) (schoolId : string) : nat :=
  length (List.filter (λ st, bool_decide (StudentDoc.schoolId st = schoolId))
                      (students w)).

(** The number of a trainer's visits in one status. *)
Definition visitsInStatus (trainerId : ObjectId) (status : string) (w : World)
    : nat :=
  length (List.filter (λ v, bool_decide (VisitDoc.status v = status))
            (List.filter (λ v, bool_decide (VisitDoc.trainer v = trainerId))
                         (visits w))).

(** Schools [A] and [B] with two and three students, and the visits
    {A, B, A} of [T1]. *)
Definition worldABA : World :=
  mkWorld
    [VisitDoc.mk 10 1 "A" "2024-02-01" "09:00" None "scheduled"
                 None None None None None None 1;
     VisitDoc.mk 11 1 "B" "2024-02-02" "09:00" None "completed"
                 (Some "09:00") (Some "11:00") (Some "2024-02-02")
                 (Some "2024-02-02") (Some "in.jpg") (Some "out.jpg") 2;
     VisitDoc.mk 12 1 "A" "2024-02-03" "09:00" None "scheduled"
                 None None None None None None 3]
    [UserDoc.set_visits [10; 11; 12] trainerT1]
    []
    [StudentDoc.mk 20 "A"; StudentDoc.mk 21 "B"; StudentDoc.mk 22 "A";
     StudentDoc.mk 23 "B"; StudentDoc.mk 24 "C"; StudentDoc.mk 25 "B"]
    30 [].

(** Rows for the bulk upload: [U1] is in storage already, [U2] is not. *)
Definition rowU1 : SchoolInput.t :=
  SchoolInput.mk (Some "Zilla School") None None (Some "U1") (Some "Pune") None
                 (Some "Meera") (Some "Joshi") (Some "9000000011").

Definition rowU2 : SchoolInput.t :=
  SchoolInput.mk (Some "Town School") None None (Some "U2") (Some "Pune") None
                 (Some "Ravi") (Some "Kale") (Some "9000000012").

Definition worldU1 : World :=
  mkWorld [] []
    [SchoolDoc.mk 1 "SCH100001" (Some "Zilla School") None None (Some "U1")
                  (Some "Pune") None]
    [] 2 [].

(** A [Math.random] that always makes the same draw. *)
Definition constantDraw : nat → N := λ _, 23456%N.

(** ** Vocabulary of the further properties *)

(** No dangling back-reference: every visit id a user lists is the id of a
    stored visit whose trainer is that user. *)
Definition visitsOwned (w : World) : Prop :=
  ∀ u id, u ∈ users w → id ∈ UserDoc.visits u →
    ∃ v, v ∈ visits w ∧ VisitDoc._id v = id ∧ VisitDoc.trainer v = UserDoc._id u.

(** The notification scheduleVisit sends for a visit. *)
Definition visitNotification (deviceToken schoolId visitDate : string) : Event :=
  NotificationSent deviceToken "Visits"
    ("You have assined visit for" +:+ schoolId +:+ " date " +:+ visitDate).

(** The store right after [visit.save()] of the new visit. *)
Definition afterInsert (now : Timestamp) (trainerId : ObjectId)
    (schoolId visitDate time : string) (w : World) : World :=
  mkWorld (visits w ++ [newVisit now trainerId schoolId visitDate time w])
          (users w) (schools w) (students w) (S (nextId w))
          (log w ++ [VisitSaved (nextId w)]).

(** Where an upload of any batch stands: the store has only grown, by the
    schools [addedS] and the accounts [addedU]; every row of the batch is
    reported or still under way; one school is stored per reported new row
    and one account per such school, but for those still awaited. *)
Record classifying (w0 : World) (rows : list SchoolInput.t)
    (addedS : list SchoolDoc.t) (addedU : list UserDoc.t)
    (st : Upload) (w : World) : Prop := mkClassifying {
  cl_visits : visits w = visits w0;
  cl_students : students w = students w0;
  cl_schools : schools w = schools w0 ++ addedS;
  cl_users : users w = users w0 ++ addedU;
  cl_accounts :
    Forall (λ u, UserDoc.visits u = [] ∧ UserDoc.role u = "school"
                 ∧ UserDoc.password u = Some "admin@123") addedU;
  cl_rows :
    dups st ++ records st ++ omap awaitingFindOne (tasks st)
      ++ (omap awaitingSave (tasks st)).*1.*1 ≡ₚ rows;
  cl_saved : length addedS = length (records st);
  cl_created :
    length addedU + length (omap awaitingCreate (tasks st)) = length (records st)
}.

(** Task [i] works on row [i], and a task that has passed its existence
    check, or its save, has the row's udisecode in storage. *)
Definition tracked (rows : list SchoolInput.t) (st : Upload) (w : World) : Prop :=
  ∀ i row, rows !! i = Some row →
    match tasks st !! i with
    | Some (AwaitFindOne school) => school = row
    | Some (AwaitSave school _ record) =>
        school = row ∧ SchoolDoc.udisecode record = SchoolInput.udisecode row
    | Some (AwaitCreate _ _) | Some Settled => preexisting w row
    | None => False
    end.

(** An upload of rows that are all in storage already: the store is as it
    was, nothing was recorded as new, and every task is settled or still
    before its existence check. *)
Definition rechecking (w0 : World) (rows : list SchoolInput.t) (st : Upload)
    (w : World) : Prop :=
  w = w0 ∧ records st = []
  ∧ Forall (λ t, t = Settled ∨ ∃ school, t = AwaitFindOne school
                                         ∧ preexisting w0 school) (tasks st)
  ∧ dups st ++ omap awaitingFindOne (tasks st) ≡ₚ rows.

(** A messaging adapter that rejects every message. *)
Definition neverDelivered : string → string → string → bool := λ _ _ _, false.

(** * Properties *)

(** ** Running the monad *)

Lemma bind_ok {A B} (m : M A) (f : A → M B) w a w' :
  m w = (Ok a, w') → (m ≫= f) w = f a w'.
Proof. intros H. unfold mbind, M_bind. by rewrite H. Qed.

Lemma bind_throw {A B} (m : M A) (f : A → M B) w e w' :
  m w = (Throw e, w') → (m ≫= f) w = (Throw e, w').
Proof. intros H. unfold mbind, M_bind. by rewrite H. Qed.

Ltac run_monad :=
  unfold mbind, M_bind, mret, M_ret, gets, modify, throw, freshId, emit; simpl.

(** ** scheduleVisit *)

Section ScheduleVisit.
Variable send : string → string → string → bool.
Variables (now : Timestamp) (trainerId : ObjectId) (schoolId visitDate time : string).

Let slot := slotFilter trainerId schoolId visitDate time.

Let built := newVisit now trainerId schoolId visitDate time.

Lemma slotFilter_newVisit w : slot (built w) = true.
Proof.
  unfold slot, slotFilter, built, newVisit; simpl.
  by rewrite !bool_decide_eq_true_2.
Qed.

Lemma scheduleVisit_duplicate w existing :
  List.find slot (visits w) = Some existing →
  scheduleVisit send now trainerId schoolId visitDate time w
  = (Throw (ApiError httpStatus.CONFLICT "Visit scheduled already found"), w).
Proof.
  intros H. unfold scheduleVisit, LifeTrainerVisit.findOne. run_monad.
  fold slot. by rewrite H.
Qed.

(** Without a duplicate the visit is stored whatever happens next. *)
Lemma scheduleVisit_stores w r w' :
  List.find slot (visits w) = None →
  scheduleVisit send now trainerId schoolId visitDate time w = (r, w') →
  visits w' = visits w ++ [built w].
Proof.
  intros Hnone. unfold scheduleVisit, LifeTrainerVisit.findOne,
    LifeTrainerVisit.new, LifeTrainerVisit.insert, User.findById, User.findOne,
    User.save, sendNotification.
  run_monad. fold slot. rewrite Hnone.
  destruct (List.find _ (users w)) as [u|]; simpl.
  - destruct (truthy (UserDoc.deviceToken u)); simpl.
    + destruct (send _ _ _); simpl; intros [= <- <-]; done.
    + intros [= <- <-]; done.
  - intros [= <- <-]; done.
Qed.
End ScheduleVisit.

Lemma find_None_filter {A} (p : A → bool) (l : list A) :
  List.find p l = None → List.filter p l = [].
Proof.
  induction l as [|x l IH]; simpl; [done|].
  destruct (p x); [done|]. exact IH.
Qed.

Lemma find_app_None {A} (p : A → bool) (l : list A) (x : A) :
  List.find p l = None → p x = true → List.find p (l ++ [x]) = Some x.
Proof.
  induction l as [|y l IH]; simpl; intros Hn Hx.
  - by rewrite Hx.
  - destruct (p y); [done|]. by apply IH.
Qed.

(** C1. A visit that already exists for the exact tuple (trainer, schoolId,
    visitDate, time) makes scheduleVisit throw CONFLICT with the world left
    as it was (no write, no notification).  Scheduling the same slot twice:
    the second call throws CONFLICT and changes nothing, and when the slot
    was free before the first call, exactly one visit for the slot is stored
    after both, the only document the two calls added. *)
Theorem scheduleVisit_same_slot_twice send now now' trainerId schoolId visitDate time
    w r1 w1 r2 w2 :
  scheduleVisit send now trainerId schoolId visitDate time w = (r1, w1) →
  scheduleVisit send now' trainerId schoolId visitDate time w1 = (r2, w2) →
  (is_Some (List.find (slotFilter trainerId schoolId visitDate time) (visits w)) →
     r1 = Throw (ApiError httpStatus.CONFLICT "Visit scheduled already found")
     ∧ w1 = w)
  ∧ r2 = Throw (ApiError httpStatus.CONFLICT "Visit scheduled already found")
  ∧ w2 = w1
  ∧ (List.find (slotFilter trainerId schoolId visitDate time) (visits w) = None →
     length (List.filter (slotFilter trainerId schoolId visitDate time) (visits w2)) = 1
     ∧ visits w2 = visits w ++ [newVisit now trainerId schoolId visitDate time w]).
Proof.
  intros H1 H2.
  destruct (List.find (slotFilter trainerId schoolId visitDate time) (visits w))
    as [existing|] eqn:Hfind.
  - rewrite (scheduleVisit_duplicate send now _ _ _ _ w existing Hfind) in H1.
    injection H1 as <- <-.
    rewrite (scheduleVisit_duplicate send now' _ _ _ _ w existing Hfind) in H2.
    injection H2 as <- <-.
    split; [done|]. split; [done|]. split; [done|]. intros [=].
  - pose proof (scheduleVisit_stores send now _ _ _ _ w r1 w1 Hfind H1) as Hv.
    assert (List.find (slotFilter trainerId schoolId visitDate time) (visits w1)
            = Some (newVisit now trainerId schoolId visitDate time w)) as Hf1.
    { rewrite Hv. apply find_app_None; [done|]. apply slotFilter_newVisit. }
    rewrite (scheduleVisit_duplicate send now' _ _ _ _ w1 _ Hf1) in H2.
    injection H2 as <- <-.
    split; [by intros [? [=]]|]. split; [done|]. split; [done|].
    intros _. split; [|done].
    rewrite Hv, List.filter_app, (find_None_filter _ _ Hfind). simpl.
    by rewrite slotFilter_newVisit.
Qed.

Lemma scheduleVisit_same_slot_twice_witness :
  ∃ r1 w1 r2 w2,
    scheduleVisit alwaysDelivered 100 1 "S1" "2024-01-10" "09:00" worldT1 = (r1, w1)
    ∧ scheduleVisit alwaysDelivered 200 1 "S1" "2024-01-10" "09:00" w1 = (r2, w2)
    ∧ r2 = Throw (ApiError httpStatus.CONFLICT "Visit scheduled already found")
    ∧ w2 = w1
    ∧ length (List.filter (slotFilter 1 "S1" "2024-01-10" "09:00") (visits w2)) = 1.
Proof.
  eexists _, _, _, _.
  split; [vm_compute; reflexivity|].
  split; [vm_compute; reflexivity|].
  destruct (scheduleVisit_same_slot_twice alwaysDelivered 100 200 1 "S1"
              "2024-01-10" "09:00" worldT1 _ _ _ _ eq_refl eq_refl)
    as (_ & Hr & Hw & Hone).
  split; [exact Hr|]. split; [exact Hw|].
  apply Hone. reflexivity.
Defined.

(** The example of the specification: [T1] is scheduled for [S1] on
    2024-01-10 at 09:00; the identical call then fails with CONFLICT; the
    same slot one day later is accepted. *)
Example scheduleVisit_example :
  ∃ v1 w1 v2 w2,
    scheduleVisit alwaysDelivered 100 1 "S1" "2024-01-10" "09:00" worldT1 = (Ok v1, w1)
    ∧ scheduleVisit alwaysDelivered 101 1 "S1" "2024-01-10" "09:00" w1
      = (Throw (ApiError 409 "Visit scheduled already found"), w1)
    ∧ scheduleVisit alwaysDelivered 102 1 "S1" "2024-01-11" "09:00" w1 = (Ok v2, w2)
    ∧ VisitDoc._id <$> visits w2 = [2; 3]
    ∧ UserDoc.visits <$> users w2 = [[2; 3]].
Proof. eexists _, _, _, _. repeat split; vm_compute; reflexivity. Qed.

(** Without a duplicate and without the trainer, the call throws NOT_FOUND
    after the visit was stored. *)
Lemma scheduleVisit_unknown_trainer send now trainerId schoolId visitDate time w :
  List.find (slotFilter trainerId schoolId visitDate time) (visits w) = None →
  List.find (userById trainerId) (users w) = None →
  ∃ w', scheduleVisit send now trainerId schoolId visitDate time w
        = (Throw (ApiError httpStatus.NOT_FOUND "Trainer not found"), w')
        ∧ visits w' = visits w ++ [newVisit now trainerId schoolId visitDate time w]
        ∧ log w' = log w ++ [VisitSaved (nextId w)].
Proof.
  intros Hv Hu. eexists.
  unfold scheduleVisit, LifeTrainerVisit.findOne, LifeTrainerVisit.new,
    LifeTrainerVisit.insert, User.findById, User.findOne.
  run_monad. rewrite Hv, Hu. simpl. done.
Qed.

(** C3. On the store without any document, scheduling for trainer 7 (who
    does not exist) throws NOT_FOUND, and the failing call has stored the
    visit: the visits collection holds one document afterwards. *)
Theorem scheduleVisit_unknown_trainer_orphan :
  ∃ w', scheduleVisit alwaysDelivered 100 7 "S1" "2024-01-10" "09:00" emptyWorld
        = (Throw (ApiError httpStatus.NOT_FOUND "Trainer not found"), w')
        ∧ visits w' = [newVisit 100 7 "S1" "2024-01-10" "09:00" emptyWorld]
        ∧ log w' = [VisitSaved 0]
        ∧ scheduleVisit alwaysDelivered 101 7 "S1" "2024-01-10" "09:00" w'
          = (Throw (ApiError httpStatus.CONFLICT "Visit scheduled already found"), w').
Proof. eexists. repeat split; vm_compute; reflexivity. Qed.

(** ** Updates and deletions by [_id] *)

Section ById.
Context {A : Type} (key : A → ObjectId).

Lemma find_key_Some (id : ObjectId) (l : list A) (x : A) :
  List.find (λ y, bool_decide (key y = id)) l = Some x → key x = id ∧ x ∈ l.
Proof.
  intros H. apply List.find_some in H as [Hin Hk].
  split; [by apply bool_decide_eq_true in Hk | by apply list_elem_of_In].
Qed.

(** After an update the document found under the key is the new one. *)
Lemma find_replaceById (a x : A) (l : list A) :
  List.find (λ y, bool_decide (key y = key a)) l = Some x →
  List.find (λ y, bool_decide (key y = key a)) (replaceById key a l) = Some a.
Proof.
  induction l as [|y l IH]; simpl; [done|].
  destruct (bool_decide (key y = key a)) eqn:E; simpl.
  - intros _. by rewrite bool_decide_eq_true_2.
  - rewrite E. exact IH.
Qed.

(** With unique keys the update rewrites the document in place. *)
Lemma replaceById_middle (a v : A) (pre post : list A) :
  NoDup (key <$> pre ++ v :: post) →
  key a = key v →
  replaceById key a (pre ++ v :: post) = pre ++ a :: post.
Proof.
  intros Hnd Hk. induction pre as [|y pre IH]; simpl in *.
  - by rewrite bool_decide_eq_true_2.
  - apply NoDup_cons in Hnd as [Hy Hnd].
    rewrite bool_decide_eq_false_2; [by rewrite IH|].
    intros Hya. apply Hy. rewrite Hya, Hk, fmap_app. simpl.
    apply elem_of_app. right. left.
Qed.

Lemma replaceById_twice (a b : A) (l : list A) :
  key a = key b →
  replaceById key b (replaceById key a l) = replaceById key b l.
Proof.
  intros Hk. induction l as [|y l IH]; simpl; [done|].
  rewrite Hk. destruct (bool_decide (key y = key b)) eqn:E; simpl.
  - by rewrite bool_decide_eq_true_2.
  - by rewrite E, IH.
Qed.

Lemma map_key_replaceById (a : A) (l : list A) :
  key <$> replaceById key a l = key <$> l.
Proof.
  induction l as [|y l IH]; simpl; [done|].
  case_bool_decide as E; csimpl; [by rewrite E | by f_equal].
Qed.

Lemma deleteById_not_elem (id : ObjectId) (l : list A) :
  NoDup (key <$> l) → id ∉ key <$> deleteById key id l.
Proof.
  induction l as [|y l IH]; simpl; intros Hnd.
  - apply not_elem_of_nil.
  - apply NoDup_cons in Hnd as [Hy Hnd].
    case_bool_decide as E; simpl.
    + by rewrite <- E.
    + apply not_elem_of_cons. split; [done | by apply IH].
Qed.

(** With unique keys a deleted document cannot be found again. *)
Lemma find_deleteById (id : ObjectId) (l : list A) :
  NoDup (key <$> l) →
  List.find (λ y, bool_decide (key y = id)) (deleteById key id l) = None.
Proof.
  intros Hnd. destruct (List.find _ _) as [x|] eqn:E; [|done].
  apply find_key_Some in E as [Hk Hin].
  exfalso. apply (deleteById_not_elem id l Hnd).
  apply list_elem_of_fmap. by exists x.
Qed.

Lemma deleteById_sublist (id : ObjectId) (l : list A) :
  sublist (deleteById key id l) l.
Proof.
  induction l as [|y l IH]; simpl; [done|].
  case_bool_decide; [by apply sublist_cons | by apply sublist_skip].
Qed.
End ById.

Lemma find_is_Some {A} (p : A → bool) (l : list A) (x : A) :
  x ∈ l → p x = true → is_Some (List.find p l).
Proof.
  intros Hin Hp. destruct (List.find p l) eqn:E; [by eexists|].
  apply list_elem_of_In in Hin.
  pose proof (List.find_none p l E x Hin) as Hf. congruence.
Qed.

Lemma find_first {A} (p : A → bool) (pre post : list A) (x : A) :
  Forall (λ y, p y = false) pre → p x = true →
  List.find p (pre ++ x :: post) = Some x.
Proof.
  induction 1 as [|y pre Hy _ IH]; simpl; intros Hx.
  - by rewrite Hx.
  - rewrite Hy. by apply IH.
Qed.

(** ** updateVisitById *)

(** The document updateVisitById leaves in the store and returns. *)
Lemma updateVisitById_found schoolId trainer updateBody w v :
  List.find (visitOf schoolId trainer) (visits w) = Some v →
  updateVisitById schoolId trainer updateBody w
  = let merged := Object_assign v updateBody in
    if attendanceComplete merged then
      (Ok (VisitDoc.set_status "completed" merged),
       mkWorld (replaceById VisitDoc._id (VisitDoc.set_status "completed" merged)
                            (visits w))
               (users w) (schools w) (students w) (nextId w)
               ((log w ++ [VisitSaved (VisitDoc._id v)])
                       ++ [VisitSaved (VisitDoc._id v)]))
    else
      (Ok merged,
       mkWorld (replaceById VisitDoc._id merged (visits w))
               (users w) (schools w) (students w) (nextId w)
               (log w ++ [VisitSaved (VisitDoc._id v)])).
Proof.
  intros Hf. unfold updateVisitById, LifeTrainerVisit.findOne, LifeTrainerVisit.save.
  run_monad. rewrite Hf. simpl.
  destruct (attendanceComplete (Object_assign v updateBody)); simpl; [|done].
  by rewrite replaceById_twice.
Qed.

Lemma updateVisitById_missing schoolId trainer updateBody w :
  List.find (visitOf schoolId trainer) (visits w) = None →
  updateVisitById schoolId trainer updateBody w
  = (Throw (ApiError httpStatus.NOT_FOUND "Visit not found"), w).
Proof.
  intros Hf. unfold updateVisitById, LifeTrainerVisit.findOne.
  run_monad. by rewrite Hf.
Qed.

(** C2 (as amended). After updateVisitById on an existing visit, the stored
    visit is the returned one; its status is [completed] when all six
    attendance fields are non-empty after the merge, and otherwise it is the
    status after the merge: the one the request body carries when it carries
    one, the prior status when it carries none. *)
Theorem updateVisitById_status schoolId trainer updateBody w v :
  List.find (visitOf schoolId trainer) (visits w) = Some v →
  ∃ v' w',
    updateVisitById schoolId trainer updateBody w = (Ok v', w')
    ∧ List.find (visitById (VisitDoc._id v)) (visits w') = Some v'
    ∧ VisitDoc.status v'
      = if attendanceComplete (Object_assign v updateBody) then "completed"
        else default (VisitDoc.status v) (ub_status updateBody).
Proof.
  intros Hf. rewrite (updateVisitById_found _ _ _ _ _ Hf). simpl.
  assert (is_Some (List.find (visitById (VisitDoc._id v)) (visits w))) as [x Hx].
  { apply List.find_some in Hf as [Hin _].
    apply (find_is_Some _ _ v); [by apply list_elem_of_In|].
    unfold visitById. by apply bool_decide_eq_true_2. }
  destruct (attendanceComplete (Object_assign v updateBody)) eqn:E;
    eexists _, _; (split; [reflexivity|]); simpl; (split; [|done]).
  - exact (find_replaceById VisitDoc._id
             (VisitDoc.set_status "completed" (Object_assign v updateBody)) x _ Hx).
  - exact (find_replaceById VisitDoc._id (Object_assign v updateBody) x _ Hx).
Qed.

Lemma updateVisitById_status_witness :
  ∃ v' w',
    updateVisitById "S1" 1 (statusBody "cancelled") worldS1 = (Ok v', w')
    ∧ List.find (visitById 2) (visits w') = Some v'
    ∧ VisitDoc.status v' = "cancelled".
Proof.
  exact (updateVisitById_status "S1" 1 (statusBody "cancelled") worldS1 visitS1
           eq_refl).
Defined.

(** C2, the counterexample: a request body carrying [status: 'completed']
    for the freshly scheduled visit of [T1] to [S1] leaves the visit
    [completed] although none of the six attendance fields is set, and the
    prior status [scheduled] is not kept. *)
Lemma updateVisitById_completed_without_attendance :
  ¬ completion_iff_attended "S1" 1 (statusBody "completed") worldS1.
Proof.
  intros H.
  destruct (H visitS1 _ _ (VisitDoc.set_status "completed" visitS1)
              eq_refl eq_refl eq_refl) as [[Hiff _] _].
  specialize (Hiff eq_refl). vm_compute in Hiff. discriminate Hiff.
Qed.

(** Once completed, a visit stays completed: emptying [file] on the
    completed visit of [T1] to school [B] leaves an attendance field unset
    and the status [completed]. *)
Example updateVisitById_completed_stays :
  ∃ v' w',
    updateVisitById "B" 1
      (mkVisitUpdate None None None None None None None None None None
                     (Some (Some "")) None)
      worldABA
    = (Ok v', w')
    ∧ attendanceComplete v' = false
    ∧ VisitDoc.status v' = "completed".
Proof. eexists _, _. repeat split; vm_compute; reflexivity. Qed.

(** C9. updateVisitById picks its visit by (schoolId, trainer) alone: with
    several visits of the trainer to the school in the store, the first one
    in collection order receives the merge (and the completion check),
    whatever its visitDate and time, and every other document of the
    collection, the other collections included, stays as it was. *)
Theorem updateVisitById_first_match schoolId trainer updateBody w pre v post :
  NoDup (VisitDoc._id <$> visits w) →
  visits w = pre ++ v :: post →
  Forall (λ x, visitOf schoolId trainer x = false) pre →
  visitOf schoolId trainer v = true →
  ∃ v' w',
    updateVisitById schoolId trainer updateBody w = (Ok v', w')
    ∧ v' = (if attendanceComplete (Object_assign v updateBody)
            then VisitDoc.set_status "completed" (Object_assign v updateBody)
            else Object_assign v updateBody)
    ∧ visits w' = pre ++ v' :: post
    ∧ users w' = users w ∧ schools w' = schools w ∧ students w' = students w.
Proof.
  intros Hnd Hsplit Hpre Hv.
  assert (List.find (visitOf schoolId trainer) (visits w) = Some v) as Hf.
  { rewrite Hsplit. by apply find_first. }
  rewrite (updateVisitById_found _ _ _ _ _ Hf). simpl.
  rewrite Hsplit in Hnd |- *.
  destruct (attendanceComplete (Object_assign v updateBody));
    eexists _, _; (split; [reflexivity|]); (split; [reflexivity|]); simpl;
    (split; [|done]); by apply replaceById_middle.
Qed.

Lemma updateVisitById_first_match_witness :
  ∃ v' w',
    updateVisitById "S1" 1 (statusBody "cancelled")
      (mkWorld [visitS1; visitS1'] [UserDoc.set_visits [2; 3] trainerT1] [] [] 4 [])
    = (Ok v', w')
    ∧ visits w' = [VisitDoc.set_status "cancelled" visitS1; visitS1'].
Proof.
  destruct (updateVisitById_first_match "S1" 1 (statusBody "cancelled")
              (mkWorld [visitS1; visitS1'] [UserDoc.set_visits [2; 3] trainerT1]
                       [] [] 4 [])
              [] visitS1 [visitS1'])
    as (v' & w' & Hrun & Hv' & Hvisits & _).
  - apply (bool_decide_unpack _). exact I.
  - reflexivity.
  - constructor.
  - reflexivity.
  - exists v', w'. split; [exact Hrun|]. rewrite Hvisits, Hv'. reflexivity.
Defined.

(** ** deleteVisit *)

Lemma deleteVisit_found visitId w visit trainer :
  List.find (visitById visitId) (visits w) = Some visit →
  List.find (userById (VisitDoc.trainer visit)) (users w) = Some trainer →
  deleteVisit visitId w
  = (Ok visit,
     mkWorld (deleteById VisitDoc._id visitId (visits w))
             (replaceById UserDoc._id
                (UserDoc.set_visits (pull visitId (UserDoc.visits trainer)) trainer)
                (users w))
             (schools w) (students w) (nextId w)
             (log w ++ [UserSaved (VisitDoc.trainer visit); VisitRemoved visitId])).
Proof.
  intros Hv Hu.
  destruct (find_key_Some VisitDoc._id _ _ _ Hv) as [Hid _].
  destruct (find_key_Some UserDoc._id _ _ _ Hu) as [Htid _].
  unfold deleteVisit, LifeTrainerVisit.findById, LifeTrainerVisit.findOne,
    User.findById, User.findOne, User.save, LifeTrainerVisit.remove.
  run_monad. rewrite Hv. simpl. rewrite Hu. simpl.
  by rewrite Hid, Htid, <- app_assoc.
Qed.

Lemma deleteVisit_no_visit visitId w :
  List.find (visitById visitId) (visits w) = None →
  deleteVisit visitId w = (Throw (ApiError httpStatus.NOT_FOUND "Visit not found"), w).
Proof.
  intros Hv. unfold deleteVisit, LifeTrainerVisit.findById, LifeTrainerVisit.findOne.
  run_monad. by rewrite Hv.
Qed.

Lemma deleteVisit_no_trainer visitId w visit :
  List.find (visitById visitId) (visits w) = Some visit →
  List.find (userById (VisitDoc.trainer visit)) (users w) = None →
  deleteVisit visitId w
  = (Throw (ApiError httpStatus.NOT_FOUND "Trainer not found"), w).
Proof.
  intros Hv Hu.
  unfold deleteVisit, LifeTrainerVisit.findById, LifeTrainerVisit.findOne,
    User.findById, User.findOne.
  run_monad. rewrite Hv. simpl. by rewrite Hu.
Qed.

Lemma not_elem_of_pull x xs : x ∉ pull x xs.
Proof.
  unfold pull. intros Hin. apply list_elem_of_In, List.filter_In in Hin as [_ Hx].
  by rewrite bool_decide_eq_true_2 in Hx.
Qed.

Lemma elem_of_pull x y xs : y ∈ pull x xs ↔ y ∈ xs ∧ y ≠ x.
Proof.
  unfold pull. rewrite !list_elem_of_In, List.filter_In, negb_true_iff.
  by rewrite bool_decide_eq_false.
Qed.

(** C4. With identifiers unique in the visits collection: when the visit and
    its owning trainer exist, deleteVisit returns the visit, first saves the
    trainer with the visit id pulled out of the trainer's visits and only
    then removes the visit document, after which the id finds no visit; when
    the visit does not exist, or its trainer does not, it throws NOT_FOUND
    and leaves the store as it was. *)
Theorem deleteVisit_spec visitId w :
  NoDup (VisitDoc._id <$> visits w) →
  match List.find (visitById visitId) (visits w) with
  | None =>
      deleteVisit visitId w
      = (Throw (ApiError httpStatus.NOT_FOUND "Visit not found"), w)
  | Some visit =>
      match List.find (userById (VisitDoc.trainer visit)) (users w) with
      | None =>
          deleteVisit visitId w
          = (Throw (ApiError httpStatus.NOT_FOUND "Trainer not found"), w)
      | Some trainer =>
          ∃ w' trainer',
            deleteVisit visitId w = (Ok visit, w')
            ∧ log w' = log w ++ [UserSaved (UserDoc._id trainer);
                                 VisitRemoved visitId]
            ∧ List.find (userById (UserDoc._id trainer)) (users w') = Some trainer'
            ∧ UserDoc.visits trainer' = pull visitId (UserDoc.visits trainer)
            ∧ (visitId ∉ UserDoc.visits trainer')
            ∧ List.find (visitById visitId) (visits w') = None
            ∧ sublist (visits w') (visits w)
      end
  end.
Proof.
  intros Hnd.
  destruct (List.find (visitById visitId) (visits w)) as [visit|] eqn:Hv;
    [|by apply deleteVisit_no_visit].
  destruct (List.find (userById (VisitDoc.trainer visit)) (users w))
    as [trainer|] eqn:Hu; [|exact (deleteVisit_no_trainer _ _ _ Hv Hu)].
  destruct (find_key_Some UserDoc._id _ _ _ Hu) as [Htid _].
  eexists _, _. split; [exact (deleteVisit_found _ _ _ _ Hv Hu)|]. simpl.
  split; [by rewrite Htid|].
  rewrite <- Htid in Hu.
  split.
  { exact (find_replaceById UserDoc._id
             (UserDoc.set_visits (pull visitId (UserDoc.visits trainer)) trainer)
             trainer _ Hu). }
  split; [done|]. split; [apply not_elem_of_pull|].
  split; [by apply (find_deleteById VisitDoc._id) | apply deleteById_sublist].
Qed.

Lemma deleteVisit_spec_witness :
  ∃ w' trainer',
    deleteVisit 2 worldS1 = (Ok visitS1, w')
    ∧ log w' = log worldS1 ++ [UserSaved 1; VisitRemoved 2]
    ∧ List.find (userById 1) (users w') = Some trainer'
    ∧ UserDoc.visits trainer' = []
    ∧ List.find (visitById 2) (visits w') = None.
Proof.
  assert (NoDup (VisitDoc._id <$> visits worldS1)) as Hnd
    by (apply (bool_decide_unpack _); exact I).
  destruct (deleteVisit_spec 2 worldS1 Hnd)
    as (w' & trainer' & Hrun & Hlog & Hu & Hvs & _ & Hgone & _).
  exists w', trainer'. repeat split; assumption.
Defined.

(** ** getVisitsBySchoolId *)

Lemma forOf_reads {A B} (body : A → M B) (f : A → B) (w : World) xs acc :
  (∀ x, body x w = (Ok (f x), w)) →
  forOf body xs acc w = (Ok (acc ++ (f <$> xs)), w).
Proof.
  intros Hbody. revert acc. induction xs as [|x xs IH]; intros acc; simpl.
  - by rewrite app_nil_r.
  - unfold mbind, M_bind. rewrite Hbody, IH. by rewrite <- app_assoc.
Qed.

Lemma getVisitsBySchoolId_eval schoolId w :
  getVisitsBySchoolId schoolId w
  = match List.filter (λ v, bool_decide (VisitDoc.schoolId v = schoolId))
                      (visits w) with
    | [] => (Throw (ApiError httpStatus.NOT_FOUND "Visits not found"), w)
    | found => (Ok (populate w <$> found), w)
    end.
Proof.
  unfold getVisitsBySchoolId, LifeTrainerVisit.find.
  unfold mbind at 1. unfold M_bind, gets.
  destruct (List.filter _ (visits w)) as [|v found] eqn:E; [done|].
  rewrite bool_decide_eq_false_2 by done.
  unfold mbind, M_bind.
  rewrite (forOf_reads _ (populate w) w); [done|].
  intros x. unfold User.findOne. by run_monad.
Qed.

Lemma fmap_visit_populate w (l : list VisitDoc.t) :
  pv_visit <$> (populate w <$> l) = l.
Proof. induction l as [|v l IH]; csimpl; [done | by f_equal]. Qed.

(** C10. getVisitsBySchoolId throws NOT_FOUND exactly when the school has
    no visit; otherwise it returns, without changing the store, one entry
    per visit of the school, in order, and an entry whose trainer reference
    finds no user with role [skillTrainer] is kept with a null counselor. *)
Theorem getVisitsBySchoolId_spec schoolId w :
  let found := List.filter (λ v, bool_decide (VisitDoc.schoolId v = schoolId))
                           (visits w) in
  (found = [] ↔
   getVisitsBySchoolId schoolId w
   = (Throw (ApiError httpStatus.NOT_FOUND "Visits not found"), w))
  ∧ (found ≠ [] →
     ∃ populatedVisits,
       getVisitsBySchoolId schoolId w = (Ok populatedVisits, w)
       ∧ pv_visit <$> populatedVisits = found
       ∧ ∀ i visit, found !! i = Some visit →
           ∃ entry, populatedVisits !! i = Some entry
             ∧ pv_visit entry = visit
             ∧ pv_createdAt entry = VisitDoc.createdAt visit
             ∧ pv_counselor entry
               = selectCounselor <$> List.find (skillTrainerOf visit) (users w)
             ∧ (List.find (skillTrainerOf visit) (users w) = None →
                pv_counselor entry = None)).
Proof.
  intros found. rewrite getVisitsBySchoolId_eval. fold found.
  destruct found as [|v found'] eqn:E.
  - split; [done|]. by intros [].
  - split; [split; intros [=]|]. intros _.
    eexists. split; [reflexivity|]. split.
    + apply fmap_visit_populate.
    + intros i visit Hi. exists (populate w visit).
      split; [by rewrite list_lookup_fmap, Hi|].
      split; [done|]. split; [done|]. split; [done|].
      simpl. by intros ->.
Qed.

Lemma getVisitsBySchoolId_spec_witness :
  ∃ populatedVisits,
    getVisitsBySchoolId "S1" worldS1 = (Ok populatedVisits, worldS1)
    ∧ pv_visit <$> populatedVisits = [visitS1]
    ∧ pv_counselor <$> populatedVisits = [None].
Proof.
  destruct (getVisitsBySchoolId_spec "S1" worldS1) as [_ H].
  destruct H as (pvs & Hrun & Hvisits & Hc); [discriminate|].
  exists pvs. split; [exact Hrun|]. split; [exact Hvisits|].
  destruct (Hc 0 visitS1 eq_refl) as (entry & He & _ & _ & _ & Hnone).
  destruct pvs as [|e [|e' pvs]]; try discriminate Hvisits.
  injection He as ->. simpl. f_equal. apply Hnone. reflexivity.
Defined.

(** ** getTrainerVisits *)

(** The [$match] stage getTrainerVisits builds. *)
Lemma getTrainerVisits_eval trainerId status w :
  getTrainerVisits trainerId status w
  = (Ok (project <$> unwindSchool (lookupSchools (schools w)
           (List.filter
              (if truthy status then
                 λ v, bool_decide (VisitDoc.trainer v = trainerId)
                      && bool_decide (Some (VisitDoc.status v) = status)
               else λ v, bool_decide (VisitDoc.trainer v = trainerId))
              (visits w)))), w).
Proof. reflexivity. Qed.

Lemma matchStage_matchesTrainer trainerId status v :
  (if truthy status then
     λ v, bool_decide (VisitDoc.trainer v = trainerId)
          && bool_decide (Some (VisitDoc.status v) = status)
   else λ v, bool_decide (VisitDoc.trainer v = trainerId)) v = true
  ↔ matchesTrainer trainerId status v.
Proof.
  unfold matchesTrainer. destruct (truthy status).
  - rewrite andb_true_iff, !bool_decide_eq_true.
    split; intros [Ht Hs]; (split; [done|]); auto.
  - rewrite bool_decide_eq_true.
    split; [intros Ht; split; [done | intros [=]] | by intros [Ht _]].
Qed.

Lemma elem_of_unwind_lookup schools docs v s :
  (v, s) ∈ unwindSchool (lookupSchools schools docs)
  ↔ v ∈ docs ∧ s ∈ schools ∧ SchoolDoc.schoolId s = VisitDoc.schoolId v.
Proof.
  unfold unwindSchool, lookupSchools. rewrite list_elem_of_bind. split.
  - intros (d & Hin & Hd). apply list_elem_of_fmap in Hd as (v' & -> & Hv').
    simpl in Hin. apply list_elem_of_fmap in Hin as (s' & [= -> ->] & Hs').
    apply list_elem_of_In, List.filter_In in Hs' as [Hs' Heq].
    apply bool_decide_eq_true in Heq.
    split; [done|]. split; [by apply list_elem_of_In | done].
  - intros (Hv & Hs & Heq). eexists. split.
    2:{ apply list_elem_of_fmap. exists v. split; [reflexivity | done]. }
    simpl. apply list_elem_of_fmap. exists s. split; [done|].
    apply list_elem_of_In, List.filter_In. split; [by apply list_elem_of_In|].
    by apply bool_decide_eq_true_2.
Qed.

Lemma length_unwind_lookup schools docs :
  length (unwindSchool (lookupSchools schools docs))
  = sum_list ((λ v, length (List.filter
                 (λ s, bool_decide (SchoolDoc.schoolId s = VisitDoc.schoolId v))
                 schools)) <$> docs).
Proof.
  unfold unwindSchool, lookupSchools.
  induction docs as [|v docs IH]; csimpl; [done|].
  rewrite length_app, length_fmap. by f_equal.
Qed.

(** C7 (as amended). getTrainerVisits returns, without changing the store,
    one result for every visit of the trainer (of the given status, when a
    non-empty one is given) and every school document whose schoolId is the
    visit's; the result carries the visit's _id, visitDate, time, standard,
    status and createdAt and that school document.  A visit contributes as
    many results as there are school documents with its schoolId. *)
Theorem getTrainerVisits_spec trainerId status w :
  ∃ tvs,
    getTrainerVisits trainerId status w = (Ok tvs, w)
    ∧ (∀ tv, tv ∈ tvs ↔
         ∃ v s, v ∈ visits w ∧ matchesTrainer trainerId status v
                ∧ s ∈ schools w ∧ SchoolDoc.schoolId s = VisitDoc.schoolId v
                ∧ tv = mkTrainerVisit (VisitDoc._id v) (VisitDoc.visitDate v)
                         (VisitDoc.time v) (VisitDoc.standard v)
                         (VisitDoc.status v) (VisitDoc.createdAt v) s)
    ∧ ∃ matched,
        (∀ v, v ∈ matched ↔ v ∈ visits w ∧ matchesTrainer trainerId status v)
        ∧ sublist matched (visits w)
        ∧ length tvs
          = sum_list ((λ v, length (List.filter
                 (λ s, bool_decide (SchoolDoc.schoolId s = VisitDoc.schoolId v))
                 (schools w))) <$> matched).
Proof.
  rewrite getTrainerVisits_eval. eexists. split; [reflexivity|].
  set (stage := if truthy status then _ else _).
  assert (∀ v, v ∈ List.filter stage (visits w)
               ↔ v ∈ visits w ∧ matchesTrainer trainerId status v) as Hstage.
  { intros v. rewrite !list_elem_of_In, List.filter_In.
    unfold stage. by rewrite matchStage_matchesTrainer. }
  split.
  - intros tv. rewrite list_elem_of_fmap. split.
    + intros ([v s] & -> & Hin). apply elem_of_unwind_lookup in Hin as (Hv & Hs & Heq).
      apply Hstage in Hv as [Hv Hm]. by exists v, s.
    + intros (v & s & Hv & Hm & Hs & Heq & ->). exists (v, s). split; [done|].
      apply elem_of_unwind_lookup. split; [by apply Hstage | done].
  - exists (List.filter stage (visits w)). split; [exact Hstage|]. split.
    + clear Hstage. induction (visits w) as [|v l IH]; simpl; [done|].
      destruct (stage v); [by apply sublist_skip | by apply sublist_cons].
    + by rewrite length_fmap, length_unwind_lookup.
Qed.

(** C7, the counterexample: [T1] has a visit to [S1] and no school document
    carries that schoolId; the visit is not in the result, which is empty. *)
Lemma getTrainerVisits_drops_unknown_school :
  getTrainerVisits 1 None worldS1 = (Ok [], worldS1)
  ∧ ¬ returns_all_visits 1 None worldS1.
Proof.
  split; [reflexivity|]. intros H.
  destruct (H (Ok []) worldS1 visitS1 eq_refl) as (tvs & tv & Hr & Hin & _).
  - by left.
  - by split.
  - injection Hr as <-. by apply not_elem_of_nil in Hin.
Qed.

(** ** getSchoolIdsAndStudentCount *)

(** [[...new Set(xs)]] lists every element of [xs] once. *)
Lemma newSet_acc (acc xs : list string) :
  NoDup acc →
  let r := foldl (λ acc x, if bool_decide (x ∈ acc) then acc else acc ++ [x])
                 acc xs in
  NoDup r ∧ ∀ x, x ∈ r ↔ x ∈ acc ∨ x ∈ xs.
Proof.
  revert acc. induction xs as [|y xs IH]; intros acc Hnd; simpl.
  - split; [done|]. intros x. rewrite elem_of_nil. tauto.
  - case_bool_decide as Hy.
    + destruct (IH acc Hnd) as [Hnd' Hin]. split; [done|].
      intros x. rewrite Hin, elem_of_cons.
      split; [tauto|]. intros [?|[->|?]]; tauto.
    + assert (NoDup (acc ++ [y])) as Hnd2.
      { apply NoDup_app. split; [done|]. split; [|apply NoDup_singleton].
        intros x Hx ->%list_elem_of_singleton. done. }
      destruct (IH _ Hnd2) as [Hnd' Hin]. split; [done|].
      intros x. rewrite Hin, elem_of_app, list_elem_of_singleton, elem_of_cons.
      tauto.
Qed.

Lemma newSet_NoDup xs : NoDup (newSet xs).
Proof. apply (newSet_acc [] xs), NoDup_nil_2. Qed.

Lemma elem_of_newSet x xs : x ∈ newSet xs ↔ x ∈ xs.
Proof.
  destruct (newSet_acc [] xs (NoDup_nil_2)) as [_ H].
  unfold newSet. rewrite H, elem_of_nil. tauto.
Qed.

Lemma newSet_elements xs : newSet xs ≡ₚ elements (list_to_set xs : gset string).
Proof.
  apply NoDup_Permutation; [apply newSet_NoDup | apply NoDup_elements|].
  intros x. by rewrite elem_of_newSet, elem_of_elements, elem_of_list_to_set.
Qed.

(** Counting the documents whose key lies in a duplicate-free list adds up
    the counts per key. *)
Lemma count_in_NoDup {A} (key : A → string) (ks : list string) (l : list A) :
  NoDup ks →
  length (List.filter (λ a, bool_decide (key a ∈ ks)) l)
  = sum_list_with (λ k, length (List.filter (λ a, bool_decide (key a = k)) l)) ks.
Proof.
  induction 1 as [|k ks Hk Hnd IH]; simpl.
  - induction l as [|a l IHl]; simpl; done.
  - rewrite <- IH. clear IH.
    induction l as [|a l IHl]; simpl; [done|].
    destruct (decide (key a = k)) as [->|Hne].
    + rewrite !bool_decide_eq_true_2 by (done || left).
      rewrite (bool_decide_eq_false_2 (k ∈ ks)) by done. simpl. by rewrite IHl.
    + rewrite (bool_decide_eq_false_2 (key a = k)) by done.
      case_bool_decide as H1; case_bool_decide as H2; simpl; rewrite IHl;
        try lia.
      * apply elem_of_cons in H1 as [?|?]; done.
      * exfalso. apply H1. by right.
Qed.

(** The [$group] stage, read as a map from key to count. *)
Lemma list_to_map_sumInto (k : string) (g : list (string * nat)) :
  (list_to_map (sumInto k g) : gmap string nat)
  = <[k := S (default 0 ((list_to_map g : gmap string nat) !! k))]> (list_to_map g).
Proof.
  induction g as [|[k' n] g IH]; simpl; [done|].
  case_bool_decide as E; simpl.
  - subst k'. by rewrite lookup_insert_eq, insert_insert_eq.
  - rewrite IH, lookup_insert_ne by done. by apply insert_insert_ne.
Qed.

Lemma fst_sumInto (k k' : string) (g : list (string * nat)) :
  k' ∈ (sumInto k g).*1 ↔ k' = k ∨ k' ∈ g.*1.
Proof.
  induction g as [|[k0 n] g IH]; simpl.
  - rewrite list_elem_of_singleton, elem_of_nil. tauto.
  - case_bool_decide as E; csimpl; rewrite !elem_of_cons; [subst; tauto|].
    rewrite IH. tauto.
Qed.

Lemma NoDup_sumInto (k : string) (g : list (string * nat)) :
  NoDup g.*1 → NoDup (sumInto k g).*1.
Proof.
  induction g as [|[k0 n] g IH]; simpl; intros Hnd.
  - apply NoDup_singleton.
  - apply NoDup_cons in Hnd as [Hk0 Hnd].
    case_bool_decide as E; csimpl; apply NoDup_cons; [done|].
    split; [|by apply IH]. rewrite fst_sumInto. intros [->|?]; done.
Qed.

Lemma groupCount_snoc ks k : groupCount (ks ++ [k]) = sumInto k (groupCount ks).
Proof. unfold groupCount. by rewrite foldl_snoc. Qed.

Lemma NoDup_groupCount ks : NoDup (groupCount ks).*1.
Proof.
  induction ks as [|k ks IH] using rev_ind; [apply NoDup_nil_2|].
  rewrite groupCount_snoc. by apply NoDup_sumInto.
Qed.

Lemma lookup_groupCount ks (k : string) :
  (list_to_map (groupCount ks) : gmap string nat) !! k
  = let n := length (List.filter (λ x, bool_decide (x = k)) ks) in
    if nonZero n then Some n else None.
Proof.
  induction ks as [|x ks IH] using rev_ind; [done|].
  rewrite groupCount_snoc, list_to_map_sumInto, List.filter_app, length_app.
  simpl. destruct (decide (x = k)) as [->|Hne].
  - rewrite lookup_insert_eq, IH, bool_decide_eq_true_2 by done. simpl.
    rewrite Nat.add_1_r. by destruct (length _) as [|n].
  - rewrite lookup_insert_ne, IH, bool_decide_eq_false_2 by done. simpl.
    by rewrite Nat.add_0_r.
Qed.

(** [statusCounts.reduce((acc, curr) => { acc[curr._id] = curr.count; ... }, {})]
    over entries with distinct keys is the map of the entries. *)
Lemma reduce_list_to_map (g : list (string * nat)) :
  NoDup g.*1 →
  foldl (λ (acc : gmap string nat) curr, <[curr.1 := curr.2]> acc) ∅ g
  = list_to_map g.
Proof.
  induction g as [|[k n] g IH] using rev_ind; [done|].
  rewrite fmap_app. intros [Hnd [Hk _]]%NoDup_app.
  rewrite foldl_snoc, IH by done. simpl.
  rewrite list_to_map_snoc; [done|].
  intros Hin. apply (Hk k Hin). by left.
Qed.

Lemma length_filter_fmap {A} (f : A → string) (k : string) (l : list A) :
  length (List.filter (λ x, bool_decide (x = k)) (f <$> l))
  = length (List.filter (λ a, bool_decide (f a = k)) l).
Proof.
  induction l as [|a l IH]; csimpl; [done|].
  destruct (bool_decide (f a = k)); simpl; by rewrite IH.
Qed.

(** C6. getSchoolIdsAndStudentCount leaves the store as it is and reports:
    as totalSchools the number of distinct schoolIds among the trainer's
    visits, as totalStudents the sum over those distinct schools of each
    school's number of students, and as statusCounts a map that gives every
    status occurring among the trainer's visits its number of visits and has
    no key for any other status. *)
Theorem getSchoolIdsAndStudentCount_spec trainerId w :
  ∃ summary,
    getSchoolIdsAndStudentCount trainerId w = (Ok summary, w)
    ∧ totalSchools summary = size (distinctSchools trainerId w)
    ∧ totalStudents summary
      = sum_list_with (studentsOf w) (elements (distinctSchools trainerId w))
    ∧ ∀ status,
        statusCounts summary !! status
        = let n := visitsInStatus trainerId status w in
          if nonZero n then Some n else None.
Proof.
  unfold getSchoolIdsAndStudentCount, LifeTrainerVisit.find,
    Student.countDocuments, aggregate.
  run_monad. eexists. split; [reflexivity|]. simpl. unfold distinctSchools.
  set (mine := List.filter _ (visits w)).
  split; [|split].
  - unfold size, set_size. simpl. by rewrite newSet_elements.
  - unfold studentsOf.
    rewrite (count_in_NoDup StudentDoc.schoolId) by apply newSet_NoDup.
    by rewrite newSet_elements.
  - intros status.
    rewrite reduce_list_to_map by apply NoDup_groupCount.
    rewrite lookup_groupCount. simpl.
    by rewrite length_filter_fmap.
Qed.

(** The example of the specification: visits to schools {A, B, A}, with two
    students in A and three in B, give two schools and five students; two
    visits are scheduled and one is completed. *)
Example getSchoolIdsAndStudentCount_ABA :
  ∃ summary,
    getSchoolIdsAndStudentCount 1 worldABA = (Ok summary, worldABA)
    ∧ totalSchools summary = 2
    ∧ totalStudents summary = 5
    ∧ statusCounts summary !! "scheduled" = Some 2
    ∧ statusCounts summary !! "completed" = Some 1
    ∧ statusCounts summary !! "cancelled" = None.
Proof. eexists. repeat split; vm_compute; reflexivity. Qed.

(** ** bulkUpload *)

(** With [schoolArray] null and no CSV rows the property access throws. *)
Lemma bulkUpload_null random schedule w :
  ∃ message,
    bulkUpload random schedule None None w = (Throw (TypeError message), w).
Proof. by eexists. Qed.

Lemma bulkUpload_no_entries random schedule schoolArray csvFilePath batch w :
  modifiedSchoolsArray schoolArray csvFilePath = Some batch →
  sa_schools batch = None ∨ sa_schools batch = Some [] →
  bulkUpload random schedule schoolArray csvFilePath w
  = (Ok (ErrorResponse true "missing array"), w).
Proof.
  intros Hb Hs. unfold bulkUpload. rewrite Hb.
  by destruct Hs as [-> | ->].
Qed.

(** updateSchoolByScode: no school for the code. *)
Lemma updateSchoolByScode_missing findOneByCode scode updateBody w :
  findOneByCode scode (schools w) = None →
  updateSchoolByScode findOneByCode scode updateBody w
  = (Throw (ApiError httpStatus.NOT_FOUND "SChool not found"), w).
Proof.
  intros Hnone. unfold updateSchoolByScode, getSchoolByScode, gets.
  unfold mbind, M_bind. by rewrite Hnone.
Qed.

(** *** Replacing one task *)

Lemma omap_insert_perm {A B} (f : A → option B) (l : list A) i t t' :
  l !! i = Some t →
  option_list (f t') ++ omap f l ≡ₚ option_list (f t) ++ omap f (<[i:=t']> l).
Proof.
  revert i. induction l as [|a l IH]; intros [|i] Hi; simplify_eq/=.
  - destruct (f t), (f t'); simpl; solve_Permutation.
  - specialize (IH i Hi). destruct (f a); simpl; [|done].
    rewrite <- !Permutation_middle. by f_equiv.
Qed.

Lemma omap_insert_same {A B} (f : A → option B) (l : list A) i t t' :
  l !! i = Some t → f t = None → f t' = None →
  omap f (<[i:=t']> l) = omap f l.
Proof.
  revert i. induction l as [|a l IH]; intros [|i] Hi Ht Ht'; simplify_eq/=.
  - by rewrite Ht, Ht'.
  - by rewrite (IH i).
Qed.

Lemma omap_insert_gain {A B} (f : A → option B) (l : list A) i t t' b :
  l !! i = Some t → f t = None → f t' = Some b →
  omap f (<[i:=t']> l) ≡ₚ b :: omap f l.
Proof.
  intros Hi Ht Ht'. pose proof (omap_insert_perm f l i t t' Hi) as H.
  rewrite Ht, Ht' in H. simpl in H. by symmetry.
Qed.

Lemma omap_insert_lose {A B} (f : A → option B) (l : list A) i t t' b :
  l !! i = Some t → f t = Some b → f t' = None →
  omap f l ≡ₚ b :: omap f (<[i:=t']> l).
Proof.
  intros Hi Ht Ht'. pose proof (omap_insert_perm f l i t t' Hi) as H.
  by rewrite Ht, Ht' in H.
Qed.

(** *** The existence check *)

Lemma NoDup_fmap_apart {A B} (f : A → B) (l1 l2 l3 : list A) x y :
  NoDup (f <$> (l1 ++ l2 ++ l3)) → x ∈ l1 → y ∈ l3 → f x ≠ f y.
Proof.
  rewrite !fmap_app. intros (_ & Hapart & _)%NoDup_app Hx Hy Heq.
  apply (Hapart (f x)); [by apply list_elem_of_fmap_2|].
  rewrite Heq. apply elem_of_app. right. by apply list_elem_of_fmap_2.
Qed.

Section Uploading.
Context (w0 : World) (rows : list SchoolInput.t).
Hypothesis rows_distinct : NoDup (SchoolInput.udisecode <$> rows).

(** While no two rows share their [udisecode], [School.findOne] finds a
    school for a row exactly when one was in storage before the upload:
    the schools stored meanwhile belong to other rows. *)
Lemma findOne_preexisting saved created addedS addedU st w i school :
  uploading w0 rows saved created addedS addedU st w →
  tasks st !! i = Some (AwaitFindOne school) →
  is_Some (List.find
             (λ d, bool_decide (SchoolDoc.udisecode d = SchoolInput.udisecode school))
             (schools w))
  ↔ preexisting w0 school.
Proof.
  intros Hup Hi. split.
  - intros [d Hd]. apply List.find_some in Hd as [Hin Hcode].
    apply bool_decide_eq_true in Hcode.
    destruct (decide (preexisting w0 school)) as [|Hnew]; [done|]. exfalso.
    apply list_elem_of_In in Hin. rewrite (up_schools _ _ _ _ _ _ _ _ Hup) in Hin.
    apply elem_of_app in Hin as [Hin|Hin].
    { apply Hnew. unfold preexisting. rewrite <- Hcode.
      by apply list_elem_of_fmap_2. }
    assert (anonSchool d ∈ schoolOf <$> saved) as Hanon.
    { rewrite <- (up_addedS _ _ _ _ _ _ _ _ Hup). by apply list_elem_of_fmap_2. }
    apply list_elem_of_fmap in Hanon as (p & Hp & Hpin).
    assert (SchoolInput.udisecode p.1 = SchoolInput.udisecode school) as Hsame.
    { rewrite <- Hcode.
      change (SchoolDoc.udisecode (schoolOf p) = SchoolDoc.udisecode (anonSchool d)).
      by rewrite Hp. }
    revert Hsame.
    apply (NoDup_fmap_apart SchoolInput.udisecode saved.*1
             (omap awaitingSave (tasks st)).*1.*1
             (filter (λ s, ¬ preexisting w0 s) (omap awaitingFindOne (tasks st)))).
    + rewrite (up_new _ _ _ _ _ _ _ _ Hup).
      eapply sublist_NoDup; [exact rows_distinct|].
      apply fmap_sublist, sublist_filter.
    + by apply list_elem_of_fmap_2.
    + apply list_elem_of_filter. split; [done|].
      apply list_elem_of_omap. exists (AwaitFindOne school).
      split; [by eapply list_elem_of_lookup_2 | done].
  - intros Hpre. unfold preexisting in Hpre.
    apply list_elem_of_fmap in Hpre as (d & Hcode & Hd).
    apply (find_is_Some _ _ d).
    + rewrite (up_schools _ _ _ _ _ _ _ _ Hup). apply elem_of_app. by left.
    + by apply bool_decide_eq_true_2.
Qed.

(** *** One transition at a time *)

Lemma uploading_found saved created addedS addedU st w i school :
  uploading w0 rows saved created addedS addedU st w →
  tasks st !! i = Some (AwaitFindOne school) →
  preexisting w0 school →
  uploading w0 rows saved created addedS addedU
    (mkUpload (<[i := Settled]> (tasks st)) (dups st ++ [school]) (records st)
              (draws st)) w.
Proof.
  intros [] Hi Hpre.
  pose proof (omap_insert_lose awaitingFindOne _ i _ Settled school Hi
                eq_refl eq_refl) as Hfind.
  constructor; simpl; try done.
  - by rewrite (omap_insert_same awaitingCreate _ i _ Settled Hi).
  - by rewrite (omap_insert_same awaitingSave _ i _ Settled Hi).
  - rewrite <- up_dups0, Hfind, filter_cons_True by done. solve_Permutation.
  - rewrite <- up_new0, Hfind, (omap_insert_same awaitingSave _ i _ Settled Hi)
      by done.
    rewrite (filter_cons_False _ school); [done|]. by intros Hn.
Qed.

Lemma uploading_fresh saved created addedS addedU st w w' i school schoolId record n :
  uploading w0 rows saved created addedS addedU st w →
  tasks st !! i = Some (AwaitFindOne school) →
  ¬ preexisting w0 school →
  anonSchool record = schoolOf (school, schoolId) →
  schools w' = schools w → users w' = users w →
  visits w' = visits w → students w' = students w →
  uploading w0 rows saved created addedS addedU
    (mkUpload (<[i := AwaitSave school schoolId record]> (tasks st)) (dups st)
              (records st) n) w'.
Proof.
  intros [] Hi Hnew Hrec Hs Hu Hv Hst.
  pose proof (omap_insert_lose awaitingFindOne _ i _
                (AwaitSave school schoolId record) school Hi eq_refl eq_refl)
    as Hfind.
  pose proof (omap_insert_gain awaitingSave _ i _
                (AwaitSave school schoolId record) (school, schoolId, record)
                Hi eq_refl eq_refl) as Hsave.
  constructor; simpl; try congruence.
  - by rewrite (omap_insert_same awaitingCreate _ i _ _ Hi).
  - rewrite Hsave. by constructor.
  - rewrite <- up_dups0, Hfind. by rewrite filter_cons_False.
  - rewrite <- up_new0, Hfind, Hsave, filter_cons_True by done. csimpl.
    solve_Permutation.
Qed.

Lemma uploading_saved saved created addedS addedU st w w' i school schoolId record :
  uploading w0 rows saved created addedS addedU st w →
  tasks st !! i = Some (AwaitSave school schoolId record) →
  schools w' = schools w ++ [record] → users w' = users w →
  visits w' = visits w → students w' = students w →
  uploading w0 rows (saved ++ [(school, schoolId)]) created
    (addedS ++ [record]) addedU
    (mkUpload (<[i := AwaitCreate school schoolId]> (tasks st)) (dups st)
              (records st ++ [school]) (draws st)) w'.
Proof.
  intros [] Hi Hs Hu Hv Hst.
  pose proof (omap_insert_lose awaitingSave _ i _
                (AwaitCreate school schoolId) _ Hi eq_refl eq_refl) as Hsave.
  pose proof (omap_insert_gain awaitingCreate _ i _
                (AwaitCreate school schoolId) _ Hi eq_refl eq_refl) as Hcreate.
  assert (anonSchool record = schoolOf (school, schoolId)) as Hrec.
  { rewrite Hsave in up_record0. by apply Forall_cons in up_record0 as [? _]. }
  constructor; simpl; try congruence.
  - by rewrite Hs, up_schools0, <- app_assoc.
  - rewrite !fmap_app, up_addedS0. csimpl. by rewrite Hrec.
  - by rewrite fmap_app, up_records0.
  - rewrite Hcreate, <- up_created0. solve_Permutation.
  - rewrite Hsave in up_record0. by apply Forall_cons in up_record0 as [_ ?].
  - by rewrite (omap_insert_same awaitingFindOne _ i _ _ Hi).
  - rewrite (omap_insert_same awaitingFindOne _ i _ _ Hi) by done.
    rewrite <- up_new0, Hsave, fmap_app. csimpl. solve_Permutation.
Qed.

Lemma uploading_created saved created addedS addedU st w w' i school schoolId u :
  uploading w0 rows saved created addedS addedU st w →
  tasks st !! i = Some (AwaitCreate school schoolId) →
  anonUser u = companionOf (school, schoolId) →
  schools w' = schools w → users w' = users w ++ [u] →
  visits w' = visits w → students w' = students w →
  uploading w0 rows saved (created ++ [(school, schoolId)]) addedS
    (addedU ++ [u])
    (mkUpload (<[i := Settled]> (tasks st)) (dups st) (records st) (draws st)) w'.
Proof.
  intros [] Hi Hcomp Hs Hu Hv Hst.
  pose proof (omap_insert_lose awaitingCreate _ i _ Settled _ Hi eq_refl eq_refl)
    as Hcreate.
  constructor; simpl; try congruence.
  - by rewrite Hu, up_users0, <- app_assoc.
  - rewrite !fmap_app, up_addedU0. csimpl. by rewrite Hcomp.
  - rewrite <- up_created0, Hcreate. solve_Permutation.
  - by rewrite (omap_insert_same awaitingSave _ i _ _ Hi).
  - by rewrite (omap_insert_same awaitingFindOne _ i _ _ Hi).
  - by rewrite (omap_insert_same awaitingFindOne _ i _ _ Hi),
      (omap_insert_same awaitingSave _ i _ _ Hi).
Qed.
End Uploading.

(** *** Progress of the event loop *)

Lemma stepsLeftAt_insert i t t' st d r n :
  tasks st !! i = Some t →
  stepsLeft t' ≤ pred (stepsLeft t) →
  (∀ j, stepsLeftAt j (mkUpload (<[i := t']> (tasks st)) d r n) ≤ stepsLeftAt j st)
  ∧ stepsLeftAt i (mkUpload (<[i := t']> (tasks st)) d r n)
    ≤ pred (stepsLeftAt i st).
Proof.
  intros Hi Hle. pose proof (lookup_lt_Some _ _ _ Hi) as Hlt.
  unfold stepsLeftAt. simpl. split.
  - intros j. destruct (decide (i = j)) as [<-|Hne].
    + rewrite list_lookup_insert_eq, Hi by done. simpl. lia.
    + by rewrite list_lookup_insert_ne.
  - by rewrite list_lookup_insert_eq, Hi.
Qed.

(** Resuming a task never throws, moves that task on by at least one
    [await] and leaves the other tasks where they are. *)
Lemma resume_steps random i st w :
  ∃ st' w',
    resume random i st w = (Ok st', w')
    ∧ (∀ j, stepsLeftAt j st' ≤ stepsLeftAt j st)
    ∧ stepsLeftAt i st' ≤ pred (stepsLeftAt i st).
Proof.
  unfold resume.
  destruct (tasks st !! i) as [[school|school schoolId record|school schoolId|]|]
    eqn:Hi.
  - unfold School.findOne, School.new. run_monad.
    destruct (List.find _ (schools w)); simpl; eexists _, _;
      (split; [reflexivity|]);
      apply (stepsLeftAt_insert _ _ _ _ _ _ _ Hi); simpl; lia.
  - unfold School.insert. run_monad. eexists _, _. split; [reflexivity|].
    apply (stepsLeftAt_insert _ _ _ _ _ _ _ Hi); simpl; lia.
  - unfold User.create. run_monad. eexists _, _. split; [reflexivity|].
    apply (stepsLeftAt_insert _ _ _ _ _ _ _ Hi); simpl; lia.
  - eexists _, _. split; [reflexivity|]. split; [done|].
    unfold stepsLeftAt. rewrite Hi. simpl. lia.
  - eexists _, _. split; [reflexivity|]. split; [done|].
    unfold stepsLeftAt. rewrite Hi. simpl. lia.
Qed.

Lemma run_steps random schedule st w :
  ∃ st' w',
    run random schedule st w = (Ok st', w')
    ∧ ∀ j, stepsLeftAt j st'
           ≤ stepsLeftAt j st - length (filter (λ k, k = j) schedule).
Proof.
  revert st w. induction schedule as [|i schedule IH]; intros st w; simpl.
  - eexists _, _. split; [reflexivity|]. intros j. lia.
  - destruct (resume_steps random i st w) as (st1 & w1 & Hres & Hall & Hi).
    destruct (IH st1 w1) as (st' & w' & Hrun & Hrest).
    exists st', w'. split; [by rewrite (bind_ok _ _ _ _ _ Hres)|].
    intros j. specialize (Hrest j). specialize (Hall j).
    rewrite filter_cons. case_decide as E; simpl; [subst i|]; lia.
Qed.

Lemma drain_S n : drain (S n) = drain n ++ [n; n; n].
Proof. unfold drain. by rewrite seq_S, flat_map_app. Qed.

Lemma drain_visits n i :
  i < n → length (filter (λ k, k = i) (drain n)) = 3.
Proof.
  induction n as [|n IH]; [lia|]. intros Hi.
  rewrite drain_S, filter_app, length_app.
  destruct (decide (i = n)) as [->|Hne].
  - assert (filter (λ k, k = n) (drain n) = []) as ->.
    { clear. apply elem_of_nil_inv. intros k [-> Hk]%list_elem_of_filter.
      unfold drain in Hk. apply list_elem_of_In, in_flat_map in Hk as (x & Hx & Hk).
      apply in_seq in Hx. simpl in Hk. lia. }
    by rewrite !filter_cons_True.
  - rewrite IH by lia. by rewrite !filter_cons_False.
Qed.

(** Once every task has passed its last [await], nothing is awaited. *)
Lemma settled_nothing_awaited {B} (f : Task → option B) st :
  f Settled = None →
  (∀ j, stepsLeftAt j st = 0) → omap f (tasks st) = [].
Proof.
  intros Hf Hall. unfold stepsLeftAt in Hall.
  assert (Forall (λ t, t = Settled) (tasks st)) as Hs.
  { apply Forall_lookup. intros j t Hj. specialize (Hall j). rewrite Hj in Hall.
    by destruct t. }
  clear Hall. induction Hs as [|t l Ht _ IH]; simpl; [done|].
  subst t. by rewrite Hf.
Qed.

(** Whatever the schedule, [Promise.all] sees every task settled. *)
Lemma run_settles random schedule rows w :
  ∃ st' w',
    run random (schedule ++ drain (length rows))
        (mkUpload (AwaitFindOne <$> rows) [] [] 0) w = (Ok st', w')
    ∧ ∀ j, stepsLeftAt j st' = 0.
Proof.
  destruct (run_steps random (schedule ++ drain (length rows))
              (mkUpload (AwaitFindOne <$> rows) [] [] 0) w)
    as (st' & w' & Hrun & Hsteps).
  exists st', w'. split; [done|]. intros j. specialize (Hsteps j).
  unfold stepsLeftAt at 2 in Hsteps. simpl in Hsteps.
  rewrite list_lookup_fmap in Hsteps.
  destruct (rows !! j) as [school|] eqn:Hj; simpl in Hsteps; [|lia].
  apply lookup_lt_Some in Hj.
  rewrite filter_app, length_app, drain_visits in Hsteps by done. lia.
Qed.

(** *** The upload invariant along a schedule *)

Lemma omap_awaiting_start (rows : list SchoolInput.t) :
  omap awaitingFindOne (AwaitFindOne <$> rows) = rows
  ∧ omap awaitingSave (AwaitFindOne <$> rows) = []
  ∧ omap awaitingCreate (AwaitFindOne <$> rows) = [].
Proof.
  induction rows as [|school rows (IH1 & IH2 & IH3)]; csimpl; [done|].
  by rewrite IH1, IH2, IH3.
Qed.

Lemma uploading_start w rows :
  uploading w rows [] [] [] [] (mkUpload (AwaitFindOne <$> rows) [] [] 0) w.
Proof.
  destruct (omap_awaiting_start rows) as (H1 & H2 & H3).
  constructor; simpl; rewrite ?H1, ?H2, ?H3, ?app_nil_r; done.
Qed.

Section UploadingRun.
Context (random : nat → N) (w0 : World) (rows : list SchoolInput.t).
Hypothesis rows_distinct : NoDup (SchoolInput.udisecode <$> rows).

Lemma resume_uploading i saved created addedS addedU st w st' w' :
  uploading w0 rows saved created addedS addedU st w →
  resume random i st w = (Ok st', w') →
  ∃ saved' created' addedS' addedU',
    uploading w0 rows saved' created' addedS' addedU' st' w'.
Proof.
  intros Hup. unfold resume.
  destruct (tasks st !! i) as [[school|school schoolId record|school schoolId|]|]
    eqn:Hi.
  - pose proof (findOne_preexisting w0 rows rows_distinct _ _ _ _ _ _ _ _ Hup Hi)
      as Hpre.
    unfold School.findOne, School.new. run_monad.
    destruct (List.find _ (schools w)) as [d|]; simpl; intros [= <- <-].
    + eexists _, _, _, _. apply uploading_found; [done..|].
      apply Hpre. by eexists.
    + eexists _, _, _, _.
      eapply uploading_fresh; [exact Hup | exact Hi | | reflexivity..].
      intros [? [=]]%Hpre.
  - unfold School.insert. run_monad. intros [= <- <-].
    eexists _, _, _, _.
    eapply uploading_saved; [exact Hup | exact Hi | reflexivity..].
  - unfold User.create. run_monad. intros [= <- <-].
    eexists _, _, _, _.
    eapply uploading_created;
      [exact Hup | exact Hi | | reflexivity | reflexivity | reflexivity
       | reflexivity ].
    reflexivity.
  - intros [= <- <-]. by eexists _, _, _, _.
  - intros [= <- <-]. by eexists _, _, _, _.
Qed.

Lemma run_uploading schedule saved created addedS addedU st w st' w' :
  uploading w0 rows saved created addedS addedU st w →
  run random schedule st w = (Ok st', w') →
  ∃ saved' created' addedS' addedU',
    uploading w0 rows saved' created' addedS' addedU' st' w'.
Proof.
  revert saved created addedS addedU st w.
  induction schedule as [|i schedule IH];
    intros saved created addedS addedU st w Hup; simpl.
  - intros [= <- <-]. by eexists _, _, _, _.
  - destruct (resume_steps random i st w) as (st1 & w1 & Hres & _).
    rewrite (bind_ok _ _ _ _ _ Hres). intros Hrun.
    destruct (resume_uploading _ _ _ _ _ _ _ _ _ Hup Hres)
      as (saved1 & created1 & addedS1 & addedU1 & Hup1).
    by eapply IH.
Qed.
End UploadingRun.

Lemma length_filter_complement {A} (P : A → Prop) `{!∀ x, Decision (P x)}
    (l : list A) :
  length (filter (λ x, ¬ P x) l) = length l - length (filter P l).
Proof.
  pose proof (filter_app_complement P l) as Hperm.
  apply Permutation_length in Hperm. rewrite length_app in Hperm. lia.
Qed.

(** [xs.length ? xs.length : 0] and [xs.length ? xs : []] are [xs.length]
    and [xs]. *)
Lemma tally_all (xs : list SchoolInput.t) :
  mkTally (if nonZero (length xs) then length xs else 0)
          (if nonZero (length xs) then xs else [])
  = mkTally (length xs) xs.
Proof. by destruct xs. Qed.

(** C5. For a non-empty batch of N rows no two of which share their
    udisecode, K of them with a udisecode already in storage, and for every
    order in which the event loop resumes the concurrent tasks: bulkUpload
    returns totalDuplicates = K with those K rows and totalNonDuplicates =
    N - K with the other rows; the store gains exactly one school per
    non-duplicate row, carrying the row's columns and a generated id, and
    exactly one account per such school, with that id as username, role
    [school] and password [admin@123]; visits and students are untouched. *)
Theorem bulkUpload_counts random schedule schoolArray csvFilePath batch rows w :
  modifiedSchoolsArray schoolArray csvFilePath = Some batch →
  sa_schools batch = Some rows →
  rows ≠ [] →
  NoDup (SchoolInput.udisecode <$> rows) →
  ∃ dupRows (saved created : list (SchoolInput.t * string)) addedS addedU w',
    bulkUpload random schedule schoolArray csvFilePath w
    = (Ok (Summary
             (mkTally (length rows - length (filter (preexisting w) rows)) saved.*1)
             (mkTally (length (filter (preexisting w) rows)) dupRows)), w')
    ∧ dupRows ≡ₚ filter (preexisting w) rows
    ∧ saved.*1 ≡ₚ filter (λ school, ¬ preexisting w school) rows
    ∧ schools w' = schools w ++ addedS
    ∧ anonSchool <$> addedS = schoolOf <$> saved
    ∧ users w' = users w ++ addedU
    ∧ anonUser <$> addedU = companionOf <$> created
    ∧ created ≡ₚ saved
    ∧ length addedS = length rows - length (filter (preexisting w) rows)
    ∧ length addedU = length rows - length (filter (preexisting w) rows)
    ∧ Forall (λ u, UserDoc.role u = "school"
                   ∧ UserDoc.password u = Some "admin@123") addedU
    ∧ visits w' = visits w ∧ students w' = students w.
Proof.
  intros Hbatch Hrows Hne Hnd.
  destruct (run_settles random schedule rows w) as (st' & w' & Hrun & Hsettled).
  destruct (run_uploading random w rows Hnd _ _ _ _ _ _ _ _ _
              (uploading_start w rows) Hrun)
    as (saved & created & addedS & addedU & Hup).
  destruct Hup.
  rewrite (settled_nothing_awaited awaitingCreate st' eq_refl Hsettled),
    app_nil_r in up_created0.
  rewrite (settled_nothing_awaited awaitingFindOne st' eq_refl Hsettled),
    app_nil_r in up_dups0.
  rewrite (settled_nothing_awaited awaitingFindOne st' eq_refl Hsettled),
    (settled_nothing_awaited awaitingSave st' eq_refl Hsettled) in up_new0.
  simpl in up_new0. rewrite app_nil_r in up_new0.
  assert (length saved = length rows - length (filter (preexisting w) rows))
    as Hlen.
  { rewrite <- length_filter_complement, <- up_new0. by rewrite length_fmap. }
  exists (dups st'), saved, created, addedS, addedU, w'.
  split.
  { unfold bulkUpload. rewrite Hbatch, Hrows.
    destruct rows as [|row rows']; [done|].
    rewrite (bind_ok _ _ _ _ _ Hrun). unfold mret, M_ret.
    rewrite !tally_all, up_records0, length_fmap, Hlen.
    by rewrite (Permutation_length up_dups0). }
  split; [done|]. split; [done|]. split; [done|]. split; [done|].
  split; [done|]. split; [done|]. split; [done|].
  split.
  { rewrite <- Hlen, <- (length_fmap anonSchool), up_addedS0. apply length_fmap. }
  split.
  { rewrite <- Hlen, <- up_created0, <- (length_fmap anonUser), up_addedU0.
    apply length_fmap. }
  split; [|done].
  apply Forall_forall. intros u Hu.
  assert (anonUser u ∈ companionOf <$> created) as Hin.
  { rewrite <- up_addedU0. by apply list_elem_of_fmap_2. }
  apply list_elem_of_fmap in Hin as (p & Hp & _).
  split.
  - change (UserDoc.role (anonUser u) = "school"). by rewrite Hp.
  - change (UserDoc.password (anonUser u) = Some "admin@123"). by rewrite Hp.
Qed.

Lemma bulkUpload_counts_witness :
  ∃ dupRows (saved created : list (SchoolInput.t * string)) addedS addedU w',
    bulkUpload constantDraw [1; 0] None (Some [rowU1; rowU2]) worldU1
    = (Ok (Summary (mkTally 1 saved.*1) (mkTally 1 dupRows)), w')
    ∧ dupRows ≡ₚ [rowU1]
    ∧ saved.*1 ≡ₚ [rowU2]
    ∧ schools w' = schools worldU1 ++ addedS
    ∧ users w' = users worldU1 ++ addedU
    ∧ length addedS = 1
    ∧ length addedU = 1.
Proof.
  destruct (bulkUpload_counts constantDraw [1; 0] None (Some [rowU1; rowU2])
              (mkSchoolArray (Some [rowU1; rowU2])) [rowU1; rowU2] worldU1
              eq_refl eq_refl)
    as (dupRows & saved & created & addedS & addedU & w' & Hrun & Hdup & Hnew
        & Hs & _ & Hu & _ & _ & HlenS & HlenU & _).
  - discriminate.
  - apply (bool_decide_unpack _). exact I.
  - exists dupRows, saved, created, addedS, addedU, w'.
    repeat split; assumption.
Defined.

(** The same upload, run: [U1] is reported as duplicate, [U2] is stored with
    its companion account. *)
Example bulkUpload_example :
  ∃ w',
    bulkUpload constantDraw [1; 0] None (Some [rowU1; rowU2]) worldU1
    = (Ok (Summary (mkTally 1 [rowU2]) (mkTally 1 [rowU1])), w')
    ∧ SchoolDoc.schoolId <$> schools w' = ["SCH100001"; "SCH123456"]
    ∧ UserDoc.username <$> users w' = [Some "SCH123456"]
    ∧ UserDoc.role <$> users w' = ["school"].
Proof. eexists. repeat split; vm_compute; reflexivity. Qed.

(** Two rows with the same udisecode in one batch: when both existence
    checks run before either save, both rows are accepted as new; when the
    first task runs to its end before the second starts, the second row is
    a duplicate. *)
Example bulkUpload_identical_rows :
  (∃ w', bulkUpload constantDraw [0; 1; 0; 1; 0; 1] None (Some [rowU2; rowU2]) worldU1
         = (Ok (Summary (mkTally 2 [rowU2; rowU2]) (mkTally 0 [])), w'))
  ∧ (∃ w', bulkUpload constantDraw [0; 0; 0; 1; 1; 1] None (Some [rowU2; rowU2]) worldU1
           = (Ok (Summary (mkTally 1 [rowU2]) (mkTally 1 [rowU2])), w')).
Proof. split; eexists; vm_compute; reflexivity. Qed.

(** C8, as amended.  bulkUpload answers an input that supplies a batch (a
    [schoolArray] object, or CSV rows in its place) whose school list is
    missing or empty with the response
    [{ error: true, message: 'missing array' }], returned normally and with
    the store untouched, whereas the domain errors of the services
    (duplicate slot, unknown trainer, no visit for a school, no visit to
    update, no visit or no trainer on deletion, no school to update) are all
    thrown as ApiError exceptions. *)
Theorem bulkUpload_no_entries_is_response random schedule schoolArray csvFilePath
    batch w :
  modifiedSchoolsArray schoolArray csvFilePath = Some batch →
  sa_schools batch = None ∨ sa_schools batch = Some [] →
  bulkUpload random schedule schoolArray csvFilePath w
  = (Ok (ErrorResponse true "missing array"), w)
  ∧ (∀ send now trainerId schoolId visitDate time w1 existing,
       List.find (slotFilter trainerId schoolId visitDate time) (visits w1)
       = Some existing →
       scheduleVisit send now trainerId schoolId visitDate time w1
       = (Throw (ApiError httpStatus.CONFLICT "Visit scheduled already found"), w1))
  ∧ (∀ send now trainerId schoolId visitDate time w1,
       List.find (slotFilter trainerId schoolId visitDate time) (visits w1) = None →
       List.find (userById trainerId) (users w1) = None →
       ∃ w2, scheduleVisit send now trainerId schoolId visitDate time w1
             = (Throw (ApiError httpStatus.NOT_FOUND "Trainer not found"), w2))
  ∧ (∀ schoolId w1,
       List.filter (λ v, bool_decide (VisitDoc.schoolId v = schoolId)) (visits w1)
       = [] →
       getVisitsBySchoolId schoolId w1
       = (Throw (ApiError httpStatus.NOT_FOUND "Visits not found"), w1))
  ∧ (∀ schoolId trainer updateBody w1,
       List.find (visitOf schoolId trainer) (visits w1) = None →
       updateVisitById schoolId trainer updateBody w1
       = (Throw (ApiError httpStatus.NOT_FOUND "Visit not found"), w1))
  ∧ (∀ visitId w1,
       List.find (visitById visitId) (visits w1) = None →
       deleteVisit visitId w1
       = (Throw (ApiError httpStatus.NOT_FOUND "Visit not found"), w1))
  ∧ (∀ visitId w1 visit,
       List.find (visitById visitId) (visits w1) = Some visit →
       List.find (userById (VisitDoc.trainer visit)) (users w1) = None →
       deleteVisit visitId w1
       = (Throw (ApiError httpStatus.NOT_FOUND "Trainer not found"), w1))
  ∧ (∀ findOneByCode scode updateBody w1,
       findOneByCode scode (schools w1) = None →
       updateSchoolByScode findOneByCode scode updateBody w1
       = (Throw (ApiError httpStatus.NOT_FOUND "SChool not found"), w1)).
Proof.
  intros Hbatch Hschools.
  split; [by eapply bulkUpload_no_entries|].
  split; [intros; by eapply scheduleVisit_duplicate|].
  split.
  { intros send now trainerId schoolId visitDate time w1 Hv Hu.
    destruct (scheduleVisit_unknown_trainer send now _ _ _ _ w1 Hv Hu)
      as (w2 & Hrun & _). by exists w2. }
  split.
  { intros schoolId w1 Hnone. by rewrite getVisitsBySchoolId_eval, Hnone. }
  split; [intros; by apply updateVisitById_missing|].
  split; [intros; by apply deleteVisit_no_visit|].
  split; [intros; by eapply deleteVisit_no_trainer|].
  intros; by apply updateSchoolByScode_missing.
Qed.

Lemma bulkUpload_no_entries_is_response_witness :
  bulkUpload constantDraw [] None (Some []) worldU1
  = (Ok (ErrorResponse true "missing array"), worldU1)
  ∧ bulkUpload constantDraw [] (Some (mkSchoolArray None)) None worldU1
    = (Ok (ErrorResponse true "missing array"), worldU1).
Proof.
  split.
  - exact (proj1 (bulkUpload_no_entries_is_response constantDraw [] None (Some [])
                    (mkSchoolArray (Some [])) worldU1 eq_refl
                    (or_intror eq_refl))).
  - exact (proj1 (bulkUpload_no_entries_is_response constantDraw []
                    (Some (mkSchoolArray None)) None (mkSchoolArray None) worldU1
                    eq_refl (or_introl eq_refl))).
Defined.

(** C8, the counterexample: called with neither a [schoolArray] object nor
    CSV rows, bulkUpload has no school list to read; reading [schools] off
    the missing batch throws a TypeError, so no response is returned. *)
Lemma bulkUpload_without_batch_raises :
  schoolList None None = None
  ∧ (∃ message,
       bulkUpload constantDraw [] None None worldU1
       = (Throw (TypeError message), worldU1))
  ∧ ¬ no_entries_is_response constantDraw [] None None worldU1.
Proof.
  split; [reflexivity|]. split; [by eexists|].
  intros H. destruct H as (message & w' & Hrun); [by left|].
  discriminate Hrun.
Qed.

(** ** The store invariant *)

(** The uniqueness of identifiers that deleteVisit and updateVisitById rely
    on holds in the empty store and is kept by every service. *)

Lemma Forall_replaceById {A} (key : A → ObjectId) (P : A → Prop) a l :
  Forall P l → P a → Forall P (replaceById key a l).
Proof.
  intros Hl Ha. induction Hl as [|x l Hx Hl IH]; simpl; [done|].
  case_bool_decide; by constructor.
Qed.

Lemma Forall_deleteById {A} (key : A → ObjectId) (P : A → Prop) id l :
  Forall P l → Forall P (deleteById key id l).
Proof.
  intros Hl. induction Hl as [|x l Hx Hl IH]; simpl; [done|].
  case_bool_decide; [done | by constructor].
Qed.

Lemma NoDup_deleteById {A} (key : A → ObjectId) id l :
  NoDup (key <$> l) → NoDup (key <$> deleteById key id l).
Proof.
  intros Hnd. eapply sublist_NoDup; [exact Hnd|].
  apply fmap_sublist, deleteById_sublist.
Qed.

Lemma NoDup_snoc_fresh {A} (key : A → ObjectId) (n : ObjectId) l a :
  NoDup (key <$> l) → Forall (λ x, key x < n) l → key a = n →
  NoDup (key <$> (l ++ [a])).
Proof.
  intros Hnd Hlt Ha. rewrite fmap_app. apply NoDup_app.
  split; [done|]. split; [|apply NoDup_singleton].
  intros k Hk Hk'. apply list_elem_of_singleton in Hk'. subst k.
  apply list_elem_of_fmap in Hk as (x & Hx & Hin).
  rewrite Forall_forall in Hlt. specialize (Hlt x Hin). lia.
Qed.

Lemma Forall_lt_S {A} (key : A → ObjectId) (n : ObjectId) l :
  Forall (λ x, key x < n) l → Forall (λ x, key x < S n) l.
Proof. intros Hl. eapply Forall_impl; [exact Hl|]. intros x Hx. simpl in *. lia. Qed.

Lemma wf_emptyWorld : wf emptyWorld.
Proof. constructor; simpl; constructor. Qed.

Lemma scheduleVisit_wf send now trainerId schoolId visitDate time w r w' :
  wf w →
  scheduleVisit send now trainerId schoolId visitDate time w = (r, w') →
  wf w'.
Proof.
  intros [Hv Hu Hvlt Hult].
  unfold scheduleVisit, LifeTrainerVisit.findOne, LifeTrainerVisit.new,
    LifeTrainerVisit.insert, User.findById, User.findOne, User.save,
    sendNotification.
  run_monad.
  destruct (List.find _ (visits w)); simpl; [by intros [= <- <-]|].
  assert (NoDup (VisitDoc._id <$>
            visits w ++ [newVisit now trainerId schoolId visitDate time w]))
    as Hv' by by eapply NoDup_snoc_fresh.
  assert (Forall (λ v, VisitDoc._id v < S (nextId w))
            (visits w ++ [newVisit now trainerId schoolId visitDate time w]))
    as Hvlt'.
  { apply Forall_app. split; [by apply Forall_lt_S|].
    apply Forall_singleton. simpl. lia. }
  destruct (List.find _ (users w)) as [u|] eqn:Hfind; simpl.
  - assert (UserDoc._id u < S (nextId w)) as Hid.
    { apply List.find_some in Hfind as [Hin _]. apply list_elem_of_In in Hin.
      rewrite Forall_forall in Hult. specialize (Hult u Hin). lia. }
    assert (wf (mkWorld
                  (visits w ++ [newVisit now trainerId schoolId visitDate time w])
                  (users w) (schools w) (students w) (S (nextId w))
                  (log w ++ [VisitSaved (nextId w)]))) as Hmid.
    { constructor; simpl; try done. by apply Forall_lt_S. }
    destruct (truthy (UserDoc.deviceToken u)); simpl;
      [destruct (send _ _ _); simpl|]; intros [= <- <-]; try exact Hmid.
    all: constructor; simpl; try done;
      [by rewrite map_key_replaceById
      | apply Forall_replaceById; [by apply Forall_lt_S | done]].
  - intros [= <- <-]. constructor; simpl; try done. by apply Forall_lt_S.
Qed.

Lemma updateVisitById_wf schoolId trainer updateBody w r w' :
  wf w → updateVisitById schoolId trainer updateBody w = (r, w') → wf w'.
Proof.
  intros [Hv Hu Hvlt Hult].
  destruct (List.find (visitOf schoolId trainer) (visits w)) as [v|] eqn:Hfind.
  - rewrite (updateVisitById_found _ _ _ _ _ Hfind). simpl.
    assert (VisitDoc._id v < nextId w) as Hid.
    { apply List.find_some in Hfind as [Hin _]. apply list_elem_of_In in Hin.
      rewrite Forall_forall in Hvlt. by apply Hvlt. }
    destruct (attendanceComplete _); intros [= <- <-]; constructor; simpl;
      try done; (by rewrite map_key_replaceById) || by apply Forall_replaceById.
  - rewrite (updateVisitById_missing _ _ _ _ Hfind). by intros [= <- <-].
Qed.

Lemma deleteVisit_wf visitId w r w' :
  wf w → deleteVisit visitId w = (r, w') → wf w'.
Proof.
  intros [Hv Hu Hvlt Hult].
  destruct (List.find (visitById visitId) (visits w)) as [visit|] eqn:Hfind.
  2:{ rewrite (deleteVisit_no_visit _ _ Hfind). by intros [= <- <-]. }
  destruct (List.find (userById (VisitDoc.trainer visit)) (users w))
    as [trainer|] eqn:Hfu.
  2:{ rewrite (deleteVisit_no_trainer _ _ _ Hfind Hfu). by intros [= <- <-]. }
  rewrite (deleteVisit_found _ _ _ _ Hfind Hfu). intros [= <- <-].
  constructor; simpl.
  - by apply NoDup_deleteById.
  - by rewrite map_key_replaceById.
  - by apply Forall_deleteById.
  - apply Forall_replaceById; [done|]. simpl.
    apply List.find_some in Hfu as [Hin _]. apply list_elem_of_In in Hin.
    rewrite Forall_forall in Hult. by apply Hult.
Qed.

Lemma resume_wf random i st w st' w' :
  wf w → resume random i st w = (Ok st', w') → wf w'.
Proof.
  intros [Hv Hu Hvlt Hult]. unfold resume.
  destruct (tasks st !! i) as [[school|school schoolId record|school schoolId|]|].
  - unfold School.findOne, School.new. run_monad.
    destruct (List.find _ (schools w)); simpl; intros [= <- <-]; [done|].
    constructor; simpl; try done; by apply Forall_lt_S.
  - unfold School.insert. run_monad. by intros [= <- <-].
  - unfold User.create. run_monad. intros [= <- <-].
    constructor; simpl; try done.
    + by eapply NoDup_snoc_fresh.
    + by apply Forall_lt_S.
    + apply Forall_app. split; [by apply Forall_lt_S|].
      apply Forall_singleton. simpl. lia.
  - by intros [= <- <-].
  - by intros [= <- <-].
Qed.

Lemma run_wf random schedule st w st' w' :
  wf w → run random schedule st w = (Ok st', w') → wf w'.
Proof.
  revert st w. induction schedule as [|i schedule IH]; intros st w Hwf; simpl.
  - by intros [= <- <-].
  - destruct (resume_steps random i st w) as (st1 & w1 & Hres & _).
    rewrite (bind_ok _ _ _ _ _ Hres). apply IH. by eapply resume_wf.
Qed.

Lemma bulkUpload_wf random schedule schoolArray csvFilePath w r w' :
  wf w → bulkUpload random schedule schoolArray csvFilePath w = (r, w') → wf w'.
Proof.
  intros Hwf. unfold bulkUpload.
  destruct (modifiedSchoolsArray _ _) as [[[[|row rows]|]]|];
    try by intros [= <- <-].
  destruct (run_steps random (schedule ++ drain (length (row :: rows)))
              (mkUpload (AwaitFindOne <$> row :: rows) [] [] 0) w)
    as (st1 & w1 & Hrun & _).
  unfold mbind, M_bind. simpl in Hrun |- *. rewrite Hrun.
  intros [= <- <-]. by eapply run_wf.
Qed.

(** * Further properties of the services *)

(** ** scheduleVisit, case by case *)

Lemma scheduleVisit_cases send now trainerId schoolId visitDate time w :
  scheduleVisit send now trainerId schoolId visitDate time w
  = match List.find (slotFilter trainerId schoolId visitDate time) (visits w) with
    | Some _ =>
        (Throw (ApiError httpStatus.CONFLICT "Visit scheduled already found"), w)
    | None =>
        let visit := newVisit now trainerId schoolId visitDate time w in
        let w1 := afterInsert now trainerId schoolId visitDate time w in
        match List.find (userById trainerId) (users w) with
        | None => (Throw (ApiError httpStatus.NOT_FOUND "Trainer not found"), w1)
        | Some trainer =>
            let trainer' :=
              UserDoc.set_visits (UserDoc.visits trainer ++ [nextId w]) trainer in
            let saved (l : list Event) :=
              mkWorld (visits w1) (replaceById UserDoc._id trainer' (users w))
                      (schools w) (students w) (S (nextId w))
                      (l ++ [UserSaved (UserDoc._id trainer)]) in
            if truthy (UserDoc.deviceToken trainer) then
              if send (default "" (UserDoc.deviceToken trainer)) "Visits"
                      ("You have assined visit for" +:+ schoolId +:+ " date "
                       +:+ visitDate)
              then (Ok visit,
                    saved (log w1 ++ [visitNotification
                                        (default "" (UserDoc.deviceToken trainer))
                                        schoolId visitDate]))
              else (Throw MessagingError, w1)
            else (Ok visit, saved (log w1))
        end
    end.
Proof.
  unfold scheduleVisit, LifeTrainerVisit.findOne, LifeTrainerVisit.new,
    LifeTrainerVisit.insert, User.findById, User.findOne, User.save,
    sendNotification.
  run_monad.
  destruct (List.find _ (visits w)); simpl; [done|].
  destruct (List.find _ (users w)) as [u|]; simpl; [|done].
  destruct (truthy (UserDoc.deviceToken u)); simpl; [|done].
  by destruct (send _ _ _).
Qed.

Lemma elem_of_replaceById {A} (key : A → ObjectId) (a x : A) (l : list A) :
  x ∈ l → key x ≠ key a → x ∈ replaceById key a l.
Proof.
  induction l as [|y l IH]; simpl; [done|].
  intros [->|Hin]%elem_of_cons Hne.
  - rewrite bool_decide_eq_false_2 by done. by left.
  - case_bool_decide; right; [done | by apply IH].
Qed.

Lemma elem_of_replaceById_inv {A} (key : A → ObjectId) (a x : A) (l : list A) :
  x ∈ replaceById key a l → x = a ∨ x ∈ l.
Proof.
  induction l as [|y l IH]; simpl; [by right|].
  case_bool_decide.
  - intros [->|Hin]%elem_of_cons; [by left | right; by right].
  - intros [->|Hin]%elem_of_cons; [right; by left|].
    destruct (IH Hin); [by left | right; by right].
Qed.

Lemma find_fresh {A} (key : A → ObjectId) (n : ObjectId) (l : list A) (a : A) :
  Forall (λ x, key x < n) l → key a = n →
  List.find (λ x, bool_decide (key x = n)) (l ++ [a]) = Some a.
Proof.
  intros Hlt Ha. apply find_app_None; [|by apply bool_decide_eq_true_2].
  induction Hlt as [|x l Hx _ IH]; simpl; [done|].
  rewrite bool_decide_eq_false_2 by lia. done.
Qed.

(** X1. The successful path: with the slot free, the trainer on record, and
    the notification (attempted only when the trainer has a device token)
    accepted, scheduleVisit returns the new visit, appends it to the visits,
    appends its id to the stored trainer's visits, leaves every other user,
    the schools and the students alone, and has issued its requests in the
    order: save visit, notify, save trainer. *)
Theorem scheduleVisit_success send now trainerId schoolId visitDate time w trainer :
  List.find (slotFilter trainerId schoolId visitDate time) (visits w) = None →
  List.find (userById trainerId) (users w) = Some trainer →
  (truthy (UserDoc.deviceToken trainer) = true →
   send (default "" (UserDoc.deviceToken trainer)) "Visits"
        ("You have assined visit for" +:+ schoolId +:+ " date " +:+ visitDate)
   = true) →
  ∃ w',
    scheduleVisit send now trainerId schoolId visitDate time w
    = (Ok (newVisit now trainerId schoolId visitDate time w), w')
    ∧ visits w' = visits w ++ [newVisit now trainerId schoolId visitDate time w]
    ∧ List.find (userById trainerId) (users w')
      = Some (UserDoc.set_visits (UserDoc.visits trainer ++ [nextId w]) trainer)
    ∧ (∀ u, u ∈ users w → UserDoc._id u ≠ trainerId → u ∈ users w')
    ∧ log w'
      = log w ++ [VisitSaved (nextId w)]
          ++ (if truthy (UserDoc.deviceToken trainer)
              then [visitNotification (default "" (UserDoc.deviceToken trainer))
                                      schoolId visitDate]
              else [])
          ++ [UserSaved trainerId]
    ∧ schools w' = schools w ∧ students w' = students w.
Proof.
  intros Hslot Hu Hsend.
  destruct (find_key_Some UserDoc._id _ _ _ Hu) as [Hid _].
  rewrite scheduleVisit_cases, Hslot, Hu. simpl.
  assert (List.find (userById trainerId)
            (replaceById UserDoc._id
               (UserDoc.set_visits (UserDoc.visits trainer ++ [nextId w]) trainer)
               (users w))
          = Some (UserDoc.set_visits (UserDoc.visits trainer ++ [nextId w])
                                     trainer)) as Hfind.
  { rewrite <- Hid in Hu |- *.
    exact (find_replaceById UserDoc._id
             (UserDoc.set_visits (UserDoc.visits trainer ++ [nextId w]) trainer)
             trainer _ Hu). }
  assert (∀ u, u ∈ users w → UserDoc._id u ≠ trainerId →
               u ∈ replaceById UserDoc._id
                     (UserDoc.set_visits (UserDoc.visits trainer ++ [nextId w])
                                         trainer) (users w)) as Hothers.
  { intros u Hin Hne. apply elem_of_replaceById; [done|]. simpl. by rewrite Hid. }
  destruct (truthy (UserDoc.deviceToken trainer)) eqn:Htoken.
  - rewrite (Hsend eq_refl). eexists. split; [reflexivity|]. simpl.
    rewrite Hid, <- !app_assoc. by auto.
  - eexists. split; [reflexivity|]. simpl.
    rewrite Hid, <- !app_assoc. by auto.
Qed.

Lemma scheduleVisit_success_witness :
  ∃ w',
    scheduleVisit alwaysDelivered 100 1 "S1" "2024-01-10" "09:00" worldT1
    = (Ok visitS1, w')
    ∧ visits w' = [visitS1]
    ∧ List.find (userById 1) (users w') = Some (UserDoc.set_visits [2] trainerT1)
    ∧ log w' = log worldS1.
Proof.
  destruct (scheduleVisit_success alwaysDelivered 100 1 "S1" "2024-01-10" "09:00"
              worldT1 trainerT1 eq_refl eq_refl (λ _, eq_refl))
    as (w' & Hrun & Hv & Hu & _ & Hlog & _).
  exists w'. repeat split; assumption.
Defined.

(** X2. When the trainer has a device token and the messaging adapter
    rejects the message, scheduleVisit throws that rejection after the visit
    was saved and before the trainer is: the visit is stored, no user has
    changed (the visit id is in nobody's list), and the same call repeated
    fails with CONFLICT. *)
Theorem scheduleVisit_notification_rejected send now now' trainerId schoolId
    visitDate time w trainer :
  List.find (slotFilter trainerId schoolId visitDate time) (visits w) = None →
  List.find (userById trainerId) (users w) = Some trainer →
  truthy (UserDoc.deviceToken trainer) = true →
  send (default "" (UserDoc.deviceToken trainer)) "Visits"
       ("You have assined visit for" +:+ schoolId +:+ " date " +:+ visitDate)
  = false →
  ∃ w',
    scheduleVisit send now trainerId schoolId visitDate time w
    = (Throw MessagingError, w')
    ∧ visits w' = visits w ++ [newVisit now trainerId schoolId visitDate time w]
    ∧ users w' = users w
    ∧ log w' = log w ++ [VisitSaved (nextId w)]
    ∧ scheduleVisit send now' trainerId schoolId visitDate time w'
      = (Throw (ApiError httpStatus.CONFLICT "Visit scheduled already found"), w').
Proof.
  intros Hslot Hu Htoken Hsend.
  rewrite scheduleVisit_cases, Hslot, Hu. simpl. rewrite Htoken, Hsend.
  eexists. split; [reflexivity|]. simpl.
  split; [done|]. split; [done|]. split; [done|].
  eapply scheduleVisit_duplicate. simpl.
  apply find_app_None; [done|].
  unfold slotFilter, newVisit. simpl. by rewrite !bool_decide_eq_true_2.
Qed.

Lemma scheduleVisit_notification_rejected_witness :
  ∃ w',
    scheduleVisit neverDelivered 100 1 "S1" "2024-01-10" "09:00" worldT1
    = (Throw MessagingError, w')
    ∧ visits w' = [visitS1]
    ∧ users w' = [trainerT1].
Proof.
  destruct (scheduleVisit_notification_rejected neverDelivered 100 101 1 "S1"
              "2024-01-10" "09:00" worldT1 trainerT1 eq_refl eq_refl eq_refl eq_refl)
    as (w' & Hrun & Hv & Hu & _).
  exists w'. repeat split; assumption.
Defined.

(** ** scheduleVisit composed with the other services *)

Lemma scheduleVisit_Ok_inv send now trainerId schoolId visitDate time w visit w' :
  scheduleVisit send now trainerId schoolId visitDate time w = (Ok visit, w') →
  ∃ trainer,
    List.find (slotFilter trainerId schoolId visitDate time) (visits w) = None
    ∧ List.find (userById trainerId) (users w) = Some trainer
    ∧ visit = newVisit now trainerId schoolId visitDate time w
    ∧ visits w' = visits w ++ [visit]
    ∧ users w'
      = replaceById UserDoc._id
          (UserDoc.set_visits (UserDoc.visits trainer ++ [nextId w]) trainer)
          (users w)
    ∧ schools w' = schools w ∧ students w' = students w
    ∧ nextId w' = S (nextId w).
Proof.
  rewrite scheduleVisit_cases.
  destruct (List.find _ (visits w)); [done|].
  destruct (List.find _ (users w)) as [trainer|]; [|done]. simpl.
  destruct (truthy _); [destruct (send _ _ _)|]; intros [= <- <-];
    by exists trainer.
Qed.

(** X3. Round trip: under the store invariant, the visit a successful
    scheduleVisit returns carries an identifier no stored visit had, and
    getVisitById with that identifier returns exactly this visit. *)
Theorem scheduleVisit_then_getVisitById send now trainerId schoolId visitDate time
    w visit w' :
  wf w →
  scheduleVisit send now trainerId schoolId visitDate time w = (Ok visit, w') →
  List.find (visitById (VisitDoc._id visit)) (visits w) = None
  ∧ getVisitById (VisitDoc._id visit) w' = (Ok (Some visit), w').
Proof.
  intros [_ _ Hlt _] Hrun.
  apply scheduleVisit_Ok_inv in Hrun
    as (trainer & _ & _ & -> & Hv & _). simpl.
  split.
  - destruct (List.find _ (visits w)) as [x|] eqn:E; [|done].
    apply find_key_Some in E as [Hid Hin].
    rewrite Forall_forall in Hlt. specialize (Hlt x Hin). simpl in Hlt. lia.
  - unfold getVisitById, LifeTrainerVisit.findById, LifeTrainerVisit.findOne, gets.
    rewrite Hv. f_equal. f_equal. by apply (find_fresh VisitDoc._id).
Qed.

Lemma scheduleVisit_then_getVisitById_witness :
  ∃ w',
    scheduleVisit alwaysDelivered 100 1 "S1" "2024-01-10" "09:00" worldT1
    = (Ok visitS1, w')
    ∧ getVisitById 2 w' = (Ok (Some visitS1), w').
Proof.
  eexists. split; [vm_compute; reflexivity|].
  refine (proj2 (scheduleVisit_then_getVisitById alwaysDelivered 100 1 "S1"
                   "2024-01-10" "09:00" worldT1 visitS1 _ _ eq_refl)).
  constructor; simpl; repeat constructor; by apply not_elem_of_nil.
Defined.

Lemma find_app_skip {A} (p : A → bool) (l k : list A) :
  List.find p l = None → List.find p (l ++ k) = List.find p k.
Proof.
  induction l as [|x l IH]; simpl; [done|]. destruct (p x); [done | exact IH].
Qed.

(** X4. A visit stored for one slot does not occupy another: when the slots
    differ in trainer, school, date or time and the second was free, it is
    still free after scheduleVisit was called for the first (whatever that
    call's outcome), so scheduling the second does not fail with CONFLICT. *)
Theorem scheduleVisit_other_slot send send' now now' trainerId schoolId visitDate
    time trainerId' schoolId' visitDate' time' w r w1 :
  (trainerId, schoolId, visitDate, time)
    ≠ (trainerId', schoolId', visitDate', time') →
  List.find (slotFilter trainerId' schoolId' visitDate' time') (visits w) = None →
  scheduleVisit send now trainerId schoolId visitDate time w = (r, w1) →
  List.find (slotFilter trainerId' schoolId' visitDate' time') (visits w1) = None
  ∧ ∀ message,
      (scheduleVisit send' now' trainerId' schoolId' visitDate' time' w1).1
      ≠ Throw (ApiError httpStatus.CONFLICT message).
Proof.
  intros Hne Hfree Hrun.
  assert (List.find (slotFilter trainerId' schoolId' visitDate' time') (visits w1)
          = None) as Hfree1.
  { destruct (List.find (slotFilter trainerId schoolId visitDate time) (visits w))
      as [existing|] eqn:Hslot.
    - rewrite (scheduleVisit_duplicate send now _ _ _ _ w existing Hslot) in Hrun.
      by injection Hrun as <- <-.
    - rewrite (scheduleVisit_stores send now _ _ _ _ w r w1 Hslot Hrun).
      rewrite (find_app_skip _ _ _ Hfree). simpl.
      unfold slotFilter, newVisit. simpl.
      destruct (decide (trainerId = trainerId')) as [->|?];
        [|by rewrite bool_decide_eq_false_2].
      destruct (decide (schoolId = schoolId')) as [->|?];
        [|by rewrite (bool_decide_eq_false_2 (schoolId = schoolId')), andb_false_r].
      destruct (decide (visitDate = visitDate')) as [->|?];
        [|by rewrite (bool_decide_eq_false_2 (visitDate = visitDate')),
               andb_false_r].
      destruct (decide (time = time')) as [->|?]; [done|].
      by rewrite (bool_decide_eq_false_2 (time = time')), andb_false_r. }
  split; [done|]. intros message.
  rewrite scheduleVisit_cases, Hfree1. simpl.
  destruct (List.find _ (users w1)); simpl; [|done].
  destruct (truthy _); [destruct (send' _ _ _)|]; done.
Qed.

Lemma scheduleVisit_other_slot_witness :
  List.find (slotFilter 1 "S1" "2024-01-11" "09:00") (visits worldS1) = None
  ∧ (scheduleVisit alwaysDelivered 101 1 "S1" "2024-01-11" "09:00" worldS1).1
    ≠ Throw (ApiError httpStatus.CONFLICT "Visit scheduled already found").
Proof.
  destruct (scheduleVisit_other_slot alwaysDelivered alwaysDelivered 100 101
              1 "S1" "2024-01-10" "09:00" 1 "S1" "2024-01-11" "09:00"
              worldT1 (Ok visitS1) worldS1) as [Hfree Hok].
  - discriminate.
  - reflexivity.
  - vm_compute. reflexivity.
  - split; [exact Hfree | apply Hok].
Defined.

(** X5. A visit stored by scheduleVisit is visible to getVisitsBySchoolId at
    once, also when the call that stored it failed afterwards (unknown
    trainer, rejected notification): with the slot free before,
    getVisitsBySchoolId for the school does not throw and lists the visit. *)
Theorem scheduleVisit_then_getVisitsBySchoolId send now trainerId schoolId
    visitDate time w r w1 :
  List.find (slotFilter trainerId schoolId visitDate time) (visits w) = None →
  scheduleVisit send now trainerId schoolId visitDate time w = (r, w1) →
  ∃ populatedVisits,
    getVisitsBySchoolId schoolId w1 = (Ok populatedVisits, w1)
    ∧ newVisit now trainerId schoolId visitDate time w
      ∈ pv_visit <$> populatedVisits.
Proof.
  intros Hslot Hrun.
  pose proof (scheduleVisit_stores send now _ _ _ _ w r w1 Hslot Hrun) as Hv.
  rewrite getVisitsBySchoolId_eval, Hv, List.filter_app. simpl.
  rewrite bool_decide_eq_true_2 by done.
  destruct (List.filter _ (visits w) ++ _) as [|v found] eqn:E.
  { by apply app_eq_nil in E as [_ [=]]. }
  exists (populate w1 <$> v :: found). split; [done|].
  rewrite fmap_visit_populate, <- E. apply elem_of_app. right. by left.
Qed.

Lemma scheduleVisit_then_getVisitsBySchoolId_witness :
  ∃ w1 populatedVisits,
    scheduleVisit alwaysDelivered 100 7 "S1" "2024-01-10" "09:00" emptyWorld
    = (Throw (ApiError httpStatus.NOT_FOUND "Trainer not found"), w1)
    ∧ getVisitsBySchoolId "S1" w1 = (Ok populatedVisits, w1)
    ∧ newVisit 100 7 "S1" "2024-01-10" "09:00" emptyWorld
      ∈ pv_visit <$> populatedVisits.
Proof.
  eexists. 
  destruct (scheduleVisit_then_getVisitsBySchoolId alwaysDelivered 100 7 "S1"
              "2024-01-10" "09:00" emptyWorld _ _ eq_refl eq_refl)
    as (pvs & Hrun & Hin).
  exists pvs. split; [reflexivity|]. split; [exact Hrun | exact Hin].
Defined.

(** ** deleteVisit: round trip and frame *)

Lemma deleteById_snoc_fresh {A} (key : A → ObjectId) (n : ObjectId) (l : list A) a :
  Forall (λ x, key x < n) l → key a = n → deleteById key n (l ++ [a]) = l.
Proof.
  intros Hlt Ha. induction Hlt as [|x l Hx _ IH]; simpl.
  - by rewrite bool_decide_eq_true_2.
  - rewrite bool_decide_eq_false_2 by lia. by rewrite IH.
Qed.

Lemma replaceById_self {A} (key : A → ObjectId) (a : A) (l : list A) :
  List.find (λ y, bool_decide (key y = key a)) l = Some a →
  replaceById key a l = l.
Proof.
  induction l as [|y l IH]; simpl; [done|].
  destruct (bool_decide (key y = key a)); [by intros [= ->]|].
  intros H. by rewrite IH.
Qed.

Lemma pull_snoc_fresh id ids : id ∉ ids → pull id (ids ++ [id]) = ids.
Proof.
  intros Hid. unfold pull. rewrite List.filter_app. simpl.
  rewrite bool_decide_eq_true_2 by done. simpl. rewrite app_nil_r.
  induction ids as [|x ids IH]; simpl; [done|].
  apply not_elem_of_cons in Hid as [Hne Hid].
  rewrite bool_decide_eq_false_2 by done. simpl. by rewrite IH.
Qed.

Lemma deleteVisit_Ok_inv visitId w visit w' :
  deleteVisit visitId w = (Ok visit, w') →
  ∃ trainer,
    List.find (visitById visitId) (visits w) = Some visit
    ∧ List.find (userById (VisitDoc.trainer visit)) (users w) = Some trainer.
Proof.
  destruct (List.find (visitById visitId) (visits w)) as [v|] eqn:Hv.
  2:{ by rewrite (deleteVisit_no_visit _ _ Hv). }
  destruct (List.find (userById (VisitDoc.trainer v)) (users w)) as [u|] eqn:Hu.
  2:{ by rewrite (deleteVisit_no_trainer _ _ _ Hv Hu). }
  rewrite (deleteVisit_found _ _ _ _ Hv Hu). intros [= <- <-]. by exists u.
Qed.

(** X6. Scheduling and then deleting is a round trip: under the store
    invariant and with no dangling back-reference, deleting the visit a
    successful scheduleVisit returned gives that visit back and restores the
    visits, users, schools and students collections to what they were
    before the visit was scheduled. *)
Theorem scheduleVisit_then_deleteVisit send now trainerId schoolId visitDate time
    w visit w1 :
  wf w → visitsOwned w →
  scheduleVisit send now trainerId schoolId visitDate time w = (Ok visit, w1) →
  ∃ w2,
    deleteVisit (VisitDoc._id visit) w1 = (Ok visit, w2)
    ∧ visits w2 = visits w ∧ users w2 = users w
    ∧ schools w2 = schools w ∧ students w2 = students w.
Proof.
  intros [_ _ Hlt _] Hown Hrun.
  apply scheduleVisit_Ok_inv in Hrun
    as (trainer & _ & Hu & -> & Hv & Husers & Hs & Hst & _).
  destruct (find_key_Some UserDoc._id _ _ _ Hu) as [Hid Hin].
  set (visit := newVisit now trainerId schoolId visitDate time w) in *.
  set (trainer' := UserDoc.set_visits (UserDoc.visits trainer ++ [nextId w]) trainer)
    in *.
  assert (List.find (visitById (VisitDoc._id visit)) (visits w1) = Some visit)
    as Hfv.
  { rewrite Hv. by apply (find_fresh VisitDoc._id). }
  assert (List.find (userById (VisitDoc.trainer visit)) (users w1) = Some trainer')
    as Hfu.
  { rewrite Husers. simpl. rewrite <- Hid in Hu |- *.
    exact (find_replaceById UserDoc._id trainer' trainer _ Hu). }
  assert (nextId w ∉ UserDoc.visits trainer) as Hfresh.
  { intros Hlisted. destruct (Hown trainer (nextId w) Hin Hlisted)
      as (v & Hvin & Hvid & _).
    rewrite Forall_forall in Hlt. specialize (Hlt v Hvin). simpl in Hlt. lia. }
  eexists. split; [exact (deleteVisit_found _ _ _ _ Hfv Hfu)|]. simpl.
  split; [|split; [|done]].
  - rewrite Hv. by apply deleteById_snoc_fresh.
  - rewrite Husers, replaceById_twice by done.
    rewrite pull_snoc_fresh by done.
    assert (UserDoc.set_visits (UserDoc.visits trainer) trainer' = trainer) as ->
      by by destruct trainer.
    apply replaceById_self. by rewrite Hid.
Qed.

Lemma scheduleVisit_then_deleteVisit_witness :
  ∃ w2,
    scheduleVisit alwaysDelivered 100 1 "S1" "2024-01-10" "09:00" worldT1
    = (Ok visitS1, worldS1)
    ∧ deleteVisit 2 worldS1 = (Ok visitS1, w2)
    ∧ visits w2 = [] ∧ users w2 = [trainerT1].
Proof.
  destruct (scheduleVisit_then_deleteVisit alwaysDelivered 100 1 "S1"
              "2024-01-10" "09:00" worldT1 visitS1 worldS1)
    as (w2 & Hdel & Hv & Hu & _).
  - constructor; simpl; repeat constructor; by apply not_elem_of_nil.
  - intros u id [->|[]%elem_of_nil]%elem_of_cons []%elem_of_nil.
  - vm_compute. reflexivity.
  - exists w2. split; [reflexivity|]. split; [exact Hdel|]. by split.
Defined.

Lemma elem_of_deleteById {A} (key : A → ObjectId) (id : ObjectId) (l : list A) x :
  NoDup (key <$> l) →
  x ∈ deleteById key id l ↔ x ∈ l ∧ key x ≠ id.
Proof.
  induction l as [|y l IH]; simpl; intros Hnd.
  - rewrite elem_of_nil. tauto.
  - apply NoDup_cons in Hnd as [Hy Hnd]. case_bool_decide as E.
    + rewrite elem_of_cons. split.
      * intros Hin. split; [by right|]. intros Hx. apply Hy.
        rewrite E, <- Hx. by apply list_elem_of_fmap_2.
      * intros [[->|Hin] Hne]; done.
    + rewrite !elem_of_cons, (IH Hnd). split.
      * intros [->|[Hin Hne]]; [by split; [left|] | by split; [right|]].
      * intros [[->|Hin] Hne]; [by left | by right].
Qed.

Lemma length_deleteById {A} (key : A → ObjectId) (id : ObjectId) (l : list A) x :
  x ∈ l → key x = id → S (length (deleteById key id l)) = length l.
Proof.
  induction l as [|y l IH]; simpl; [by intros []%elem_of_nil|].
  intros Hin Hk. case_bool_decide as E; [done|]. simpl. f_equal.
  apply elem_of_cons in Hin as [->|Hin]; [done | by apply IH].
Qed.

Lemma length_replaceById {A} (key : A → ObjectId) (a : A) (l : list A) :
  length (replaceById key a l) = length l.
Proof.
  induction l as [|y l IH]; simpl; [done|]. case_bool_decide; simpl; by f_equal.
Qed.

(** X7. What deleteVisit leaves alone: with identifiers unique in the visits
    collection, a successful deleteVisit removes exactly one visit (the
    collection shrinks by one and keeps every visit with another
    identifier), keeps the number of users, keeps every user other than the
    owning trainer as is, and does not touch schools or students. *)
Theorem deleteVisit_frame visitId w visit w' :
  NoDup (VisitDoc._id <$> visits w) →
  deleteVisit visitId w = (Ok visit, w') →
  S (length (visits w')) = length (visits w)
  ∧ (∀ v, v ∈ visits w' ↔ v ∈ visits w ∧ VisitDoc._id v ≠ visitId)
  ∧ length (users w') = length (users w)
  ∧ (∀ u, u ∈ users w → UserDoc._id u ≠ VisitDoc.trainer visit → u ∈ users w')
  ∧ schools w' = schools w ∧ students w' = students w.
Proof.
  intros Hnd Hrun.
  destruct (deleteVisit_Ok_inv _ _ _ _ Hrun) as (trainer & Hv & Hu).
  rewrite (deleteVisit_found _ _ _ _ Hv Hu) in Hrun. injection Hrun as <-.
  destruct (find_key_Some VisitDoc._id _ _ _ Hv) as [Hid Hin].
  destruct (find_key_Some UserDoc._id _ _ _ Hu) as [Htid _].
  simpl. split; [by eapply length_deleteById|].
  split; [intros v; by apply elem_of_deleteById|].
  split; [apply length_replaceById|].
  split; [|done].
  intros u Hinu Hne. apply elem_of_replaceById; [done|]. simpl. by rewrite Htid.
Qed.

Lemma deleteVisit_frame_witness :
  ∃ w',
    deleteVisit 10 worldABA = (Ok (VisitDoc.mk 10 1 "A" "2024-02-01" "09:00" None
                                     "scheduled" None None None None None None 1), w')
    ∧ length (visits w') = 2
    ∧ VisitDoc._id <$> visits w' = [11; 12].
Proof.
  eexists. split; [vm_compute; reflexivity|].
  split; [|vm_compute; reflexivity].
  assert (NoDup (VisitDoc._id <$> visits worldABA)) as Hnd
    by (apply (bool_decide_unpack _); exact I).
  destruct (deleteVisit_frame 10 worldABA _ _ Hnd eq_refl) as [Hlen _].
  apply eq_add_S. exact Hlen.
Defined.

(** X8. Deleting twice: with identifiers unique in the visits collection,
    repeating a successful deleteVisit fails with NOT_FOUND 'Visit not found'
    and changes nothing. *)
Theorem deleteVisit_twice visitId w visit w1 :
  NoDup (VisitDoc._id <$> visits w) →
  deleteVisit visitId w = (Ok visit, w1) →
  deleteVisit visitId w1
  = (Throw (ApiError httpStatus.NOT_FOUND "Visit not found"), w1).
Proof.
  intros Hnd Hrun.
  destruct (deleteVisit_Ok_inv _ _ _ _ Hrun) as (trainer & Hv & Hu).
  rewrite (deleteVisit_found _ _ _ _ Hv Hu) in Hrun. injection Hrun as <-.
  apply deleteVisit_no_visit. simpl.
  by apply (find_deleteById VisitDoc._id).
Qed.

Lemma deleteVisit_twice_witness :
  ∃ w1,
    deleteVisit 2 worldS1 = (Ok visitS1, w1)
    ∧ deleteVisit 2 w1
      = (Throw (ApiError httpStatus.NOT_FOUND "Visit not found"), w1).
Proof.
  eexists. split; [vm_compute; reflexivity|].
  apply (deleteVisit_twice 2 worldS1 visitS1); [|reflexivity].
  apply (bool_decide_unpack _). exact I.
Defined.

(** ** updateVisitById: repetition, lifecycle, reassignment *)

Lemma find_split {A} (p : A → bool) (l : list A) (x : A) :
  List.find p l = Some x →
  ∃ pre post, l = pre ++ x :: post ∧ Forall (λ y, p y = false) pre ∧ p x = true.
Proof.
  induction l as [|y l IH]; simpl; [done|].
  destruct (p y) eqn:E.
  - intros [= ->]. by exists [], l.
  - intros H. destruct (IH H) as (pre & post & -> & Hpre & Hx).
    exists (y :: pre), post. split; [done|]. split; [|done]. by constructor.
Qed.

Lemma Object_assign_twice v b :
  Object_assign (Object_assign v b) b = Object_assign v b.
Proof.
  unfold Object_assign. simpl.
  f_equal;
    match goal with |- default (default _ ?o) ?o = _ => by destruct o end.
Qed.

Lemma Object_assign_set_status s v b :
  Object_assign (VisitDoc.set_status s v) b
  = VisitDoc.set_status (default s (ub_status b)) (Object_assign v b).
Proof. reflexivity. Qed.

Lemma attendanceComplete_set_status s v :
  attendanceComplete (VisitDoc.set_status s v) = attendanceComplete v.
Proof. reflexivity. Qed.

Lemma set_status_twice s s' v :
  VisitDoc.set_status s (VisitDoc.set_status s' v) = VisitDoc.set_status s v.
Proof. reflexivity. Qed.

Lemma updateVisitById_Ok_inv schoolId trainer updateBody w v' w' :
  updateVisitById schoolId trainer updateBody w = (Ok v', w') →
  ∃ v, List.find (visitOf schoolId trainer) (visits w) = Some v.
Proof.
  destruct (List.find (visitOf schoolId trainer) (visits w)) as [v|] eqn:Hf.
  - by exists v.
  - by rewrite (updateVisitById_missing _ _ _ _ Hf).
Qed.

(** X9. updateVisitById is idempotent for a body that does not move the
    visit: with identifiers unique in the visits collection and a body
    carrying neither schoolId nor trainer, repeating a successful update
    with the same body returns the same visit and leaves the visits
    collection as the first update left it. *)
Theorem updateVisitById_idempotent schoolId trainer updateBody w v1 w1 :
  NoDup (VisitDoc._id <$> visits w) →
  ub_schoolId updateBody = None →
  ub_trainer updateBody = None →
  updateVisitById schoolId trainer updateBody w = (Ok v1, w1) →
  ∃ w2,
    updateVisitById schoolId trainer updateBody w1 = (Ok v1, w2)
    ∧ visits w2 = visits w1.
Proof.
  intros Hnd Hs Ht Hrun.
  destruct (updateVisitById_Ok_inv _ _ _ _ _ _ Hrun) as [v Hf].
  destruct (find_split _ _ _ Hf) as (pre & post & Hsplit & Hpre & Hv).
  rewrite (updateVisitById_found _ _ _ _ _ Hf) in Hrun. simpl in Hrun.
  set (m := Object_assign v updateBody) in *.
  assert (VisitDoc._id m = VisitDoc._id v) as Hid by done.
  assert (visitOf schoolId trainer m = true) as Hm.
  { unfold visitOf, m, Object_assign in *. simpl. by rewrite Hs, Ht. }
  assert (∀ x, VisitDoc._id x = VisitDoc._id v →
               visitOf schoolId trainer x = true →
               (if attendanceComplete (Object_assign x updateBody)
                then VisitDoc.set_status "completed" (Object_assign x updateBody)
                else Object_assign x updateBody) = x →
               ∃ w2, updateVisitById schoolId trainer updateBody
                       (mkWorld (replaceById VisitDoc._id x (visits w)) (users w)
                                (schools w) (students w) (nextId w)
                                (log w1))
                     = (Ok x, w2)
                     ∧ visits w2 = replaceById VisitDoc._id x (visits w)) as Hagain.
  { intros x Hx Hmatch Hfix.
    assert (replaceById VisitDoc._id x (visits w) = pre ++ x :: post) as Hvis.
    { rewrite Hsplit. apply replaceById_middle; [by rewrite <- Hsplit | done]. }
    assert (List.find (visitOf schoolId trainer) (pre ++ x :: post) = Some x)
      as Hfx by by apply find_first.
    rewrite Hvis.
    erewrite updateVisitById_found by exact Hfx. simpl.
    assert (replaceById VisitDoc._id x (pre ++ x :: post) = pre ++ x :: post)
      as Hsame.
    { apply replaceById_middle; [|done].
      rewrite <- Hvis, map_key_replaceById. done. }
    destruct (attendanceComplete (Object_assign x updateBody));
      rewrite Hfix; eexists; (split; [reflexivity|]); simpl; exact Hsame. }
  destruct (attendanceComplete m) eqn:E; injection Hrun as <- <-.
  - apply Hagain; [done..|].
    rewrite Object_assign_set_status, attendanceComplete_set_status.
    unfold m in *. by rewrite Object_assign_twice, E.
  - apply Hagain; [done..|]. unfold m in *. by rewrite Object_assign_twice, E.
Qed.

Lemma updateVisitById_idempotent_witness :
  ∃ v1 w1,
    updateVisitById "S1" 1 (statusBody "cancelled") worldS1 = (Ok v1, w1)
    ∧ ∃ w2, updateVisitById "S1" 1 (statusBody "cancelled") w1 = (Ok v1, w2)
            ∧ visits w2 = visits w1.
Proof.
  eexists _, _. split; [vm_compute; reflexivity|].
  apply (updateVisitById_idempotent "S1" 1 (statusBody "cancelled") worldS1);
    [|reflexivity|reflexivity|vm_compute; reflexivity].
  apply (bool_decide_unpack _). exact I.
Defined.

(** X10. Completion is not taken back: an update of a visit whose status is
    [completed], with a body that carries no status, leaves the stored visit
    [completed] whatever the body does to the attendance fields. *)
Theorem updateVisitById_keeps_completed schoolId trainer updateBody w v :
  List.find (visitOf schoolId trainer) (visits w) = Some v →
  VisitDoc.status v = "completed" →
  ub_status updateBody = None →
  ∃ v' w',
    updateVisitById schoolId trainer updateBody w = (Ok v', w')
    ∧ List.find (visitById (VisitDoc._id v)) (visits w') = Some v'
    ∧ VisitDoc.status v' = "completed".
Proof.
  intros Hf Hst Hbody. rewrite (updateVisitById_found _ _ _ _ _ Hf). simpl.
  assert (is_Some (List.find (visitById (VisitDoc._id v)) (visits w))) as [x Hx].
  { apply List.find_some in Hf as [Hin _].
    apply (find_is_Some _ _ v); [by apply list_elem_of_In|].
    unfold visitById. by apply bool_decide_eq_true_2. }
  destruct (attendanceComplete (Object_assign v updateBody));
    eexists _, _; (split; [reflexivity|]); simpl.
  - split; [|done].
    exact (find_replaceById VisitDoc._id
             (VisitDoc.set_status "completed" (Object_assign v updateBody)) x _ Hx).
  - split; [|by rewrite Hbody].
    exact (find_replaceById VisitDoc._id (Object_assign v updateBody) x _ Hx).
Qed.

Lemma updateVisitById_keeps_completed_witness :
  ∃ v' w',
    updateVisitById "B" 1
      (mkVisitUpdate None None None None None None None None None None
                     (Some None) None)
      worldABA
    = (Ok v', w')
    ∧ VisitDoc.file v' = None
    ∧ VisitDoc.status v' = "completed".
Proof.
  destruct (updateVisitById_keeps_completed "B" 1
              (mkVisitUpdate None None None None None None None None None None
                             (Some None) None)
              worldABA _ eq_refl eq_refl eq_refl) as (v' & w' & Hrun & _ & Hst).
  exists v', w'. split; [exact Hrun|]. split; [|exact Hst].
  vm_compute in Hrun. by injection Hrun as <- _.
Defined.

Lemma NoDup_key_inj {A} (key : A → ObjectId) (l : list A) x y :
  NoDup (key <$> l) → x ∈ l → y ∈ l → key x = key y → x = y.
Proof.
  induction l as [|z l IH]; csimpl; [by intros _ []%elem_of_nil|].
  intros [Hz Hnd]%NoDup_cons [->|Hx]%elem_of_cons [->|Hy]%elem_of_cons Hk;
    [done| | |by apply IH].
  - exfalso. apply Hz. rewrite Hk. by apply list_elem_of_fmap_2.
  - exfalso. apply Hz. rewrite <- Hk. by apply list_elem_of_fmap_2.
Qed.

(** X11. updateVisitById never writes to the users collection, so a body
    that carries another trainer moves the visit without moving the
    back-reference: with identifiers unique in the visits collection, when
    the visit's current trainer lists the visit and the body names a
    different trainer, the stored visit belongs to the new trainer, the
    users are unchanged, and the old trainer's list now holds a dangling
    back-reference. *)
Theorem updateVisitById_reassign_dangles schoolId trainer updateBody w v newTrainer u :
  NoDup (VisitDoc._id <$> visits w) →
  List.find (visitOf schoolId trainer) (visits w) = Some v →
  ub_trainer updateBody = Some newTrainer →
  newTrainer ≠ VisitDoc.trainer v →
  u ∈ users w → UserDoc._id u = VisitDoc.trainer v →
  VisitDoc._id v ∈ UserDoc.visits u →
  ∃ v' w',
    updateVisitById schoolId trainer updateBody w = (Ok v', w')
    ∧ List.find (visitById (VisitDoc._id v)) (visits w') = Some v'
    ∧ VisitDoc.trainer v' = newTrainer
    ∧ users w' = users w
    ∧ ¬ visitsOwned w'.
Proof.
  intros Hnd Hf Hbody Hne Hu Huid Hlisted.
  destruct (find_split _ _ _ Hf) as (pre & post & Hsplit & Hpre & Hv).
  assert (∀ x, VisitDoc._id x = VisitDoc._id v → VisitDoc.trainer x = newTrainer →
               ∀ l, ¬ visitsOwned
                       (mkWorld (replaceById VisitDoc._id x (visits w)) (users w)
                                (schools w) (students w) (nextId w) l)) as Hdangle.
  { intros x Hx Hxt l Hown.
    destruct (Hown u (VisitDoc._id v) Hu Hlisted) as (y & Hy & Hyid & Hyt).
    simpl in Hy.
    assert (y = x) as ->.
    { apply (NoDup_key_inj VisitDoc._id (replaceById VisitDoc._id x (visits w)));
        [by rewrite map_key_replaceById | done | | congruence].
      rewrite Hsplit, replaceById_middle; [|by rewrite <- Hsplit | done].
      apply elem_of_app. right. by left. }
    congruence. }
  assert (is_Some (List.find (visitById (VisitDoc._id v)) (visits w))) as [x Hx].
  { apply List.find_some in Hf as [Hin _].
    apply (find_is_Some _ _ v); [by apply list_elem_of_In|].
    unfold visitById. by apply bool_decide_eq_true_2. }
  rewrite (updateVisitById_found _ _ _ _ _ Hf). simpl.
  assert (VisitDoc.trainer (Object_assign v updateBody) = newTrainer) as Hnew.
  { unfold Object_assign. simpl. by rewrite Hbody. }
  destruct (attendanceComplete (Object_assign v updateBody));
    eexists _, _; (split; [reflexivity|]); simpl.
  - split.
    { exact (find_replaceById VisitDoc._id
               (VisitDoc.set_status "completed" (Object_assign v updateBody))
               x _ Hx). }
    split; [done|]. split; [done|]. by apply Hdangle.
  - split.
    { exact (find_replaceById VisitDoc._id (Object_assign v updateBody) x _ Hx). }
    split; [done|]. split; [done|]. by apply Hdangle.
Qed.

Lemma updateVisitById_reassign_dangles_witness :
  ∃ v' w',
    updateVisitById "S1" 1
      (mkVisitUpdate (Some 9) None None None None None None None None None None None)
      worldS1
    = (Ok v', w')
    ∧ VisitDoc.trainer v' = 9
    ∧ users w' = users worldS1
    ∧ ¬ visitsOwned w'.
Proof.
  assert (NoDup (VisitDoc._id <$> visits worldS1)) as Hnd
    by (apply (bool_decide_unpack _); exact I).
  destruct (updateVisitById_reassign_dangles "S1" 1
              (mkVisitUpdate (Some 9) None None None None None None None None None
                             None None)
              worldS1 visitS1 9 (UserDoc.set_visits [2] trainerT1) Hnd eq_refl eq_refl)
    as (v' & w' & Hrun & _ & Ht & Hu & Hdangle).
  - discriminate.
  - by left.
  - reflexivity.
  - by left.
  - by exists v', w'.
Defined.

(** ** Invariants the visit services keep *)

Lemma elem_of_replaceById_NoDup {A} (key : A → ObjectId) (a x : A) (l : list A) :
  NoDup (key <$> l) →
  x ∈ replaceById key a l → x = a ∨ (x ∈ l ∧ key x ≠ key a).
Proof.
  induction l as [|y l IH]; simpl; [by intros _ []%elem_of_nil|].
  intros [Hy Hnd]%NoDup_cons. case_bool_decide as E.
  - intros [->|Hin]%elem_of_cons; [by left|]. right. split; [by right|].
    intros Hk. apply Hy. rewrite E, <- Hk. by apply list_elem_of_fmap_2.
  - intros [->|Hin]%elem_of_cons; [right; split; [by left | done]|].
    destruct (IH Hnd Hin) as [->|[Hin' Hne]]; [by left|].
    right. split; [by right | done].
Qed.

Lemma scheduleVisit_owned send now trainerId schoolId visitDate time w r w' :
  visitsOwned w →
  scheduleVisit send now trainerId schoolId visitDate time w = (r, w') →
  visitsOwned w'.
Proof.
  intros Hown. rewrite scheduleVisit_cases.
  destruct (List.find _ (visits w)); [by intros [= <- <-]|].
  assert (∀ l n, visitsOwned
            (mkWorld (visits w ++ [newVisit now trainerId schoolId visitDate time w])
                     (users w) (schools w) (students w) n l)) as Hgrown.
  { intros l n u id Hu Hid. destruct (Hown u id Hu Hid) as (v & Hv & Hrest).
    exists v. split; [|done]. simpl. apply elem_of_app. by left. }
  destruct (List.find _ (users w)) as [trainer|] eqn:Hfind; simpl;
    [|intros [= <- <-]; apply Hgrown].
  destruct (find_key_Some UserDoc._id _ _ _ Hfind) as [Htid Htin].
  assert (∀ l n, visitsOwned
            (mkWorld (visits w ++ [newVisit now trainerId schoolId visitDate time w])
               (replaceById UserDoc._id
                  (UserDoc.set_visits (UserDoc.visits trainer ++ [nextId w]) trainer)
                  (users w))
               (schools w) (students w) n l)) as Hsaved.
  { intros l n u id Hu Hid. simpl in Hu.
    apply elem_of_replaceById_inv in Hu as [->|Hu].
    - simpl in Hid. apply elem_of_app in Hid as [Hid|Hid].
      + destruct (Hown trainer id Htin Hid) as (v & Hv & Hrest).
        exists v. split; [|done]. simpl. apply elem_of_app. by left.
      + apply list_elem_of_singleton in Hid. subst id.
        exists (newVisit now trainerId schoolId visitDate time w).
        split; [simpl; apply elem_of_app; right; by left|]. by split.
    - destruct (Hown u id Hu Hid) as (v & Hv & Hrest).
      exists v. split; [|done]. simpl. apply elem_of_app. by left. }
  destruct (truthy _); [destruct (send _ _ _)|]; intros [= <- <-];
    (apply Hsaved || apply Hgrown).
Qed.

Lemma deleteVisit_owned visitId w r w' :
  wf w → visitsOwned w → deleteVisit visitId w = (r, w') → visitsOwned w'.
Proof.
  intros [Hnv Hnu _ _] Hown.
  destruct (List.find (visitById visitId) (visits w)) as [visit|] eqn:Hv.
  2:{ rewrite (deleteVisit_no_visit _ _ Hv). by intros [= <- <-]. }
  destruct (List.find (userById (VisitDoc.trainer visit)) (users w))
    as [trainer|] eqn:Hu.
  2:{ rewrite (deleteVisit_no_trainer _ _ _ Hv Hu). by intros [= <- <-]. }
  rewrite (deleteVisit_found _ _ _ _ Hv Hu). intros [= <- <-].
  destruct (find_key_Some VisitDoc._id _ _ _ Hv) as [Hvid Hvin].
  destruct (find_key_Some UserDoc._id _ _ _ Hu) as [Htid Htin].
  intros u id Hin Hid. simpl in Hin.
  apply elem_of_replaceById_NoDup in Hin as [->|[Hin Hne]]; [| |done].
  - simpl in Hid. apply elem_of_pull in Hid as [Hid Hne].
    destruct (Hown trainer id Htin Hid) as (v & Hvin' & Hvid' & Hvt).
    exists v. split; [|done]. simpl.
    apply elem_of_deleteById; [done|]. split; [done | congruence].
  - destruct (Hown u id Hin Hid) as (v & Hvin' & Hvid' & Hvt).
    exists v. split; [|done]. simpl.
    apply elem_of_deleteById; [done|]. split; [done|].
    intros Hsame. apply Hne. simpl.
    assert (v = visit) as -> by (apply (NoDup_key_inj VisitDoc._id (visits w));
                                  [done..|congruence]).
    congruence.
Qed.

Lemma updateVisitById_owned schoolId trainer updateBody w r w' :
  NoDup (VisitDoc._id <$> visits w) →
  ub_trainer updateBody = None →
  visitsOwned w →
  updateVisitById schoolId trainer updateBody w = (r, w') →
  visitsOwned w'.
Proof.
  intros Hnd Hbody Hown.
  destruct (List.find (visitOf schoolId trainer) (visits w)) as [v|] eqn:Hf.
  2:{ rewrite (updateVisitById_missing _ _ _ _ Hf). by intros [= <- <-]. }
  destruct (find_split _ _ _ Hf) as (pre & post & Hsplit & _ & _).
  assert (v ∈ visits w) as Hvin.
  { rewrite Hsplit. apply elem_of_app. right. by left. }
  assert (∀ x l, VisitDoc._id x = VisitDoc._id v →
                 VisitDoc.trainer x = VisitDoc.trainer v →
                 visitsOwned (mkWorld (replaceById VisitDoc._id x (visits w))
                                (users w) (schools w) (students w) (nextId w) l))
    as Hkept.
  { intros x l Hxid Hxt u id Hu Hid.
    destruct (Hown u id Hu Hid) as (y & Hy & Hyid & Hyt). simpl.
    destruct (decide (VisitDoc._id y = VisitDoc._id v)) as [Hsame|Hother].
    - assert (y = v) as -> by by apply (NoDup_key_inj VisitDoc._id (visits w)).
      exists x. split; [|split; congruence].
      rewrite Hsplit, replaceById_middle; [|by rewrite <- Hsplit | done].
      apply elem_of_app. right. by left.
    - exists y. split; [|done]. apply elem_of_replaceById; [done | congruence]. }
  rewrite (updateVisitById_found _ _ _ _ _ Hf). simpl.
  assert (VisitDoc.trainer (Object_assign v updateBody) = VisitDoc.trainer v)
    as Htr.
  { unfold Object_assign. simpl. by rewrite Hbody. }
  destruct (attendanceComplete _); intros [= <- <-]; by apply Hkept.
Qed.

(** ** bulkUpload on any batch *)

Lemma classifying_start w rows :
  classifying w rows [] [] (mkUpload (AwaitFindOne <$> rows) [] [] 0) w.
Proof.
  destruct (omap_awaiting_start rows) as (H1 & H2 & H3).
  constructor; simpl; rewrite ?H1, ?H2, ?H3, ?app_nil_r; done.
Qed.

Ltac task_replaced Hi :=
  match goal with
  | |- context [<[?i := ?t']> (tasks ?st)] =>
      pose proof (omap_insert_perm awaitingFindOne _ i _ t' Hi) as HF;
      pose proof (omap_insert_perm awaitingSave _ i _ t' Hi) as HS;
      pose proof (omap_insert_perm awaitingCreate _ i _ t' Hi) as HC;
      simpl in HF, HS, HC
  end.

Lemma resume_classifying random w0 rows i addedS addedU st w st' w' :
  classifying w0 rows addedS addedU st w →
  resume random i st w = (Ok st', w') →
  ∃ addedS' addedU', classifying w0 rows addedS' addedU' st' w'.
Proof.
  intros []. unfold resume.
  destruct (tasks st !! i) as [[school|school schoolId record|school schoolId|]|]
    eqn:Hi.
  - unfold School.findOne, School.new. run_monad.
    destruct (List.find _ (schools w)) as [d|]; simpl; intros [= <- <-];
      exists addedS, addedU; task_replaced Hi; constructor; simpl; try done.
    + rewrite <- cl_rows0, <- HS, HF. solve_Permutation.
    + by rewrite <- HC.
    + rewrite <- cl_rows0, <- HS, HF. csimpl. solve_Permutation.
    + by rewrite <- HC.
  - unfold School.insert. run_monad. intros [= <- <-].
    exists (addedS ++ [record]), addedU. task_replaced Hi.
    constructor; simpl; try done.
    + by rewrite cl_schools0, <- app_assoc.
    + rewrite <- cl_rows0, <- HF, HS. csimpl. solve_Permutation.
    + rewrite !length_app. simpl. lia.
    + rewrite <- HC, length_app. simpl. lia.
  - unfold User.create. run_monad. intros [= <- <-].
    eexists addedS, (addedU ++ [_]). task_replaced Hi.
    constructor; simpl; try done.
    + by rewrite cl_users0, <- app_assoc.
    + apply Forall_app. split; [done|]. by apply Forall_singleton.
    + by rewrite <- HF, <- HS.
    + apply Permutation_length in HC. simpl in HC. rewrite length_app. simpl. lia.
  - intros [= <- <-]. by exists addedS, addedU.
  - intros [= <- <-]. by exists addedS, addedU.
Qed.

Lemma run_classifying random w0 rows schedule addedS addedU st w st' w' :
  classifying w0 rows addedS addedU st w →
  run random schedule st w = (Ok st', w') →
  ∃ addedS' addedU', classifying w0 rows addedS' addedU' st' w'.
Proof.
  revert addedS addedU st w.
  induction schedule as [|i schedule IH]; intros addedS addedU st w Hcl; simpl.
  - intros [= <- <-]. by eexists _, _.
  - destruct (resume_steps random i st w) as (st1 & w1 & Hres & _).
    rewrite (bind_ok _ _ _ _ _ Hres). intros Hrun.
    destruct (resume_classifying _ _ _ _ _ _ _ _ _ _ Hcl Hres)
      as (addedS1 & addedU1 & Hcl1).
    by eapply IH.
Qed.

(** bulkUpload only ever appends schools and accounts, whatever its input. *)
Lemma bulkUpload_grows random schedule schoolArray csvFilePath w r w' :
  bulkUpload random schedule schoolArray csvFilePath w = (r, w') →
  ∃ addedS addedU,
    schools w' = schools w ++ addedS ∧ users w' = users w ++ addedU
    ∧ Forall (λ u, UserDoc.visits u = []) addedU
    ∧ visits w' = visits w ∧ students w' = students w.
Proof.
  unfold bulkUpload.
  destruct (modifiedSchoolsArray _ _) as [[[[|row rows]|]]|];
    try (intros [= <- <-]; exists [], []; by rewrite !app_nil_r).
  destruct (run_steps random (schedule ++ drain (length (row :: rows)))
              (mkUpload (AwaitFindOne <$> row :: rows) [] [] 0) w)
    as (st1 & w1 & Hrun & _).
  destruct (run_classifying _ _ _ _ _ _ _ _ _ _
              (classifying_start w (row :: rows)) Hrun)
    as (addedS & addedU & []).
  unfold mbind, M_bind. simpl in Hrun |- *. rewrite Hrun. intros [= <- <-].
  exists addedS, addedU. repeat split; try done.
  eapply Forall_impl; [exact cl_accounts0|]. by intros u [? _].
Qed.

(** X12. bulkUpload classifies every row exactly once, for any batch (rows
    sharing a udisecode included) and any order in which the tasks are
    resumed: the reported duplicates and non-duplicates together are the
    rows of the batch, as many schools and as many accounts (role [school],
    password [admin@123], no visits) are appended to the store as
    non-duplicates are reported, the documents already in the store stay in
    place, and visits and students are not touched. *)
Theorem bulkUpload_classifies_every_row random schedule schoolArray csvFilePath
    batch rows w :
  modifiedSchoolsArray schoolArray csvFilePath = Some batch →
  sa_schools batch = Some rows →
  rows ≠ [] →
  ∃ dupRows newRows addedS addedU w',
    bulkUpload random schedule schoolArray csvFilePath w
    = (Ok (Summary (mkTally (length newRows) newRows)
                   (mkTally (length dupRows) dupRows)), w')
    ∧ dupRows ++ newRows ≡ₚ rows
    ∧ schools w' = schools w ++ addedS ∧ length addedS = length newRows
    ∧ users w' = users w ++ addedU ∧ length addedU = length newRows
    ∧ Forall (λ u, UserDoc.visits u = [] ∧ UserDoc.role u = "school"
                   ∧ UserDoc.password u = Some "admin@123") addedU
    ∧ visits w' = visits w ∧ students w' = students w.
Proof.
  intros Hbatch Hrows Hne.
  destruct (run_settles random schedule rows w) as (st' & w' & Hrun & Hsettled).
  destruct (run_classifying _ _ _ _ _ _ _ _ _ _ (classifying_start w rows) Hrun)
    as (addedS & addedU & []).
  rewrite (settled_nothing_awaited awaitingFindOne st' eq_refl Hsettled),
    (settled_nothing_awaited awaitingSave st' eq_refl Hsettled) in cl_rows0.
  rewrite (settled_nothing_awaited awaitingCreate st' eq_refl Hsettled) in cl_created0.
  simpl in cl_rows0, cl_created0. rewrite !app_nil_r in cl_rows0.
  exists (dups st'), (records st'), addedS, addedU, w'.
  split.
  { unfold bulkUpload. rewrite Hbatch, Hrows.
    destruct rows as [|row rows']; [done|].
    rewrite (bind_ok _ _ _ _ _ Hrun). unfold mret, M_ret.
    by rewrite !tally_all. }
  repeat split; try done. lia.
Qed.

Lemma bulkUpload_classifies_every_row_witness :
  ∃ dupRows newRows addedS addedU w',
    bulkUpload constantDraw [0; 1; 0; 1; 0; 1] None (Some [rowU2; rowU2]) worldU1
    = (Ok (Summary (mkTally (length newRows) newRows)
                   (mkTally (length dupRows) dupRows)), w')
    ∧ dupRows ++ newRows ≡ₚ [rowU2; rowU2]
    ∧ schools w' = schools worldU1 ++ addedS ∧ length addedS = length newRows
    ∧ users w' = users worldU1 ++ addedU ∧ length addedU = length newRows.
Proof.
  destruct (bulkUpload_classifies_every_row constantDraw [0; 1; 0; 1; 0; 1] None
              (Some [rowU2; rowU2]) (mkSchoolArray (Some [rowU2; rowU2]))
              [rowU2; rowU2] worldU1 eq_refl eq_refl)
    as (dupRows & newRows & addedS & addedU & w' & Hrun & Hperm & Hs & HlenS
        & Hu & HlenU & _).
  - discriminate.
  - exists dupRows, newRows, addedS, addedU, w'. repeat split; assumption.
Defined.

Lemma bulkUpload_owned random schedule schoolArray csvFilePath w r w' :
  visitsOwned w →
  bulkUpload random schedule schoolArray csvFilePath w = (r, w') →
  visitsOwned w'.
Proof.
  intros Hown Hrun.
  destruct (bulkUpload_grows _ _ _ _ _ _ _ Hrun)
    as (addedS & addedU & _ & Hu & Hnew & Hv & _).
  intros u id Hin Hid. rewrite Hu in Hin. rewrite Hv.
  apply elem_of_app in Hin as [Hin|Hin]; [by apply Hown|].
  rewrite Forall_forall in Hnew. rewrite (Hnew u Hin) in Hid.
  by apply elem_of_nil in Hid.
Qed.

(** X13. Identifiers stay unique: from a store in which the visit and user
    identifiers are pairwise distinct and below the allocator's next
    identifier, every outcome of scheduleVisit, updateVisitById, deleteVisit
    and bulkUpload, thrown or returned, is such a store again. *)
Theorem services_keep_wf w :
  wf w →
  (∀ send now trainerId schoolId visitDate time r w',
     scheduleVisit send now trainerId schoolId visitDate time w = (r, w') → wf w')
  ∧ (∀ schoolId trainer updateBody r w',
       updateVisitById schoolId trainer updateBody w = (r, w') → wf w')
  ∧ (∀ visitId r w', deleteVisit visitId w = (r, w') → wf w')
  ∧ (∀ random schedule schoolArray csvFilePath r w',
       bulkUpload random schedule schoolArray csvFilePath w = (r, w') → wf w').
Proof.
  intros Hwf. split; [|split; [|split]]; intros.
  - by eapply scheduleVisit_wf.
  - by eapply updateVisitById_wf.
  - by eapply deleteVisit_wf.
  - by eapply bulkUpload_wf.
Qed.

Lemma wf_worldS1 : wf worldS1.
Proof.
  constructor; simpl; repeat constructor; (by apply not_elem_of_nil) || lia.
Qed.

Lemma services_keep_wf_witness :
  ∃ w', deleteVisit 2 worldS1 = (Ok visitS1, w') ∧ wf w'.
Proof.
  eexists. split; [vm_compute; reflexivity|].
  exact (proj1 (proj2 (proj2 (services_keep_wf worldS1 wf_worldS1))) 2 _ _ eq_refl).
Defined.

Lemma visitsOwned_worldS1 : visitsOwned worldS1.
Proof.
  intros u id [->|[]%elem_of_nil]%elem_of_cons Hid. simpl in Hid.
  apply list_elem_of_singleton in Hid. subst id.
  exists visitS1. split; [by left | done].
Qed.

(** X14. No dangling back-reference is created: from a store with unique
    identifiers in which every visit id a user lists belongs to a stored
    visit of that user, every outcome of scheduleVisit, of deleteVisit, of
    bulkUpload, and of updateVisitById with a body that carries no trainer,
    is such a store again. *)
Theorem services_keep_visitsOwned w :
  wf w → visitsOwned w →
  (∀ send now trainerId schoolId visitDate time r w',
     scheduleVisit send now trainerId schoolId visitDate time w = (r, w') →
     visitsOwned w')
  ∧ (∀ schoolId trainer updateBody r w',
       ub_trainer updateBody = None →
       updateVisitById schoolId trainer updateBody w = (r, w') → visitsOwned w')
  ∧ (∀ visitId r w', deleteVisit visitId w = (r, w') → visitsOwned w')
  ∧ (∀ random schedule schoolArray csvFilePath r w',
       bulkUpload random schedule schoolArray csvFilePath w = (r, w') →
       visitsOwned w').
Proof.
  intros Hwf Hown. split; [|split; [|split]]; intros.
  - by eapply scheduleVisit_owned.
  - eapply updateVisitById_owned; [|done..]. by destruct Hwf.
  - by eapply deleteVisit_owned.
  - by eapply bulkUpload_owned.
Qed.

Lemma services_keep_visitsOwned_witness :
  ∃ w', deleteVisit 2 worldS1 = (Ok visitS1, w') ∧ visitsOwned w'.
Proof.
  eexists. split; [vm_compute; reflexivity|].
  exact (proj1 (proj2 (proj2 (services_keep_visitsOwned worldS1 wf_worldS1
                                visitsOwned_worldS1))) 2 _ _ eq_refl).
Defined.

(** ** bulkUpload: what is in storage afterwards *)

Lemma tracked_start rows w :
  tracked rows (mkUpload (AwaitFindOne <$> rows) [] [] 0) w.
Proof. intros i row Hi. simpl. by rewrite list_lookup_fmap, Hi. Qed.

Lemma tracked_step rows st w i t t' d r n w' :
  tracked rows st w →
  tasks st !! i = Some t →
  (∀ row, preexisting w row → preexisting w' row) →
  (∀ row, rows !! i = Some row →
     match t with
     | AwaitFindOne school => school = row
     | AwaitSave school _ record =>
         school = row ∧ SchoolDoc.udisecode record = SchoolInput.udisecode row
     | _ => preexisting w row
     end →
     match t' with
     | AwaitFindOne school => school = row
     | AwaitSave school _ record =>
         school = row ∧ SchoolDoc.udisecode record = SchoolInput.udisecode row
     | _ => preexisting w' row
     end) →
  tracked rows (mkUpload (<[i := t']> (tasks st)) d r n) w'.
Proof.
  intros Htr Hi Hmono Hstep j row Hj. specialize (Htr j row Hj). simpl.
  destruct (decide (i = j)) as [<-|Hne].
  - rewrite list_lookup_insert_eq by by eapply lookup_lt_Some.
    rewrite Hi in Htr. by apply Hstep.
  - rewrite list_lookup_insert_ne by done.
    destruct (tasks st !! j) as [[]|]; auto.
Qed.

Lemma resume_tracked random rows i st w st' w' :
  tracked rows st w →
  resume random i st w = (Ok st', w') →
  tracked rows st' w'.
Proof.
  intros Htr. unfold resume.
  destruct (tasks st !! i) as [[school|school schoolId record|school schoolId|]|]
    eqn:Hi.
  - unfold School.findOne, School.new. run_monad.
    destruct (List.find _ (schools w)) as [d|] eqn:Hfind; simpl;
      intros [= <- <-].
    + eapply tracked_step; [done | done | done |].
      intros row _ <-. apply List.find_some in Hfind as [Hin Hcode].
      apply bool_decide_eq_true in Hcode. unfold preexisting. rewrite <- Hcode.
      apply list_elem_of_fmap_2. by apply list_elem_of_In.
    + eapply tracked_step; [done | done | done |].
      by intros row _ <-.
  - unfold School.insert. run_monad. intros [= <- <-].
    eapply tracked_step; [done | done | |].
    + intros row Hpre. unfold preexisting in *. simpl. rewrite fmap_app.
      apply elem_of_app. by left.
    + intros row _ [<- Hcode]. unfold preexisting. simpl. rewrite fmap_app.
      apply elem_of_app. right. rewrite <- Hcode. by left.
  - unfold User.create. run_monad. intros [= <- <-].
    eapply tracked_step; [done | done | done |]. by intros row _ Hpre.
  - by intros [= <- <-].
  - by intros [= <- <-].
Qed.

Lemma run_tracked random rows schedule st w st' w' :
  tracked rows st w →
  run random schedule st w = (Ok st', w') →
  tracked rows st' w'.
Proof.
  revert st w. induction schedule as [|i schedule IH]; intros st w Htr; simpl.
  - by intros [= <- <-].
  - destruct (resume_steps random i st w) as (st1 & w1 & Hres & _).
    rewrite (bind_ok _ _ _ _ _ Hres). apply IH. by eapply resume_tracked.
Qed.

Lemma bulkUpload_Some_inv random schedule schoolArray csvFilePath batch row rows
    w r w' :
  modifiedSchoolsArray schoolArray csvFilePath = Some batch →
  sa_schools batch = Some (row :: rows) →
  bulkUpload random schedule schoolArray csvFilePath w = (r, w') →
  ∃ st',
    run random (schedule ++ drain (length (row :: rows)))
        (mkUpload (AwaitFindOne <$> row :: rows) [] [] 0) w = (Ok st', w')
    ∧ (∀ j, stepsLeftAt j st' = 0)
    ∧ r = Ok (Summary (mkTally (length (records st')) (records st'))
                      (mkTally (length (dups st')) (dups st'))).
Proof.
  intros Hbatch Hrows. unfold bulkUpload. rewrite Hbatch, Hrows.
  destruct (run_settles random schedule (row :: rows) w)
    as (st' & w1 & Hrun & Hsettled).
  rewrite (bind_ok _ _ _ _ _ Hrun). unfold mret, M_ret. rewrite !tally_all.
  intros [= <- <-]. by exists st'.
Qed.

(** X15. After bulkUpload every row of the batch has its udisecode in
    storage, for any non-empty batch and any order in which the tasks are
    resumed: a row reported as duplicate was found there, a row reported as
    new was saved. *)
Theorem bulkUpload_stores_every_udisecode random schedule schoolArray csvFilePath
    batch rows w r w' :
  modifiedSchoolsArray schoolArray csvFilePath = Some batch →
  sa_schools batch = Some rows →
  rows ≠ [] →
  bulkUpload random schedule schoolArray csvFilePath w = (r, w') →
  ∀ row, row ∈ rows → preexisting w' row.
Proof.
  intros Hbatch Hrows Hne Hrun row Hin.
  destruct rows as [|row0 rows]; [done|].
  destruct (bulkUpload_Some_inv _ _ _ _ _ _ _ _ _ _ Hbatch Hrows Hrun)
    as (st' & Hrun' & Hsettled & _).
  pose proof (run_tracked _ _ _ _ _ _ _ (tracked_start (row0 :: rows) w) Hrun')
    as Htr.
  apply list_elem_of_lookup in Hin as [i Hi].
  specialize (Htr i row Hi). specialize (Hsettled i).
  unfold stepsLeftAt in Hsettled.
  destruct (tasks st' !! i) as [[]|]; simpl in Hsettled; done.
Qed.

Lemma bulkUpload_stores_every_udisecode_witness :
  let '(_, w') :=
    bulkUpload constantDraw [1; 0] None (Some [rowU1; rowU2]) worldU1 in
  preexisting w' rowU1 ∧ preexisting w' rowU2.
Proof.
  destruct (bulkUpload constantDraw [1; 0] None (Some [rowU1; rowU2]) worldU1)
    as [r w'] eqn:E.
  assert ([rowU1; rowU2] ≠ []) as Hne by discriminate.
  pose proof (bulkUpload_stores_every_udisecode constantDraw [1; 0] None
                (Some [rowU1; rowU2]) (mkSchoolArray (Some [rowU1; rowU2]))
                [rowU1; rowU2] worldU1 r w' eq_refl eq_refl Hne E) as H.
  split; apply H; [by left | right; by left].
Defined.

Lemma resume_rechecking random w0 rows i st w st' w' :
  rechecking w0 rows st w →
  resume random i st w = (Ok st', w') →
  rechecking w0 rows st' w'.
Proof.
  intros (-> & Hrec & Hall & Hperm). unfold resume.
  destruct (tasks st !! i) as [t|] eqn:Hi; [|by intros [= <- <-]].
  pose proof (proj1 (Forall_lookup _ _) Hall i t Hi) as [->|(school & -> & Hpre)];
    [by intros [= <- <-]|].
  unfold School.findOne, School.new. run_monad.
  destruct (List.find _ (schools w0)) as [d|] eqn:Hfind; simpl.
  - intros [= <- <-]. split; [done|]. split; [done|]. simpl. split.
    + apply Forall_insert; [done | by left].
    + rewrite <- Hperm,
        (omap_insert_lose awaitingFindOne _ i _ Settled school Hi eq_refl eq_refl).
      solve_Permutation.
  - exfalso. unfold preexisting in Hpre.
    apply list_elem_of_fmap in Hpre as (d & Hcode & Hd).
    apply list_elem_of_In in Hd.
    pose proof (List.find_none _ _ Hfind d Hd) as Hno. simpl in Hno.
    by rewrite bool_decide_eq_true_2 in Hno.
Qed.

Lemma run_rechecking random w0 rows schedule st w st' w' :
  rechecking w0 rows st w →
  run random schedule st w = (Ok st', w') →
  rechecking w0 rows st' w'.
Proof.
  revert st w. induction schedule as [|i schedule IH]; intros st w Hre; simpl.
  - by intros [= <- <-].
  - destruct (resume_steps random i st w) as (st1 & w1 & Hres & _).
    rewrite (bind_ok _ _ _ _ _ Hres). apply IH. by eapply resume_rechecking.
Qed.

(** X16. Uploading the same batch again adds nothing: after bulkUpload ran
    on a non-empty batch, a second bulkUpload of that batch (under any
    schedule and any random draws) reports every row as duplicate and none
    as new, and leaves the store exactly as the first upload left it. *)
Theorem bulkUpload_again random random' schedule schedule' schoolArray csvFilePath
    batch rows w r w1 :
  modifiedSchoolsArray schoolArray csvFilePath = Some batch →
  sa_schools batch = Some rows →
  rows ≠ [] →
  bulkUpload random schedule schoolArray csvFilePath w = (r, w1) →
  ∃ dupRows,
    bulkUpload random' schedule' schoolArray csvFilePath w1
    = (Ok (Summary (mkTally 0 []) (mkTally (length rows) dupRows)), w1)
    ∧ dupRows ≡ₚ rows.
Proof.
  intros Hbatch Hrows Hne Hrun.
  destruct rows as [|row0 rows]; [done|].
  destruct (bulkUpload_Some_inv _ _ _ _ _ _ _ _ _ _ Hbatch Hrows Hrun)
    as (st1 & Hrun1 & Hsettled1 & _).
  pose proof (run_tracked _ _ _ _ _ _ _ (tracked_start (row0 :: rows) w) Hrun1)
    as Htr.
  assert (∀ row, row ∈ row0 :: rows → preexisting w1 row) as Hstored.
  { intros row [i Hi]%list_elem_of_lookup.
    specialize (Htr i row Hi). specialize (Hsettled1 i).
    unfold stepsLeftAt in Hsettled1.
    destruct (tasks st1 !! i) as [[]|]; simpl in Hsettled1; done. }
  destruct (bulkUpload random' schedule' schoolArray csvFilePath w1)
    as [r2 w2] eqn:Hrun2.
  destruct (bulkUpload_Some_inv _ _ _ _ _ _ _ _ _ _ Hbatch Hrows Hrun2)
    as (st2 & Hrun2' & Hsettled2 & ->).
  assert (rechecking w1 (row0 :: rows)
            (mkUpload (AwaitFindOne <$> row0 :: rows) [] [] 0) w1) as Hstart.
  { destruct (omap_awaiting_start (row0 :: rows)) as (H1 & _).
    split; [done|]. split; [done|]. cbn [tasks dups]. split.
    - apply Forall_fmap, Forall_forall. intros row Hin. right.
      exists row. split; [done | by apply Hstored].
    - by rewrite H1. }
  destruct (run_rechecking _ _ _ _ _ _ _ _ Hstart Hrun2')
    as (-> & Hrec & _ & Hperm).
  rewrite (settled_nothing_awaited awaitingFindOne st2 eq_refl Hsettled2),
    app_nil_r in Hperm.
  exists (dups st2). split; [|done].
  by rewrite Hrec, (Permutation_length Hperm).
Qed.

Lemma bulkUpload_again_witness :
  let '(_, w1) :=
    bulkUpload constantDraw [1; 0] None (Some [rowU1; rowU2]) worldU1 in
  ∃ dupRows,
    bulkUpload constantDraw [0; 1] None (Some [rowU1; rowU2]) w1
    = (Ok (Summary (mkTally 0 []) (mkTally 2 dupRows)), w1)
    ∧ dupRows ≡ₚ [rowU1; rowU2].
Proof.
  destruct (bulkUpload constantDraw [1; 0] None (Some [rowU1; rowU2]) worldU1)
    as [r w1] eqn:E.
  assert ([rowU1; rowU2] ≠ []) as Hne by discriminate.
  exact (bulkUpload_again constantDraw constantDraw [1; 0] [0; 1] None
           (Some [rowU1; rowU2]) (mkSchoolArray (Some [rowU1; rowU2]))
           [rowU1; rowU2] worldU1 r w1 eq_refl eq_refl Hne E).
Defined.

(** ** generateSchoolId *)

Lemma pretty_N_go_digit (lo hi n : N) s :
  (0 < lo)%N → (lo * 10 ≤ n ≤ hi * 10 + 9)%N →
  pretty_N_go n s
  = pretty_N_go (n `div` 10)%N (String (pretty_N_char (n `mod` 10)%N) s)
  ∧ (lo ≤ n `div` 10 ≤ hi)%N.
Proof.
  intros Hlo Hn. split; [apply pretty_N_go_step; lia|].
  split.
  - apply N.div_le_lower_bound; lia.
  - apply N.lt_succ_r, N.Div0.div_lt_upper_bound. lia.
Qed.

Ltac next_digit lo hi :=
  match goal with
  | |- context [pretty_N_go ?m ?s] =>
      let H := fresh "Hdigit" in
      destruct (pretty_N_go_digit lo hi m s) as [-> H]; [lia | lia |]
  end.

Lemma pretty_six_digits (n : N) :
  (100000 ≤ n ≤ 999999)%N → String.length (pretty n) = 6.
Proof.
  intros Hn. unfold pretty, pretty_N.
  destruct (decide (n = 0%N)) as [->|_]; [lia|].
  next_digit 10000%N 99999%N. next_digit 1000%N 9999%N.
  next_digit 100%N 999%N. next_digit 10%N 99%N. next_digit 1%N 9%N.
  match goal with
  | |- context [pretty_N_go ?m ?s] =>
      rewrite (pretty_N_go_step m s) by lia;
      rewrite (N.div_small m 10) by lia
  end.
  by rewrite pretty_N_go_0.
Qed.

Lemma length_append (s1 s2 : string) :
  String.length (s1 +:+ s2) = String.length s1 + String.length s2.
Proof. induction s1 as [|c s1 IH]; simpl; [done | by rewrite IH]. Qed.

(** X17. A generated school id is [SCH] followed by the six digits of a
    number between 100000 and 999999, nine characters in all, and two
    generated ids are equal exactly when the two draws are: nothing in the
    generator keeps ids apart. *)
Theorem generateSchoolId_format (draw : N) :
  (∃ n : N, (100000 ≤ n ≤ 999999)%N
            ∧ generateSchoolId draw = "SCH" +:+ pretty n
            ∧ String.length (pretty n) = 6)
  ∧ String.length (generateSchoolId draw) = 9
  ∧ ∀ draw' : N,
      generateSchoolId draw = generateSchoolId draw'
      ↔ (draw `mod` 900000 = draw' `mod` 900000)%N.
Proof.
  assert (∀ d : N, 100000 ≤ d `mod` 900000 + 100000 ≤ 999999)%N as Hrange.
  { intros d.
    assert (d `mod` 900000 < 900000)%N as Hd by (apply N.mod_upper_bound; lia).
    revert Hd. generalize (d `mod` 900000)%N. intros m Hm. lia. }
  split; [|split].
  - exists (draw `mod` 900000 + 100000)%N.
    split; [apply Hrange|]. split; [done|]. apply pretty_six_digits, Hrange.
  - unfold generateSchoolId. rewrite length_append, pretty_six_digits; [done|].
    apply Hrange.
  - intros draw'. unfold generateSchoolId. simpl. split.
    + intros [= H]. apply pretty_N_inj in H. by apply N.add_cancel_r in H.
    + by intros ->.
Qed.

(** ** getTrainerVisits when every visited school is on record *)

Lemma unwind_lookup_single schools (docs : list VisitDoc.t) :
  Forall (λ v, ∃ s, List.filter
                      (λ s, bool_decide (SchoolDoc.schoolId s = VisitDoc.schoolId v))
                      schools = [s]) docs →
  Forall2 (λ v tv, ∃ s, s ∈ schools
                        ∧ SchoolDoc.schoolId s = VisitDoc.schoolId v
                        ∧ tv = project (v, s))
          docs (project <$> unwindSchool (lookupSchools schools docs)).
Proof.
  unfold unwindSchool, lookupSchools.
  induction 1 as [|v docs [s Hs] _ IH]; csimpl; [constructor|].
  rewrite Hs. csimpl. constructor; [|exact IH].
  exists s. assert (s ∈ [s]) as Hin by by left.
  rewrite <- Hs in Hin.
  apply list_elem_of_In, List.filter_In in Hin as [Hin Heq].
  apply bool_decide_eq_true in Heq.
  split; [by apply list_elem_of_In | done].
Qed.

(** X18. When every visit of the trainer (of the given status, when a
    non-empty one is given) has exactly one school document with its
    schoolId, getTrainerVisits returns exactly one result per such visit, in
    collection order, each carrying the visit's fields and that school. *)
Theorem getTrainerVisits_each_once trainerId status w :
  (∀ v, v ∈ visits w → matchesTrainer trainerId status v →
        ∃ s, List.filter
               (λ s, bool_decide (SchoolDoc.schoolId s = VisitDoc.schoolId v))
               (schools w) = [s]) →
  ∃ tvs matched,
    getTrainerVisits trainerId status w = (Ok tvs, w)
    ∧ sublist matched (visits w)
    ∧ (∀ v, v ∈ matched ↔ v ∈ visits w ∧ matchesTrainer trainerId status v)
    ∧ tv_id <$> tvs = VisitDoc._id <$> matched
    ∧ Forall2 (λ v tv, ∃ s, s ∈ schools w
                            ∧ SchoolDoc.schoolId s = VisitDoc.schoolId v
                            ∧ tv = project (v, s))
              matched tvs.
Proof.
  intros Hone. rewrite getTrainerVisits_eval.
  set (stage := if truthy status then _ else _).
  assert (∀ v, v ∈ List.filter stage (visits w)
               ↔ v ∈ visits w ∧ matchesTrainer trainerId status v) as Hstage.
  { intros v. rewrite !list_elem_of_In, List.filter_In.
    unfold stage. by rewrite matchStage_matchesTrainer. }
  assert (Forall2 (λ v tv, ∃ s, s ∈ schools w
                                ∧ SchoolDoc.schoolId s = VisitDoc.schoolId v
                                ∧ tv = project (v, s))
            (List.filter stage (visits w))
            (project <$> unwindSchool (lookupSchools (schools w)
                                         (List.filter stage (visits w)))))
    as Hpairs.
  { apply unwind_lookup_single, Forall_forall. intros v Hv.
    apply Hstage in Hv as [Hin Hm]. by apply Hone. }
  eexists _, (List.filter stage (visits w)). split; [reflexivity|].
  split.
  { clear. induction (visits w) as [|v l IH]; simpl; [done|].
    destruct (stage v); [by apply sublist_skip | by apply sublist_cons]. }
  split; [exact Hstage|]. split; [|exact Hpairs].
  clear -Hpairs. induction Hpairs as [|v tv l k (s & _ & _ & ->) _ IH]; csimpl;
    [done | by f_equal].
Qed.

Lemma getTrainerVisits_each_once_witness :
  ∃ tvs,
    getTrainerVisits 1 (Some "scheduled")
      (mkWorld [VisitDoc.mk 5 1 "SCH100001" "2024-03-01" "10:00" None "scheduled"
                            None None None None None None 7]
               [trainerT1] (schools worldU1) [] 6 [])
    = (Ok tvs, mkWorld [VisitDoc.mk 5 1 "SCH100001" "2024-03-01" "10:00" None
                          "scheduled" None None None None None None 7]
                 [trainerT1] (schools worldU1) [] 6 [])
    ∧ tv_id <$> tvs = [5].
Proof.
  destruct (getTrainerVisits_each_once 1 (Some "scheduled")
              (mkWorld [VisitDoc.mk 5 1 "SCH100001" "2024-03-01" "10:00" None
                          "scheduled" None None None None None None 7]
                 [trainerT1] (schools worldU1) [] 6 []))
    as (tvs & matched & Hrun & _ & _ & Hids & _).
  - intros v [->|[]%elem_of_nil]%elem_of_cons _. by eexists.
  - exists tvs. split; [exact Hrun|].
    vm_compute in Hrun. injection Hrun as <-. reflexivity.
Defined.

(** ** getSchoolIdsAndStudentCount: bounds and the trainer without visits *)

Lemma length_newSet xs : length (newSet xs) ≤ length xs.
Proof.
  apply submseteq_length, NoDup_submseteq; [apply newSet_NoDup|].
  intros x. by rewrite elem_of_newSet.
Qed.

Lemma length_List_filter {A} (p : A → bool) (l : list A) :
  length (List.filter p l) ≤ length l.
Proof.
  induction l as [|x l IH]; simpl; [done|]. destruct (p x); simpl; lia.
Qed.

(** X19. For a trainer identifier that is an ObjectId (the identifiers of
    this model; the cast [mongoose.Types.ObjectId(trainerId)] of any other
    argument is outside it), the summary getSchoolIdsAndStudentCount returns
    is bounded by the store, which it leaves as it is: totalSchools is at
    most the number of the trainer's visits and at least one as soon as
    there is a visit, totalStudents is at most the number of students on
    record, and a trainer without any visit gets zero schools, zero
    students and no status key. *)
Theorem getSchoolIdsAndStudentCount_bounds trainerId w :
  let mine := List.filter (λ v, bool_decide (VisitDoc.trainer v = trainerId))
                          (visits w) in
  ∃ summary,
    getSchoolIdsAndStudentCount trainerId w = (Ok summary, w)
    ∧ totalSchools summary ≤ length mine
    ∧ totalStudents summary ≤ length (students w)
    ∧ (mine = [] → summary = mkTrainerSummary 0 0 ∅)
    ∧ (mine ≠ [] → 1 ≤ totalSchools summary).
Proof.
  intros mine.
  unfold getSchoolIdsAndStudentCount, LifeTrainerVisit.find,
    Student.countDocuments, aggregate.
  run_monad. fold mine. eexists. split; [reflexivity|]. simpl.
  split; [|split; [|split]].
  - etransitivity; [apply length_newSet|]. by rewrite length_fmap.
  - apply length_List_filter.
  - intros ->. simpl. f_equal.
    induction (students w) as [|st l IH]; simpl; done.
  - intros Hne. destruct mine as [|v mine']; [done|].
    assert (VisitDoc.schoolId v ∈ newSet (VisitDoc.schoolId <$> v :: mine'))
      as Hin by (apply elem_of_newSet; left).
    destruct (newSet _); [by apply elem_of_nil in Hin | simpl; lia].
Qed.

(** ** getBlockList and getSchoolList *)

Lemma length_filter_block (b : string) (l : list SchoolDoc.t) :
  length (List.filter (λ d, bool_decide (SchoolDoc.block d = Some b)) l)
  = length (List.filter (λ x, bool_decide (x = b)) (omap SchoolDoc.block l)).
Proof.
  induction l as [|d l IH]; [done|].
  cbn [List.filter omap list_omap].
  destruct (SchoolDoc.block d) as [x|] eqn:E.
  - cbn [List.filter]. destruct (decide (x = b)) as [->|Hne].
    + rewrite !bool_decide_eq_true_2 by done. simpl. by rewrite IH.
    + rewrite !bool_decide_eq_false_2 by congruence. done.
  - rewrite bool_decide_eq_false_2 by done. done.
Qed.

Lemma filter_all {A} (p : A → bool) (l : list A) :
  Forall (λ x, p x = true) l → List.filter p l = l.
Proof.
  induction 1 as [|x l Hx _ IH]; simpl; [done|]. by rewrite Hx, IH.
Qed.

Lemma sum_list_with_pointwise {A} (f g : A → nat) (l : list A) :
  (∀ x, f x = g x) → sum_list_with f l = sum_list_with g l.
Proof. intros H. induction l as [|x l IH]; simpl; [done|]. by rewrite H, IH. Qed.

(** X20. getBlockList and getSchoolList agree: neither changes the store;
    getBlockList lists every block once; a block is in that list exactly
    when getSchoolList returns a school for it (getSchoolList does not throw
    for an unknown block, its list is empty); each entry getSchoolList
    returns is the [_id] and name of a school of the block, in collection
    order; and over the listed blocks its lists account for every school
    that has a block, each once. *)
Theorem getBlockList_getSchoolList w :
  ∃ blocks,
    getBlockList w = (Ok blocks, w)
    ∧ NoDup blocks
    ∧ (∀ block, ∃ items,
         getSchoolList block w = (Ok items, w)
         ∧ (block ∈ blocks ↔ items ≠ [])
         ∧ items
           = (λ d, mkSchoolListItem (SchoolDoc._id d) (SchoolDoc.name d))
               <$> List.filter (λ d, bool_decide (SchoolDoc.block d = Some block))
                               (schools w))
    ∧ sum_list_with
        (λ block, length (List.filter
                            (λ d, bool_decide (SchoolDoc.block d = Some block))
                            (schools w)))
        blocks
      = length (omap SchoolDoc.block (schools w)).
Proof.
  exists (newSet (omap SchoolDoc.block (schools w))).
  split; [done|]. split; [apply newSet_NoDup|]. split.
  - intros block. eexists. split; [reflexivity|]. split; [|done].
    rewrite elem_of_newSet, list_elem_of_omap. split.
    + intros (d & Hd & Hb) Hnil. apply fmap_nil_inv in Hnil.
      assert (d ∈ List.filter
                    (λ d, bool_decide (SchoolDoc.block d = Some block)) (schools w))
        as Hin.
      { apply list_elem_of_In, List.filter_In.
        split; [by apply list_elem_of_In | by apply bool_decide_eq_true_2]. }
      rewrite Hnil in Hin. by apply elem_of_nil in Hin.
    + intros Hne.
      destruct (List.filter _ (schools w)) as [|d found] eqn:E; [done|].
      assert (d ∈ d :: found) as Hin by by left.
      rewrite <- E in Hin.
      apply list_elem_of_In, List.filter_In in Hin as [Hin Hb].
      apply bool_decide_eq_true in Hb.
      exists d. split; [by apply list_elem_of_In | done].
  - rewrite (sum_list_with_pointwise _ _ _ (λ b, length_filter_block b (schools w))).
    rewrite <- (count_in_NoDup id) by apply newSet_NoDup.
    f_equal. apply filter_all, Forall_forall. intros x Hx. simpl.
    apply bool_decide_eq_true_2. by apply elem_of_newSet.
Qed.
